(** * Sealed-bid auction front end: commitment codec, lot window, address
      comparators and the guarded handlers of [app/page.tsx].

    The development embeds the page component shallowly.  JavaScript
    [bigint] values are integers of [Z]; [number] values holding times are
    integers of [Z] too (the page only ever stores whole seconds in them),
    which is exact as long as the numbers and the results of their
    arithmetic stay within [Number.MAX_SAFE_INTEGER]: the statements about
    the values of times carry that bound.  Strings are [string], read as
    sequences of code units below 256.  The
    Poseidon hash comes from the [micro-starknet] package and is a parameter
    of the development.

    Part I holds the embedding, Part II the properties. *)

From Stdlib Require Import ZArith Lia Bool List Ascii String.
From Stdlib Require Import Hexadecimal HexadecimalFacts HexadecimalN HexadecimalZ.
From Stdlib Require Import HexadecimalString.
From Stdlib Require Import Decimal DecimalN DecimalZ DecimalString.
From Stdlib Require Import Sorted.
From stdpp Require Import base option strings gmap.

Import ListNotations.
Local Open Scope Z_scope.
Local Open Scope string_scope.

(* ===================================================================== *)
(** * Part I. The embedding                                               *)
(* ===================================================================== *)

(** ** JavaScript strings *)

Module Js.

(** Code units that [trim] and the numeric grammar treat as white space
    (TAB, LF, VT, FF, CR, SP, NBSP). *)
Definition is_ws (c : ascii) : bool :=
  let n := N_of_ascii c in
  ((9 <=? n) && (n <=? 13) || (n =? 32) || (n =? 160))%N.

Fixpoint trim_start (s : string) : string :=
  match s with
  | String c s' => if is_ws c then trim_start s' else s
  | EmptyString => EmptyString
  end.

Fixpoint trim_end (s : string) : string :=
  match s with
  | String c s' =>
      let r := trim_end s' in
      if is_ws c && String.eqb r "" then "" else String c r
  | EmptyString => EmptyString
  end.

Definition trim (s : string) : string := trim_end (trim_start s).

Fixpoint drop (n : nat) (s : string) : string :=
  match n, s with
  | S n', String _ s' => drop n' s'
  | _, _ => s
  end.

(** [s.replace(pat, rep)] with a string pattern: the first occurrence only. *)
Fixpoint replace (pat rep s : string) : string :=
  if String.prefix pat s then rep ++ drop (String.length pat) s
  else match s with
       | String c s' => String c (replace pat rep s')
       | EmptyString => EmptyString
       end.

(** [s.replace(/^0+/, "")] *)
Fixpoint strip_leading_zeros (s : string) : string :=
  match s with
  | String c s' => if Ascii.eqb c "0" then strip_leading_zeros s' else s
  | EmptyString => EmptyString
  end.

(** [hay.includes(needle)] *)
Fixpoint includes (needle hay : string) : bool :=
  String.prefix needle hay
  || match hay with
     | String _ hay' => includes needle hay'
     | EmptyString => false
     end.

(** [k] code units of filler, cycling through [fill] starting at [cur]. *)
Fixpoint filler (k : nat) (fill cur : string) : string :=
  match k with
  | O => ""
  | S k' =>
      match cur with
      | String c r => String c (filler k' fill r)
      | EmptyString =>
          match fill with
          | String c r => String c (filler k' fill r)
          | EmptyString => ""
          end
      end
  end.

(** [s.padStart(n, fill)] *)
Definition padStart (n : nat) (fill s : string) : string :=
  filler (n - String.length s) fill fill ++ s.

Definition lower_char (c : ascii) : ascii :=
  let n := N_of_ascii c in
  if ((65 <=? n) && (n <=? 90)
      || (192 <=? n) && (n <=? 222) && negb (n =? 215))%N
  then ascii_of_N (n + 32) else c.

(** [s.toLowerCase()] *)
Fixpoint toLowerCase (s : string) : string :=
  match s with
  | String c s' => String (lower_char c) (toLowerCase s')
  | EmptyString => EmptyString
  end.

(** *** Numeric literals of [BigInt(string)] *)

(** One hexadecimal digit in front of already parsed digits; both letter
    cases are digits. *)
Definition hex_digit (c : ascii) (d : option Hexadecimal.uint)
  : option Hexadecimal.uint :=
  match d with
  | None => None
  | Some u =>
      match HexadecimalString.uint_of_char c (Some u) with
      | Some r => Some r
      | None =>
          if Ascii.eqb c "A" then Some (Da u)
          else if Ascii.eqb c "B" then Some (Db u)
          else if Ascii.eqb c "C" then Some (Dc u)
          else if Ascii.eqb c "D" then Some (Dd u)
          else if Ascii.eqb c "E" then Some (De u)
          else if Ascii.eqb c "F" then Some (Df u)
          else None
      end
  end.

Fixpoint hex_uint_of_string (s : string) : option Hexadecimal.uint :=
  match s with
  | EmptyString => Some Hexadecimal.Nil
  | String c s' => hex_digit c (hex_uint_of_string s')
  end.

Definition parse_hex (ds : string) : option Z :=
  match ds with
  | EmptyString => None
  | _ => (fun u => Z.of_N (N.of_hex_uint u)) <$> hex_uint_of_string ds
  end.

Definition parse_dec (ds : string) : option Z :=
  (fun u => Z.of_N (N.of_uint u)) <$> DecimalString.NilZero.uint_of_string ds.

(** Digits of a small radix (octal, binary), most significant first. *)
Fixpoint radix_digits (base : N) (ds : string) (acc : N) : option N :=
  match ds with
  | EmptyString => Some acc
  | String c ds' =>
      let n := N_of_ascii c in
      if ((48 <=? n) && (n <? 48 + base))%N
      then radix_digits base ds' (acc * base + (n - 48))%N
      else None
  end.

Definition parse_radix (base : N) (ds : string) : option Z :=
  match ds with
  | EmptyString => None
  | _ => Z.of_N <$> radix_digits base ds 0%N
  end.

Definition parse_signed_dec (t : string) : option Z :=
  match t with
  | String c ds =>
      if Ascii.eqb c "+" then parse_dec ds
      else if Ascii.eqb c "-" then Z.opp <$> parse_dec ds
      else parse_dec t
  | EmptyString => None
  end.

(** The literal left once white space is trimmed. *)
Definition parse_literal (t : string) : option Z :=
  match t with
  | EmptyString => Some 0
  | String c0 (String c1 ds) as t =>
      if Ascii.eqb c0 "0" && (Ascii.eqb c1 "x" || Ascii.eqb c1 "X")
      then parse_hex ds
      else if Ascii.eqb c0 "0" && (Ascii.eqb c1 "o" || Ascii.eqb c1 "O")
      then parse_radix 8 ds
      else if Ascii.eqb c0 "0" && (Ascii.eqb c1 "b" || Ascii.eqb c1 "B")
      then parse_radix 2 ds
      else parse_signed_dec t
  | t => parse_signed_dec t
  end.

(** [BigInt(s)] for a string: [None] stands for the [SyntaxError]. *)
Definition StringToBigInt (s : string) : option Z := parse_literal (trim s).

(** [z.toString()] *)
Definition toString (z : Z) : string :=
  DecimalString.NilZero.string_of_int (Z.to_int z).

(** [z.toString(16)] *)
Definition toString16 (z : Z) : string :=
  HexadecimalString.NilZero.string_of_int (Z.to_hex_int z).

(** *** Values of type [any] reaching the address helpers *)

Inductive any : Type :=
| undefined
| str (s : string)
| bigint (z : Z).

(** [!v] *)
Definition falsy (v : any) : bool :=
  match v with
  | undefined => true
  | str s => String.eqb s ""
  | bigint z => Z.eqb z 0
  end.

(** [String(v)] *)
Definition String_ (v : any) : string :=
  match v with
  | undefined => "undefined"
  | str s => s
  | bigint z => toString z
  end.

(** [BigInt(v)]: [None] stands for the thrown error. *)
Definition BigInt (v : any) : option Z :=
  match v with
  | undefined => None
  | str s => StringToBigInt s
  | bigint z => Some z
  end.

(** *** Shapes of strings named in statements *)

Definition is_lower_hex_digit (c : ascii) : bool :=
  let n := N_of_ascii c in
  ((48 <=? n) && (n <=? 57) || (97 <=? n) && (n <=? 102))%N.

(** Every code unit is one of [0-9a-f]. *)
Fixpoint all_lower_hex (s : string) : bool :=
  match s with
  | String c s' => is_lower_hex_digit c && all_lower_hex s'
  | EmptyString => true
  end.

(** The double quote, as a one-character string. *)
Definition dquote : string := String (ascii_of_nat 34) EmptyString.

(** [Number.MAX_SAFE_INTEGER]: up to it every whole number is a [number]
    and sums and differences of whole numbers are exact. *)
Definition MAX_SAFE_INTEGER : Z := 2 ^ 53 - 1.

End Js.

(** ** The page component *)

Module Page.
Import Js.

(** *** Address helpers (module level) *)

(** [toHexAddress]: a 64-digit hexadecimal spelling with [0x] in front. *)
Definition toHexAddress (addr : any) : string :=
  if falsy addr then "0x0"
  else match BigInt addr with
       | Some big => "0x" ++ padStart 64 "0" (toString16 big)
       | None => String_ addr
       end.

(** [normalizeAddress]: leading zeros removed, [0x] in front. *)
Definition normalizeAddress (addr : any) : string :=
  if falsy addr then ""
  else
    let addrStr := String_ addr in
    let hex := strip_leading_zeros (replace "0x" "" addrStr) in
    "0x" ++ (if String.eqb hex "" then "0" else hex).

Definition DEFAULT_PRODUCER : string :=
  "0x0626bb9241ba6334ae978cfce1280d725e727a6acb5e61392ab4cee031a4b7ca".

(** *** 128-bit split *)

(** [const mask = (1n << 128n) - 1n] *)
Definition mask : Z := Z.shiftl 1 128 - 1.

Record Split := { low : Z; high : Z }.

(** [splitU256]: [low = value & mask], [high = value >> 128n]. *)
Definition splitU256 (value : Z) : Split :=
  {| low := Z.land value mask; high := Z.shiftr value 128 |}.

(** *** Data held by the page *)

(** A lot as [fetchAllLots] stores it in the [lots] state. *)
Record Lot := {
  id : Z;
  productor : string;
  raza : string;
  peso_inicial : option string;
  cantidad_animales : option string;
  metadata_uri : string;
  start_time : Z;
  duration : Z;
  finalizado : bool;
  mejor_puja : string;
  mejor_postor : string;
  paymentDone : option bool
}.

(** [interface Bid] *)
Module Bid.
Record t := {
  secret : string;
  amount : string;
  lot_id : string;
  winner : string;
  commitment : string
}.
End Bid.

(** What [localStorage] holds under a key.  The page stores JSON text; the
    embedding keeps the value that [JSON.parse] gives back for the shapes the
    page itself writes. *)
Inductive Stored : Type :=
| JBid (b : Bid.t)
| JBids (bs : list Bid.t)
| Raw (s : string).

(** The state and hook values a handler closes over in one render. *)
Record Snapshot := {
  contract : option string;                 (* contractRef.current, by address *)
  isCavosAuth : bool;
  cavosAddress : any;
  walletAccount : option any;               (* the wallet and its address *)
  isOwner : bool;
  nextLotId : string;
  newProductor : string;
  newRaza : string;
  newPeso : string;
  newCantidad : string;
  newMetadataHash : string;
  newDuration : string;
  lots : list Lot;
  selectedLotId : string;
  selectedLotInfo : option Lot;
  currentTime : Z;
  amount : string;
  nonce : string;
  committed : bool
}.

(** [const activeAccount = isCavosAuth ? cavosAddress : walletAccount] is
    only ever tested for absence. *)
Definition activeAccount_falsy (p : Snapshot) : bool :=
  if isCavosAuth p then falsy (cavosAddress p)
  else match walletAccount p with Some _ => false | None => true end.

(** [isCavosAuth ? cavosAddress : walletAccount?.address] *)
Definition activeAccountAddress (p : Snapshot) : any :=
  if isCavosAuth p then cavosAddress p
  else match walletAccount p with Some a => a | None => undefined end.

(** *** Lot window *)

(** [isAuctionActive], with the [currentTime] state of the render.  The sum
    is a sum of [number]s, which is the sum in [Z] within [safeWindow]. *)
Definition isAuctionActive (currentTime : Z) (lot : option Lot) : bool :=
  match lot with
  | None => false
  | Some lot =>
      if finalizado lot then false
      else
        let endTime := start_time lot + duration lot in
        Z.ltb currentTime endTime
  end.

(** [getTimeRemaining].  Sum, difference, remainders and the floored
    quotients are those of [number]s, which are those of [Z] within
    [safeWindow]. *)
Definition getTimeRemaining (currentTime : Z) (lot : option Lot) : string :=
  match lot with
  | None => ""
  | Some lot =>
      let endTime := start_time lot + duration lot in
      let remaining := endTime - currentTime in
      if Z.leb remaining 0 then "Ended"
      else
        let hours := remaining / 3600 in
        let minutes := (remaining mod 3600) / 60 in
        let seconds := remaining mod 60 in
        toString hours ++ "h " ++ toString minutes ++ "m "
          ++ toString seconds ++ "s"
  end.

(** The times of a lot and of the clock are non-negative whole numbers and
    the end of the window is a safe integer: then every [number] the two
    functions above compute is exact. *)
Definition safeWindow (currentTime : Z) (lot : Lot) : bool :=
  Z.leb 0 (start_time lot) && Z.leb 0 (duration lot)
  && Z.leb (start_time lot + duration lot) MAX_SAFE_INTEGER
  && Z.leb 0 currentTime && Z.leb currentTime MAX_SAFE_INTEGER.

(** *** Commitment codec *)

Section Codec.

(** [poseidonHashMany] of [micro-starknet]. *)
Variable poseidonHashMany : list Z -> Z.

(** The field sequence hashed by [computeCommitment]. *)
Definition commitmentInput (secret amount lot_id winnerBigInt : Z) : list Z :=
  let amountLow := low (splitU256 amount) in
  let lotIdLow := low (splitU256 lot_id) in
  [secret; amountLow; lotIdLow; winnerBigInt].

(** [computeCommitment]: [inr] carries the message of the rethrown error. *)
Definition computeCommitment (secret amount lot_id : Z) (winner : string)
  : string + string :=
  match BigInt (str winner) with
  | None => inr ("Cannot convert " ++ winner ++ " to a BigInt")
  | Some winnerBigInt =>
      let hash :=
        poseidonHashMany (commitmentInput secret amount lot_id winnerBigInt) in
      inl (toString hash)
  end.

(** The body of the [calculatedCommitment] memo.  [split] is the
    [splitU256] binding as the body finds it: [None] while the [const]
    declaration has not been evaluated in the current call of the
    component; reading it then throws a [ReferenceError], which the bare
    [catch] turns into the empty string. *)
Definition previewMemo (split : option (Z -> Split)) (p : Snapshot)
  : string :=
  if String.eqb (amount p) "" || String.eqb (nonce p) "" || committed p
  then ""
  else
    match BigInt (str (amount p)) with
    | None => ""
    | Some amountBig =>
        match BigInt (str (nonce p)) with
        | None => ""
        | Some nonceBig =>
            match split with
            | None => ""
            | Some splitU256 =>
                let s := splitU256 amountBig in
                toString (poseidonHashMany [low s; high s; nonceBig])
            end
        end
    end.

(** [calculatedCommitment]: [useMemo] runs the body at once, where the
    component calls it (line 271); [const splitU256] is declared further
    down (line 496) and is not yet initialised there. *)
Definition calculatedCommitment (p : Snapshot) : string :=
  previewMemo None p.

End Codec.

(** *** Owner check *)



(** *** The world outside the page *)

(** An awaited promise. *)
Inductive Result (A : Type) : Type :=
| Resolved (a : A)
| Rejected (message : string).
Arguments Resolved {A} a.
Arguments Rejected {A} message.

Inductive Arg : Type :=
| AStr (s : string)
| ABig (z : Z)
| AArr (xs : list string).

(** What [contract.populate] builds and the accounts execute. *)
Record Call := {
  contractAddress : string;
  entrypoint : string;
  calldata : list Arg
}.

Record Receipt := {
  execution_status : string;
  revert_reason : option string
}.

(** A [fetch] response of the proof backend. *)
Record Response := {
  ok : bool;
  status : Z;
  text : Result string;
  json : Result (list string)               (* the [calldata] member *)
}.

Inductive Body : Type :=
| BidsBody (bids : list Bid.t)
| BidBody (bid : Bid.t).

(** The struct [get_lot_info] returns. *)
Module Info.
Record t := {
  productor : any;
  raza : Z;
  peso_inicial : option Z;
  cantidad_animales : option Z;
  metadata_uri : option string;
  start_time : Z;
  duration : Z;
  finalizado : bool;
  mejor_puja : option Z;
  mejor_postor : any
}.
End Info.

(** [debug_reveal] returns (computed, stored, account address, caller). *)
Record DebugResult := {
  computed : Z;
  stored : Z;
  accountAddress : any;
  caller : any
}.

Inductive Via : Type := Cavos | Wallet.

(** Answers of the collaborators.  A natural number tells apart the calls
    one handler run makes to the same collaborator. *)
Record World := {
  cavosExecute : nat -> Call -> Result string;
  walletExecute : Call -> Result string;
  updateSessionPolicy : bool;               (* is the hook member present *)
  registerCurrentSession : nat -> Result unit;
  sessionReady : nat -> bool;               (* did the polling see [isReady] *)
  waitForTransaction : string -> Result unit;
  getTransactionReceipt : string -> Result Receipt;
  fetch : string -> Body -> Result Response;
  get_lot_info : string -> Result Info.t;
  get_winner : string -> Result unit;
  is_payment_done : string -> Result bool;
  debug_reveal : string -> string -> string -> Result DebugResult;
  checkIfUserParticipated : string -> any -> bool
}.

(** *** What a handler does *)

Inductive ToastKind : Type := TError | TSuccess | TLoading | TCustom | TDismiss.

Record DebugInfo := {
  dbg_computed : string;
  dbg_stored : string;
  dbg_accountAddress : string;
  dbg_caller : string;
  dbg_lotId : string;
  dbg_amount : string;
  dbg_nonce : string
}.

(** State setters, toasts and calls to collaborators, in program order.
    Console output is left out. *)
Inductive Effect : Type :=
| SetErrorMessage (s : string)
| SetIsLoading (b : bool)
| SetCommitted (b : bool)
| SetCommitment (s : string)
| SetRevealed (b : bool)
| SetParticipatedLotes (lotId : string) (b : bool)
| SetProofGeneratedLotes (lotId : string) (b : bool)
| SetZkFinalizedLotes (lotId : string) (b : bool)
| SetSelectedLotInfo (lot : Lot)
| SetLots (ls : list Lot)
| SetDebugData (d : DebugInfo)
| SetNewProductor (s : string)
| SetNewRaza (s : string)
| SetNewPeso (s : string)
| SetNewCantidad (s : string)
| SetNewMetadataHash (s : string)
| SetNewDuration (s : string)
| Toast (k : ToastKind) (message : string)
| ComputeCommitment (secret amount lot_id : Z) (winner : string)
| Execute (via : Via) (c : Call)
| UpdateSessionPolicy
| RegisterCurrentSession
| WaitForSessionReady (timeout : Z)
| WaitForTransaction (hash : string)
| GetTransactionReceipt (hash : string)
| Fetch (url : string) (body : Body)
| View (fn : string) (args : list string)
| CheckIfUserParticipated (lotId : string) (user : any)
| FetchAllLots (showRefreshing : bool).

(** [localStorage] and the effects so far. *)
Record Sys := {
  localStorage : gmap string Stored;
  trace : list Effect
}.

(** How a piece of a handler ends: normally, by [return], or by [throw]. *)
Inductive Completion (A : Type) : Type :=
| Normal (a : A)
| Return_
| Throw (message : string).
Arguments Normal {A} a.
Arguments Return_ {A}.
Arguments Throw {A} message.

Definition M (A : Type) : Type := Sys -> Sys * Completion A.

#[export] Instance M_ret : MRet M := fun A a s => (s, Normal a).

#[export] Instance M_bind : MBind M := fun A B k m s =>
  match m s with
  | (s', Normal a) => k a s'
  | (s', Return_) => (s', Return_)
  | (s', Throw e) => (s', Throw e)
  end.

Definition emit (e : Effect) : M unit := fun s =>
  ({| localStorage := localStorage s; trace := trace s ++ [e] |}, Normal tt).

Definition throw {A} (message : string) : M A := fun s => (s, Throw message).

Definition return_ {A} : M A := fun s => (s, Return_).

Definition await {A} (r : Result A) : M A :=
  match r with
  | Resolved a => mret a
  | Rejected message => throw message
  end.

(** [try { body } catch (e) { handler }] producing a value. *)
Definition try_catch {A} (body : M A) (handler : string -> M A) : M A :=
  fun s =>
    match body s with
    | (s', Throw e) => handler e s'
    | r => r
    end.

(** [try { body } catch (e) { handler } finally { fin }] *)
Definition try_catch_finally (body : M unit) (handler : string -> M unit)
    (fin : M unit) : M unit :=
  fun s =>
    let '(s1, c1) := try_catch body handler s in
    match fin s1 with
    | (s2, Normal _) => (s2, c1)
    | r => r
    end.

Definition getItem (key : string) : M (option Stored) := fun s =>
  (s, Normal (localStorage s !! key)).

Definition setItem (key : string) (v : Stored) : M unit := fun s =>
  ({| localStorage := <[key := v]> (localStorage s); trace := trace s |},
   Normal tt).

Definition removeItem (key : string) : M unit := fun s =>
  ({| localStorage := delete key (localStorage s); trace := trace s |},
   Normal tt).

(** [BigInt(s)] inside a handler. *)
Definition toBigInt (s : string) : M Z :=
  match BigInt (str s) with
  | Some z => mret z
  | None => throw ("Cannot convert " ++ s ++ " to a BigInt")
  end.

(** [JSON.parse(localStorage.getItem(key) || "[]")] read as a list of bids. *)
Definition getBids (key : string) : M (list Bid.t) :=
  v ← getItem key;
  match v with
  | None => mret []
  | Some (JBids bs) => mret bs
  | Some (Raw s) =>
      if String.eqb s "" then mret []
      else throw ("Unexpected token in JSON: " ++ s)
  | Some (JBid _) => throw "bids is not an array"
  end.

(** [e.message || JSON.stringify(e)] *)
Definition errorText (message : string) : string :=
  if String.eqb message "" then "{}" else message.

(** [x?.toString() || "0"] *)
Definition toStringOr0 (x : option Z) : string :=
  match x with
  | Some z => toString z
  | None => "0"
  end.

(** *** The handlers of one render *)

Section Handlers.

Variable poseidonHashMany : list Z -> Z.
Variable w : World.
Variable p : Snapshot.

Definition absent {A} (o : option A) : bool :=
  match o with Some _ => false | None => true end.

(** [contractRef.current.populate(fn, args)] *)
Definition populate (fn : string) (args : list Arg) : M Call :=
  match contract p with
  | Some addr =>
      mret {| contractAddress := addr; entrypoint := fn; calldata := args |}
  | None => throw "Cannot read properties of undefined (reading 'populate')"
  end.

(** [computeCommitment] as a handler step; the call is recorded. *)
Definition callComputeCommitment (secret amount lot_id : Z) (winner : string)
  : M string :=
  emit (ComputeCommitment secret amount lot_id winner);;
  match computeCommitment poseidonHashMany secret amount lot_id winner with
  | inl c => mret c
  | inr message => throw message
  end.

(** [executeTransaction]: Cavos first, with one retry after registering the
    session; the wallet otherwise. *)
Definition executeTransaction (call : Call) : M string :=
  if isCavosAuth p then
    emit (Execute Cavos call);;
    try_catch (await (cavosExecute w 0 call)) (fun message =>
      if includes "Session not registered" message then
        emit (Toast TLoading "Updating policy and registering session...");;
        try_catch
          ((if updateSessionPolicy w then emit UpdateSessionPolicy
            else mret tt);;
           emit RegisterCurrentSession;;
           await (registerCurrentSession w 1);;
           emit (Toast TSuccess "Session activated!");;
           emit (Execute Cavos call);;
           await (cavosExecute w 1 call))
          (fun regError =>
             emit (Toast TError ("Auto-activation failed: " ++ regError));;
             emit (Toast TError
                     ("Please use the " ++ dquote ++ "Activate" ++ dquote
                        ++ " button next to your address and try again."));;
             throw ("Failed to activate session: " ++ regError))
      else throw message)
  else
    match walletAccount p with
    | Some _ => emit (Execute Wallet call);; await (walletExecute w call)
    | None => throw "No account connected"
    end.

(** The submission written out in [handleReveal], [handleZKProof] and
    [handleFinalizeWithZK]: no retry. *)
Definition executeDirect (call : Call) : M string :=
  if isCavosAuth p then
    emit (Execute Cavos call);; await (cavosExecute w 0 call)
  else
    match walletAccount p with
    | Some _ => emit (Execute Wallet call);; await (walletExecute w call)
    | None => throw "No account connected"
    end.

(** [waitForTransaction] then [getTransactionReceipt]; anything but
    [SUCCEEDED] throws, with [what] in front of the message. *)
Definition awaitReceipt (what : string) (txHash : string) : M unit :=
  emit (WaitForTransaction txHash);;
  await (waitForTransaction w txHash);;
  emit (GetTransactionReceipt txHash);;
  receipt ← await (getTransactionReceipt w txHash);
  if negb (String.eqb (execution_status receipt) "SUCCEEDED") then
    throw (what ++ execution_status receipt ++ " - "
             ++ match revert_reason receipt with
                | Some r => if String.eqb r "" then "unknown" else r
                | None => "unknown"
                end)
  else mret tt.

(** [handleCreateLot] *)
Definition handleCreateLot : M unit :=
  emit (SetErrorMessage "");;
  if absent (contract p) || activeAccount_falsy p then return_
  else if negb (isOwner p) then
    emit (SetErrorMessage "❌ Only the owner can create lots");;
    return_
  else
    emit (SetIsLoading true);;
    try_catch_finally
      (let metadataUri :=
         if String.prefix "ipfs://" (newMetadataHash p) then newMetadataHash p
         else "ipfs://" ++ newMetadataHash p in
       lotId ← toBigInt (nextLotId p);
       peso ← toBigInt (newPeso p);
       cantidad ← toBigInt (newCantidad p);
       dur ← toBigInt (newDuration p);
       call ← populate "create_lot"
                [ABig lotId; AStr (newProductor p); AStr (newRaza p);
                 ABig peso; ABig cantidad; AStr metadataUri; ABig dur];
       tx ← executeTransaction call;
       emit (WaitForTransaction tx);;
       await (waitForTransaction w tx);;
       emit (Toast TSuccess "✅ Lot created successfully");;
       emit (SetNewProductor DEFAULT_PRODUCER);;
       emit (SetNewRaza "");;
       emit (SetNewPeso "");;
       emit (SetNewCantidad "");;
       emit (SetNewMetadataHash "");;
       emit (SetNewDuration "360000");;
       emit (FetchAllLots false))
      (fun e => emit (Toast TError ("❌ Failed to create lot: " ++ errorText e)))
      (emit (SetIsLoading false)).

(** [waitForSessionReady] of [handleCommit]; the polling loop is the
    collaborator's answer. *)
Definition waitForSessionReady (site : nat) (timeout : Z) : M bool :=
  if negb (isCavosAuth p) then mret true
  else emit (WaitForSessionReady timeout);; mret (sessionReady w site).

(** [handleCommit] *)
Definition handleCommit : M unit :=
  emit (SetErrorMessage "");;
  if absent (contract p) || falsy (activeAccountAddress p)
     || String.eqb (selectedLotId p) "" then return_
  else if negb (isAuctionActive (currentTime p) (selectedLotInfo p)) then
    emit (Toast TError "❌ Auction is not active");;
    return_
  else
    emit (SetIsLoading true);;
    try_catch_finally
      ((if isCavosAuth p then
          ready ← waitForSessionReady 0 15000;
          if negb ready then
            emit (Toast TLoading "Activating session on‑chain...");;
            try_catch
              (emit RegisterCurrentSession;;
               await (registerCurrentSession w 0);;
               emit (Toast TDismiss "session-act");;
               readyAfterReg ← waitForSessionReady 1 5000;
               if negb readyAfterReg then
                 throw "Session still not ready after registration"
               else mret tt)
              (fun regError =>
                 emit (Toast TDismiss "session-act");;
                 throw ("Failed to activate session: " ++ regError))
          else mret tt
        else mret tt);;
       secretBig ← toBigInt (nonce p);
       amountBig ← toBigInt (amount p);
       lotIdBig ← toBigInt (selectedLotId p);
       let winnerAddr := activeAccountAddress p in
       poseidonCommitment ←
         callComputeCommitment secretBig amountBig lotIdBig (String_ winnerAddr);
       let winnerAddrFormatted := toLowerCase (toHexAddress winnerAddr) in
       let key := "zk_" ++ selectedLotId p ++ "_" ++ winnerAddrFormatted in
       let record :=
         {| Bid.secret := nonce p;
            Bid.amount := amount p;
            Bid.lot_id := selectedLotId p;
            Bid.winner := winnerAddrFormatted;
            Bid.commitment := poseidonCommitment |} in
       setItem key (JBid record);;
       let bidsKey := "bids_" ++ selectedLotId p in
       currentBids ← getBids bidsKey;
       setItem bidsKey (JBids (currentBids ++ [record]));;
       call ← populate "commit_bid"
                [AStr (selectedLotId p); AStr poseidonCommitment];
       tx ← executeTransaction call;
       awaitReceipt "Commit transaction failed: " tx;;
       emit (SetCommitment poseidonCommitment);;
       emit (SetCommitted true);;
       emit (CheckIfUserParticipated (selectedLotId p) (activeAccountAddress p));;
       let participated :=
         checkIfUserParticipated w (selectedLotId p) (activeAccountAddress p) in
       emit (SetParticipatedLotes (selectedLotId p) participated);;
       emit (Toast TSuccess "✅ Commit successful. Now reveal."))
      (fun e =>
         emit (Toast TError ("❌ Commit failed: " ++ errorText e));;
         emit (SetCommitted false))
      (emit (SetIsLoading false)).

(** The lot object rebuilt from a fresh [get_lot_info] answer. *)
Definition updatedLot (old : Lot) (info : Info.t) (peso_default : bool)
    (paid : option bool) : Lot :=
  let show x :=
    if peso_default then Some (toStringOr0 x) else toString <$> x in
  {| id := id old;
     productor := toHexAddress (Info.productor info);
     raza := toString (Info.raza info);
     peso_inicial := show (Info.peso_inicial info);
     cantidad_animales := show (Info.cantidad_animales info);
     metadata_uri := default "" (Info.metadata_uri info);
     start_time := Info.start_time info;
     duration := Info.duration info;
     finalizado := Info.finalizado info;
     mejor_puja := toStringOr0 (Info.mejor_puja info);
     mejor_postor := toHexAddress (Info.mejor_postor info);
     paymentDone := paid |}.

Definition debugInfo (r : DebugResult) (bid : Bid.t) : DebugInfo :=
  {| dbg_computed := toString (computed r);
     dbg_stored := toString (stored r);
     dbg_accountAddress := toHexAddress (accountAddress r);
     dbg_caller := toHexAddress (caller r);
     dbg_lotId := selectedLotId p;
     dbg_amount := Bid.amount bid;
     dbg_nonce := Bid.secret bid |}.

(** The [catch] block of [handleReveal]. *)
Definition handleReveal_catch (e : string) : M unit :=
  (if includes "Commitment mismatch" e || includes "commitment" e then
     try_catch
       (let winnerAddrFormatted :=
          toLowerCase (toHexAddress (activeAccountAddress p)) in
        let key := "zk_" ++ selectedLotId p ++ "_" ++ winnerAddrFormatted in
        storedData ← getItem key;
        match storedData with
        | Some (JBid bid) =>
            emit (View "debug_reveal"
                    [selectedLotId p; Bid.amount bid; Bid.secret bid]);;
            debugResult ←
              await (debug_reveal w (selectedLotId p) (Bid.amount bid)
                       (Bid.secret bid));
            let info := debugInfo debugResult bid in
            emit (SetDebugData info);;
            emit (Toast TError
                    ("❌ Commitment mismatch Computed: "
                       ++ String.substring 0 10 (dbg_computed info)
                       ++ "... Stored: "
                       ++ String.substring 0 10 (dbg_stored info)
                       ++ "... Account: "
                       ++ String.substring 0 10 (dbg_accountAddress info)
                       ++ "... Caller: "
                       ++ String.substring 0 10 (dbg_caller info)
                       ++ "... Check console for full details"))
        | Some (JBids _) => throw "debug_reveal: malformed arguments"
        | Some (Raw s) =>
            if String.eqb s "" then mret tt
            else throw ("Unexpected token in JSON: " ++ s)
        | None => mret tt
        end)
       (fun _ => mret tt)
   else mret tt);;
  emit (Toast TError ("❌ Reveal failed: " ++ errorText e));;
  emit (SetRevealed false).

(** [handleReveal] *)
Definition handleReveal : M unit :=
  emit (SetErrorMessage "");;
  if absent (contract p) || falsy (activeAccountAddress p)
     || String.eqb (selectedLotId p) "" then return_
  else if negb (isAuctionActive (currentTime p) (selectedLotInfo p)) then
    emit (Toast TError "❌ Auction is not active");;
    return_
  else
    emit (SetIsLoading true);;
    try_catch_finally
      (let winnerAddrFormatted :=
         toLowerCase (toHexAddress (activeAccountAddress p)) in
       let key := "zk_" ++ selectedLotId p ++ "_" ++ winnerAddrFormatted in
       storedData ← getItem key;
       match storedData with
       | Some (JBid bid) =>
           let amountToUse := Bid.amount bid in
           let nonceToUse := Bid.secret bid in
           let storedWinner := toLowerCase (Bid.winner bid) in
           if negb (String.eqb storedWinner winnerAddrFormatted) then
             emit (Toast TError "Winner address mismatch");;
             emit (SetIsLoading false);;
             return_
           else
             secretBig ← toBigInt nonceToUse;
             amountBig ← toBigInt amountToUse;
             lotIdBig ← toBigInt (selectedLotId p);
             computedCommitment ←
               callComputeCommitment secretBig amountBig lotIdBig
                 (String_ (activeAccountAddress p));
             if negb (String.eqb computedCommitment (Bid.commitment bid)) then
               emit (Toast TError "Local commitment mismatch");;
               emit (SetIsLoading false);;
               return_
             else
               amountAgain ← toBigInt amountToUse;
               let amountSplit := splitU256 amountAgain in
               lotIdAgain ← toBigInt (selectedLotId p);
               let lotSplit := splitU256 lotIdAgain in
               nonceBig ← toBigInt nonceToUse;
               let nonceHex := "0x" ++ toString16 nonceBig in
               let calldataHex :=
                 [toString (low lotSplit); toString (high lotSplit);
                  toString (low amountSplit); toString (high amountSplit);
                  nonceHex] in
               call ← populate "reveal_bid" (AStr <$> calldataHex);
               txHash ← executeDirect call;
               awaitReceipt "Reveal transaction failed: " txHash;;
               removeItem key;;
               emit (Toast TSuccess "✅ Bid revealed");;
               emit (View "get_lot_info" [selectedLotId p]);;
               updatedInfo ← await (get_lot_info w (selectedLotId p));
               match selectedLotInfo p with
               | Some old =>
                   let lot := updatedLot old updatedInfo false None in
                   emit (SetSelectedLotInfo lot);;
                   emit (SetLots
                           ((fun l =>
                               if String.eqb (toString (id l)) (selectedLotId p)
                               then lot else l) <$> lots p));;
                   emit (SetParticipatedLotes (selectedLotId p) true);;
                   emit (SetRevealed true)
               | None => throw "Cannot read properties of null (reading 'id')"
               end
       | Some (JBids _) =>
           throw "Cannot read properties of undefined (reading 'toLowerCase')"
       | Some (Raw s) =>
           if String.eqb s "" then
             emit (Toast TError "No commit data found for this account");;
             emit (SetIsLoading false);;
             return_
           else throw ("Unexpected token in JSON: " ++ s)
       | None =>
           emit (Toast TError "No commit data found for this account");;
           emit (SetIsLoading false);;
           return_
       end)
      handleReveal_catch
      (emit (SetIsLoading false)).

(** [handleZKProof]: the payment proof of the winner. *)
Definition handleZKProof : M unit :=
  if falsy (activeAccountAddress p)
     || match selectedLotInfo p with
        | Some lot => negb (finalizado lot)
        | None => true
        end
  then return_
  else if negb (String.eqb
                  (normalizeAddress
                     (match selectedLotInfo p with
                      | Some lot => str (mejor_postor lot)
                      | None => undefined
                      end))
                  (normalizeAddress (activeAccountAddress p))) then
    emit (Toast TError "Only the winner can generate the ZK proof");;
    return_
  else
    allBids ← getBids ("bids_" ++ selectedLotId p);
    if Nat.eqb (List.length allBids) 0 then
      emit (Toast TError "No bids found for this lot");;
      return_
    else
      match List.find
              (fun bid =>
                 String.eqb (normalizeAddress (str (Bid.winner bid)))
                   (normalizeAddress (activeAccountAddress p)))
              allBids with
      | None =>
          emit (Toast TError "Winning bid not found in localStorage");;
          return_
      | Some winningBid =>
          emit (SetIsLoading true);;
          try_catch_finally
            (let PAYMENT_BACKEND_URL := "/api/zk-payment" in
             emit (Toast TLoading "Generating payment proof via backend...");;
             emit (Fetch PAYMENT_BACKEND_URL (BidBody winningBid));;
             response ← await (fetch w PAYMENT_BACKEND_URL (BidBody winningBid));
             (if negb (ok response) then
                errorText ← await (text response);
                throw ("Backend error (" ++ toString (status response)
                         ++ "): " ++ errorText)
              else mret tt);;
             calldata ← await (json response);
             emit (Toast TDismiss "");;
             emit (Toast TLoading "Verifying payment on contract...");;
             call ← populate "verify_payment"
                      [AStr (selectedLotId p); AArr calldata];
             txHash ← executeDirect call;
             awaitReceipt "verify_payment failed: " txHash;;
             emit (Toast TDismiss "");;
             emit (Toast TSuccess "✅ Payment verified on‑chain");;
             emit (SetProofGeneratedLotes (selectedLotId p) true);;
             setItem ("proof_tx_" ++ selectedLotId p) (Raw txHash);;
             emit (View "is_payment_done" [selectedLotId p]);;
             await (is_payment_done w (selectedLotId p));;
             emit (FetchAllLots true))
            (fun error =>
               emit (Toast TDismiss "");;
               emit (Toast TError ("Payment failed: " ++ error)))
            (emit (SetIsLoading false))
      end.

(** [handleFinalizeWithZK]: proof-gated finalization by the owner. *)
Definition handleFinalizeWithZK : M unit :=
  if absent (contract p) || falsy (activeAccountAddress p)
     || String.eqb (selectedLotId p) "" || absent (selectedLotInfo p)
  then return_
  else if negb (isOwner p) then
    emit (Toast TError "Only the owner can finalize with ZK");;
    return_
  else if match selectedLotInfo p with
          | Some lot => finalizado lot
          | None => false
          end then
    emit (Toast TError "Lot already finalized");;
    return_
  else
    emit (SetIsLoading true);;
    try_catch_finally
      (allBids ← getBids ("bids_" ++ selectedLotId p);
       if Nat.eqb (List.length allBids) 0 then
         emit (Toast TError "No bids in this lot");;
         emit (SetIsLoading false);;
         return_
       else
         let BACKEND_URL := "/api/zk-proof" in
         emit (Toast TLoading "Generating ZK proof via backend...");;
         emit (Fetch BACKEND_URL (BidsBody allBids));;
         response ← await (fetch w BACKEND_URL (BidsBody allBids));
         (if negb (ok response) then
            errorText ← await (text response);
            throw ("Backend error (" ++ toString (status response)
                     ++ "): " ++ errorText)
          else mret tt);;
         calldata ← await (json response);
         emit (Toast TDismiss "");;
         match selectedLotInfo p with
         | None => throw "Cannot read properties of null"
         | Some lot =>
             let winner := mejor_postor lot in
             let winnerAmount := mejor_puja lot in
             (if String.eqb winner "" || String.eqb winner "0x0"
                 || String.eqb winnerAmount "0"
              then throw "No winner determined yet" else mret tt);;
             emit (Toast TLoading "Submitting ZK proof to contract...");;
             call ← populate "finalize_with_zk"
                      [AStr (selectedLotId p); AStr winner; AStr winnerAmount;
                       AArr calldata];
             txHash ← executeDirect call;
             awaitReceipt "finalize_with_zk failed: " txHash;;
             emit (Toast TDismiss "");;
             emit (Toast TSuccess "✅ Lot finalized with ZK proof!");;
             emit (View "get_lot_info" [selectedLotId p]);;
             updatedInfo ← await (get_lot_info w (selectedLotId p));
             emit (SetSelectedLotInfo
                     (updatedLot lot updatedInfo true (Some false)));;
             emit (View "get_winner" [selectedLotId p]);;
             await (get_winner w (selectedLotId p));;
             emit (FetchAllLots true);;
             emit (SetZkFinalizedLotes (selectedLotId p) true);;
             setItem ("finalize_tx_" ++ selectedLotId p) (Raw txHash);;
             emit (Toast TDismiss "");;
             emit (Toast TSuccess "✅ Lot finalized with dynamic ZK proof!")
         end)
      (fun error =>
         emit (Toast TDismiss "");;
         emit (Toast TError ("Failed: " ++ error)))
      (emit (SetIsLoading false)).

(** Running a handler from an untouched [localStorage]. *)
Definition run {A} (h : M A) (store : gmap string Stored)
  : Sys * Completion A :=
  h {| localStorage := store; trace := [] |}.

End Handlers.

(** *** Observations on a run *)

Definition is_execute (e : Effect) : bool :=
  match e with Execute _ _ => true | _ => false end.

Definition is_fetch (e : Effect) : bool :=
  match e with Fetch _ _ => true | _ => false end.

Definition is_computeCommitment (e : Effect) : bool :=
  match e with ComputeCommitment _ _ _ _ => true | _ => false end.

Definition is_setIsLoading_true (e : Effect) : bool :=
  match e with SetIsLoading true => true | _ => false end.

Definition is_setZkFinalized (e : Effect) : bool :=
  match e with SetZkFinalizedLotes _ _ => true | _ => false end.

(** A transaction was handed to an account. *)
Definition submitted (sys : Sys) : bool := existsb is_execute (trace sys).

(** A proof was asked of the backend. *)
Definition requested (sys : Sys) : bool := existsb is_fetch (trace sys).

(** [computeCommitment] was called. *)
Definition hashed (sys : Sys) : bool :=
  existsb is_computeCommitment (trace sys).

(** The handler went past its guards. *)
Definition started (sys : Sys) : bool :=
  existsb is_setIsLoading_true (trace sys).

(** The lot was marked ZK-finalized. *)
Definition markedZkFinalized (sys : Sys) : bool :=
  existsb is_setZkFinalized (trace sys).



(** The only-the-winner refusal of [handleZKProof]. *)
Definition onlyTheWinner (store : gmap string Stored)
  : Sys * Completion unit :=
  ({| localStorage := store;
      trace := [Toast TError "Only the winner can generate the ZK proof"] |},
   Return_).

(** Did the receipt of [txHash] report success. *)
Definition receiptSucceeded (w : World) (txHash : string) : bool :=
  match getTransactionReceipt w txHash with
  | Resolved r => String.eqb (execution_status r) "SUCCEEDED"
  | Rejected _ => false
  end.

End Page.

(** ** Fixtures *)

Module Fixture.
Import Js Page.

(** A stand-in for the hash, to run the codec on concrete inputs. *)
Definition polyHash (xs : list Z) : Z :=
  fold_left (fun acc x => (acc * 31 + x) mod (2 ^ 251 + 17 * 2 ^ 192 + 1)) xs 7.

Definition info1 : Info.t :=
  {| Info.productor := bigint 1574;
     Info.raza := 0;
     Info.peso_inicial := Some 420;
     Info.cantidad_animales := Some 30;
     Info.metadata_uri := Some "ipfs://lot1";
     Info.start_time := 1000;
     Info.duration := 100;
     Info.finalizado := true;
     Info.mejor_puja := Some 50;
     Info.mejor_postor := bigint 171 |}.

(** Collaborators that accept everything. *)
Definition world : World :=
  {| cavosExecute := fun _ _ => Resolved "0xcafe";
     walletExecute := fun _ => Resolved "0xbeef";
     updateSessionPolicy := true;
     registerCurrentSession := fun _ => Resolved tt;
     sessionReady := fun _ => true;
     waitForTransaction := fun _ => Resolved tt;
     getTransactionReceipt := fun _ =>
       Resolved {| execution_status := "SUCCEEDED"; revert_reason := None |};
     fetch := fun _ _ =>
       Resolved {| ok := true; status := 200; text := Resolved "";
                   json := Resolved ["0x1"; "0x2"] |};
     get_lot_info := fun _ => Resolved info1;
     get_winner := fun _ => Resolved tt;
     is_payment_done := fun _ => Resolved true;
     debug_reveal := fun _ _ _ => Rejected "not available";
     checkIfUserParticipated := fun _ _ => true |}.

(** The same collaborators with a proof backend that answers 500. *)
Definition world_backend_down : World :=
  {| cavosExecute := cavosExecute world;
     walletExecute := walletExecute world;
     updateSessionPolicy := true;
     registerCurrentSession := registerCurrentSession world;
     sessionReady := sessionReady world;
     waitForTransaction := waitForTransaction world;
     getTransactionReceipt := getTransactionReceipt world;
     fetch := fun _ _ =>
       Resolved {| ok := false; status := 500; text := Resolved "prover down";
                   json := Rejected "no body" |};
     get_lot_info := get_lot_info world;
     get_winner := get_winner world;
     is_payment_done := is_payment_done world;
     debug_reveal := debug_reveal world;
     checkIfUserParticipated := checkIfUserParticipated world |}.

(** Lot 1, opened at 1000 for 100 seconds, best bid 50 by [0x...ab]. *)
Definition lot1 (finalized : bool) : Lot :=
  {| id := 1;
     productor := toHexAddress (bigint 1574);
     raza := "0";
     peso_inicial := Some "420";
     cantidad_animales := Some "30";
     metadata_uri := "ipfs://lot1";
     start_time := 1000;
     duration := 100;
     finalizado := finalized;
     mejor_puja := "50";
     mejor_postor := toHexAddress (bigint 171);
     paymentDone := Some false |}.

(** A render for the wallet account [who] at time [now], lot 1 selected. *)
Definition snapshot (who : string) (owner finalized : bool) (now : Z)
  : Snapshot :=
  {| contract := Some "0xa11ce";
     isCavosAuth := false;
     cavosAddress := undefined;
     walletAccount := Some (str who);
     isOwner := owner;
     nextLotId := "2";
     newProductor := DEFAULT_PRODUCER;
     newRaza := "0";
     newPeso := "420";
     newCantidad := "30";
     newMetadataHash := "lot2";
     newDuration := "360000";
     lots := [lot1 finalized];
     selectedLotId := "1";
     selectedLotInfo := Some (lot1 finalized);
     currentTime := now;
     amount := "50";
     nonce := "7";
     committed := false |}.

(** The bid of [0xab] on lot 1 as [handleCommit] stores it. *)
Definition bid1 (commitment : string) : Bid.t :=
  {| Bid.secret := "7";
     Bid.amount := "50";
     Bid.lot_id := "1";
     Bid.winner := toLowerCase (toHexAddress (str "0xab"));
     Bid.commitment := commitment |}.

Definition commitment1 : string :=
  match computeCommitment polyHash 7 50 1 "0xab" with
  | inl c => c
  | inr _ => ""
  end.

Definition store1 (commitment : string) : gmap string Stored :=
  <["zk_1_" ++ toLowerCase (toHexAddress (str "0xab")) := JBid (bid1 commitment)]>
    (<["bids_1" := JBids [bid1 commitment]]> ∅).

End Fixture.

(** ** Further shapes of strings named in statements *)

Module Spelling.

(** One of the letters [A-F]. *)
Definition is_upper_hex_letter (c : ascii) : bool :=
  let n := N_of_ascii c in ((65 <=? n) && (n <=? 70))%N.

(** Some code unit is one of [A-F]. *)
Fixpoint has_upper_hex (s : string) : bool :=
  match s with
  | String c s' => is_upper_hex_letter c || has_upper_hex s'
  | EmptyString => false
  end.

End Spelling.

(** ** The rest of the page component *)

(** *** The bidder roster *)

Module Roster.
Import Js Page.

(** The two contract views [checkIfUserParticipated] reads. *)
Record Views := {
  get_bidders_count : string -> Result Z;
  get_bidder_at : string -> Z -> Result any
}.

(** The [for] loop: bidders [i], [i+1], ... for [n] more rounds. *)
Fixpoint scan (v : Views) (lotId userHex : string) (i : Z) (n : nat)
  : Result bool :=
  match n with
  | O => Resolved false
  | S n' =>
      match get_bidder_at v lotId i with
      | Rejected message => Rejected message
      | Resolved bidder =>
          let bidderHex := toLowerCase (toHexAddress bidder) in
          if String.eqb bidderHex userHex then Resolved true
          else scan v lotId userHex (i + 1) n'
      end
  end.

(** [checkIfUserParticipated]: [contract] is [contractRef.current]. *)
Definition checkIfUserParticipated (contract : option Views)
    (lotId : string) (userAddress : any) : bool :=
  match contract with
  | None => false
  | Some v =>
      if falsy userAddress then false
      else
        match get_bidders_count v lotId with
        | Rejected _ => false
        | Resolved count =>
            let countNum := count in
            let userHex := toLowerCase (toHexAddress userAddress) in
            match scan v lotId userHex 0 (Z.to_nat countNum) with
            | Resolved b => b
            | Rejected _ => false
            end
        end
  end.

End Roster.

(** *** Loading the lots *)

Module Lots.
Import Js Page.

(** What [fetchAllLots] asks of the contract and of the IPFS gateway.
    [get_winner] answers [winnerData]: nothing, or its members [0] and
    [1], the second possibly [undefined].  [fetchGateway] answers the
    response's [ok] and what [res.json()] gives. *)
Record Chain := {
  get_lot_count : Result Z;
  get_lot_info : Z -> Result Info.t;
  is_payment_done : Z -> Result bool;
  get_winner : Z -> Result (option (any * option Z));
  fetchGateway : string -> Result (bool * Result string);
  roster : Roster.Views
}.

(** [winnerRecord] of a lot object. *)
Record WinnerRecord := {
  address : string;
  amount : string
}.

(** A lot object as pushed on [lotsArray]: the members the page reads as a
    [Lot], with [metadata] and [winnerRecord]. *)
Record Row := {
  lot : Lot;
  metadata : option string;
  winnerRecord : option WinnerRecord
}.

(** What [fetchAllLots] sets.  [None]: the setter is not called. *)
Record Outcome := {
  setNextLotId : option string;
  setLots : option (list Row);
  setParticipatedLotes : option (gmap string bool);
  failedToLoad : bool                (* the [Failed to load lots] toast *)
}.

Section Fetch.

Variable IPFS_GATEWAY : string.
Variable c : Chain.
Variable activeAccountAddress : any.

(** The body of the [for] loop for lot [i]; [None] when the [catch] of the
    loop body takes over and nothing is pushed. *)
Definition loadLot (i : Z) : option Row :=
  match get_lot_info c i with
  | Rejected _ => None
  | Resolved info =>
      let metadataUri := default "" (Info.metadata_uri info) in
      let metadata :=
        if String.prefix "ipfs://" metadataUri then
          let cid := replace "ipfs://" "" metadataUri in
          let gatewayUrl := IPFS_GATEWAY ++ "/ipfs/" ++ cid in
          match fetchGateway c gatewayUrl with
          | Resolved (true, Resolved json) => Some json
          | _ => None
          end
        else None in
      let productorHex := toHexAddress (Info.productor info) in
      let mejorPostorHex := toHexAddress (Info.mejor_postor info) in
      let paymentDone :=
        if Info.finalizado info then
          match is_payment_done c i with
          | Resolved b => b
          | Rejected _ => false
          end
        else false in
      let winnerRecord :=
        if Info.finalizado info then
          match get_winner c i with
          | Resolved (Some (winner, Some amount)) =>
              if falsy winner then None
              else Some {| address := toHexAddress winner;
                           amount := toString amount |}
          | _ => None
          end
        else None in
      Some {| lot :=
                {| id := i;
                   productor := productorHex;
                   raza := toString (Info.raza info);
                   peso_inicial := toString <$> Info.peso_inicial info;
                   cantidad_animales :=
                     toString <$> Info.cantidad_animales info;
                   metadata_uri := metadataUri;
                   start_time := Info.start_time info;
                   duration := Info.duration info;
                   finalizado := Info.finalizado info;
                   mejor_puja := toStringOr0 (Info.mejor_puja info);
                   mejor_postor := mejorPostorHex;
                   paymentDone := Some paymentDone |};
              metadata := metadata;
              winnerRecord := winnerRecord |}
  end.

(** The [for] loop: lots [i], [i+1], ... for [n] more rounds. *)
Fixpoint loadLots (i : Z) (n : nat) : list Row :=
  match n with
  | O => []
  | S n' =>
      match loadLot i with
      | Some row => row :: loadLots (i + 1) n'
      | None => loadLots (i + 1) n'
      end
  end.

(** The participation flags gathered for the lots that loaded. *)
Definition newParticipated (lotsArray : list Row) : gmap string bool :=
  fold_left
    (fun m row =>
       let lotId := toString (id (lot row)) in
       <[lotId :=
           Roster.checkIfUserParticipated (Some (roster c)) lotId
             activeAccountAddress]> m)
    lotsArray ∅.

End Fetch.

(** [fetchAllLots]: [contract] is [contractRef.current]; [None] when the
    function returns at once. *)
Definition fetchAllLots (IPFS_GATEWAY : string) (contract : option Chain)
    (activeAccountAddress : any) : option Outcome :=
  match contract with
  | None => None
  | Some c =>
      Some
        match get_lot_count c with
        | Rejected _ =>
            {| setNextLotId := None; setLots := None;
               setParticipatedLotes := None; failedToLoad := true |}
        | Resolved count =>
            let num := count in
            let lotsArray := loadLots IPFS_GATEWAY c 1 (Z.to_nat num) in
            {| setNextLotId := Some (toString (num + 1));
               setLots := Some lotsArray;
               setParticipatedLotes :=
                 if negb (falsy activeAccountAddress)
                    && negb (List.length lotsArray =? 0)%nat
                 then Some (newParticipated c activeAccountAddress lotsArray)
                 else None;
               failedToLoad := false |}
        end
  end.

End Lots.

(** *** Breed names *)

Module Breed.
Import Js Page.

Definition RAZAS : list string :=
  ["Angus"; "Hereford"; "Braford"; "Brangus"; "Limousin"; "Charolais";
   "Otra"].

Definition is_digit (c : ascii) : bool :=
  let n := N_of_ascii c in ((48 <=? n) && (n <=? 57))%N.

(** The longest run of decimal digits at the start. *)
Fixpoint digits_prefix (s : string) : string :=
  match s with
  | String c s' => if is_digit c then String c (digits_prefix s') else ""
  | EmptyString => ""
  end.

Definition digits_value (ds : string) : option Z :=
  match ds with
  | EmptyString => None
  | _ => Z.of_uint <$> DecimalString.NilEmpty.uint_of_string ds
  end.

(** [parseInt(s, 10)]: [None] stands for [NaN].  The result is exact; the
    page only asks whether it is one of the indices [0..6]. *)
Definition parseInt10 (s : string) : option Z :=
  match trim_start s with
  | String c r as t =>
      if Ascii.eqb c "-" then Z.opp <$> digits_value (digits_prefix r)
      else if Ascii.eqb c "+" then digits_value (digits_prefix r)
      else digits_value (digits_prefix t)
  | EmptyString => None
  end.

(** [RAZAS[index]] *)
Definition RAZAS_at (index : Z) : option string :=
  if Z.ltb index 0 then None else RAZAS !! Z.to_nat index.

(** [getRazaNombre] *)
Definition getRazaNombre (razaIndex : string) : string :=
  match parseInt10 razaIndex with
  | Some index =>
      match RAZAS_at index with
      | Some name => if String.eqb name "" then razaIndex else name
      | None => razaIndex
      end
  | None => razaIndex
  end.

End Breed.

(** *** Restoring a commit and selecting a lot *)

Module Restore.
Import Js Page.

(** What the restore effect sets: [committed], [amount], [nonce],
    [commitment]. *)
Record Bidding := {
  committed : bool;
  amount : string;
  nonce : string;
  commitment : string
}.

(** The bidding state of a page with nothing to restore. *)
Definition blank (fresh : string) : Bidding :=
  {| committed := false; amount := ""; nonce := fresh; commitment := "" |}.

(** The effect over [activeAccountAddress] and [selectedLotId]:
    [participated] is the answer of [checkIfUserParticipated], [fresh] the
    nonce drawn with [Math.random].  [None]: the effect returns at once;
    otherwise the flag stored in [participatedLotes] for the lot and the
    bidding state set ([None] there: the stored text is not a bid record
    and [JSON.parse] or the reads of its members fail). *)
Definition verifyAndRestore (p : Snapshot) (store : gmap string Stored)
    (participated : bool) (fresh : string)
  : option (bool * option Bidding) :=
  if falsy (activeAccountAddress p) || String.eqb (selectedLotId p) ""
  then None
  else
    let winnerAddrFormatted :=
      toLowerCase (toHexAddress (activeAccountAddress p)) in
    let key := "zk_" ++ selectedLotId p ++ "_" ++ winnerAddrFormatted in
    let storedData := store !! key in
    let present :=
      match storedData with
      | None => false
      | Some (Raw s) => negb (String.eqb s "")
      | Some _ => true
      end in
    if present && participated then
      match storedData with
      | Some (JBid bid) =>
          Some (participated,
                Some {| committed := true;
                        amount := Bid.amount bid;
                        nonce := Bid.secret bid;
                        commitment := Bid.commitment bid |})
      | _ => Some (participated, None)
      end
    else Some (participated, Some (blank fresh)).

(** The effect over [activeAccountAddress] alone: everything of the
    previous account is dropped. *)
Definition accountSwitched (fresh : string) : gmap string bool * bool * Bidding :=
  (∅, false, blank fresh).

End Restore.

(** *** The debug handler *)

Module Debug.
Import Js Page.

Section Handler.

Variable w : World.
Variable p : Snapshot.

(** [handleDebugReveal] *)
Definition handleDebugReveal : M unit :=
  if absent (contract p) || String.eqb (selectedLotId p) ""
     || String.eqb (amount p) "" || String.eqb (nonce p) ""
  then
    emit (Toast TError "Missing data for debug");;
    return_
  else
    try_catch
      (emit (Toast TLoading "Calling debug_reveal...");;
       emit (View "debug_reveal" [selectedLotId p; amount p; nonce p]);;
       debugResult ←
         await (debug_reveal w (selectedLotId p) (amount p) (nonce p));
       let info :=
         {| dbg_computed := toString (computed debugResult);
            dbg_stored := toString (stored debugResult);
            dbg_accountAddress := toHexAddress (accountAddress debugResult);
            dbg_caller := toHexAddress (caller debugResult);
            dbg_lotId := selectedLotId p;
            dbg_amount := amount p;
            dbg_nonce := nonce p |} in
       emit (SetDebugData info);;
       emit (Toast TDismiss "");;
       emit (Toast TSuccess "Debug data obtained (see console)");;
       emit (Toast TCustom
               ("Computed: " ++ dbg_computed info
                  ++ " Stored: " ++ dbg_stored info
                  ++ " Account: " ++ dbg_accountAddress info
                  ++ " Caller: " ++ dbg_caller info)))
      (fun _ => emit (Toast TError "Debug failed")).

End Handler.

End Debug.

(** *** What the page offers *)

Module View.
Import Js Page.

(** The state the render reads beside the handlers' snapshot. *)
Record Flags := {
  participatedLotes : gmap string bool;
  proofGeneratedLotes : gmap string bool;
  zkFinalizedLotes : gmap string bool;
  revealed : bool;
  isLoading : bool
}.

(** [flags[key]] read as a condition. *)
Definition flag (m : gmap string bool) (key : string) : bool :=
  default false (m !! key).

(** [esGanador] of a table row. *)
Definition esGanador (p : Snapshot) (lot : Lot) : bool :=
  finalizado lot
  && String.eqb (toLowerCase (toHexAddress (str (mejor_postor lot))))
       (toLowerCase (toHexAddress (activeAccountAddress p))).

Inductive Badge : Type :=
| Paid | ZKProof | Pending | ZKFinalized | Finalized | Active | Ended.

(** The status badge of a table row. *)
Definition statusBadge (p : Snapshot) (f : Flags) (lot : Lot) : Badge :=
  let active := isAuctionActive (currentTime p) (Some lot) in
  let proofGenerated :=
    esGanador p lot && flag (proofGeneratedLotes f) (toString (id lot)) in
  let zkFinalized := flag (zkFinalizedLotes f) (toString (id lot)) in
  let paid := default false (paymentDone lot) in
  if paid then Paid
  else if proofGenerated then ZKProof
  else if esGanador p lot then Pending
  else if finalizado lot then (if zkFinalized then ZKFinalized else Finalized)
  else if active then Active
  else Ended.

(** The time-left cell of a table row. *)
Definition timeLeftCell (p : Snapshot) (lot : Lot) : string :=
  if finalizado lot then "Finalized"
  else if isAuctionActive (currentTime p) (Some lot)
       then getTimeRemaining (currentTime p) (Some lot)
       else "Ended".

(** The action cell of a table row: the bid button, or a disabled label. *)
Definition actionCell (p : Snapshot) (f : Flags) (lot : Lot)
  : option string :=
  let active := isAuctionActive (currentTime p) (Some lot) in
  let participated := flag (participatedLotes f) (toString (id lot)) in
  if active && negb (finalizado lot) && negb participated then None
  else Some (if finalizado lot then "Finalized"
             else if participated then "Already bid" else "Ended").

Inductive Panel : Type :=
| CommitForm (enabled : bool)
| RevealForm (enabled : bool)
| AlreadyRevealed
| Expired
| NoPanel.

(** The bidding panel of the selected lot. *)
Definition bidPanel (p : Snapshot) (f : Flags) (lot : Lot) : Panel :=
  let active := isAuctionActive (currentTime p) (Some lot) in
  if active && negb (finalizado lot) then
    if negb (committed p) then
      CommitForm (negb (isLoading f || String.eqb (amount p) ""
                        || committed p))
    else if negb (revealed f) then RevealForm (negb (isLoading f))
    else AlreadyRevealed
  else if negb active && negb (finalizado lot) then Expired
  else NoPanel.

(** Is the finalize button of the selected lot there and enabled. *)
Definition finalizeButton (p : Snapshot) (f : Flags) (lot : Lot) : bool :=
  isOwner p && negb (finalizado lot) && negb (isLoading f).

(** Is the pay button of the selected lot there and enabled. *)
Definition payButton (p : Snapshot) (f : Flags) (lot : Lot) : bool :=
  finalizado lot
  && String.eqb (normalizeAddress (str (mejor_postor lot)))
       (normalizeAddress (activeAccountAddress p))
  && negb (flag (proofGeneratedLotes f) (selectedLotId p))
  && negb (default false (paymentDone lot))
  && negb (isLoading f).


(** The page shows the lots and the selected lot only to a connected
    account; otherwise the connect prompt. *)
Definition rendersPage (p : Snapshot) : bool :=
  negb (falsy (activeAccountAddress p)).

End View.

(** ** Further observations on a run *)

Module Observe.
Import Js Page.

Definition is_getTransactionReceipt (e : Effect) : bool :=
  match e with GetTransactionReceipt _ => true | _ => false end.

Definition is_setProofGenerated (e : Effect) : bool :=
  match e with SetProofGeneratedLotes _ _ => true | _ => false end.

(** How many times a transaction was handed to an account. *)
Definition submissions (sys : Sys) : nat :=
  List.length (List.filter is_execute (trace sys)).

(** The transactions handed to an account, in order. *)
Definition executed (sys : Sys) : list Call :=
  List.flat_map
    (fun e => match e with Execute _ c => [c] | _ => [] end) (trace sys).

(** The proof requests sent to the backend, in order. *)
Definition fetched (sys : Sys) : list (string * Body) :=
  List.flat_map
    (fun e => match e with Fetch url b => [(url, b)] | _ => [] end)
    (trace sys).

(** The receipt of some transaction was asked for. *)
Definition readReceipt (sys : Sys) : bool :=
  existsb is_getTransactionReceipt (trace sys).

(** The lot was marked as having its payment proof generated. *)
Definition markedProofGenerated (sys : Sys) : bool :=
  existsb is_setProofGenerated (trace sys).

(** The bid list a [localStorage] value stands for, as [getBids] reads it
    when it does not throw. *)
Definition bidsOf (v : option Stored) : list Bid.t :=
  match v with
  | Some (JBids bs) => bs
  | _ => []
  end.

(** The key under which [handleCommit] and [handleReveal] keep the bid of
    the connected account for the selected lot. *)
Definition bidKey (p : Snapshot) : string :=
  "zk_" ++ selectedLotId p ++ "_"
    ++ toLowerCase (toHexAddress (activeAccountAddress p)).

(** The record [handleCommit] writes for the commitment [c]. *)
Definition commitRecord (p : Snapshot) (c : string) : Bid.t :=
  {| Bid.secret := nonce p;
     Bid.amount := amount p;
     Bid.lot_id := selectedLotId p;
     Bid.winner := toLowerCase (toHexAddress (activeAccountAddress p));
     Bid.commitment := c |}.

(** [localStorage] once [handleCommit] has written the record for [c]. *)
Definition afterCommit (p : Snapshot) (c : string)
    (store : gmap string Stored) : gmap string Stored :=
  let store' := <[bidKey p := JBid (commitRecord p c)]> store in
  let bidsKey := "bids_" ++ selectedLotId p in
  <[bidsKey := JBids (bidsOf (store' !! bidsKey) ++ [commitRecord p c])]>
    store'.

(** What [handleReveal] leaves behind when the account has no record. *)
Definition noCommitData (store : gmap string Stored) : Sys * Completion unit :=
  ({| localStorage := store;
      trace := [SetErrorMessage ""; SetIsLoading true;
                Toast TError "No commit data found for this account";
                SetIsLoading false; SetIsLoading false] |},
   Return_).

(** The test [handleZKProof] applies to pick the caller's bid. *)
Definition isCallersBid (p : Snapshot) (bid : Bid.t) : bool :=
  String.eqb (normalizeAddress (str (Bid.winner bid)))
    (normalizeAddress (activeAccountAddress p)).

(** The metadata argument of [create_lot]: the hash with [ipfs://] in
    front unless it is there already. *)
Definition metadataUriOf (p : Snapshot) : string :=
  if String.prefix "ipfs://" (newMetadataHash p) then newMetadataHash p
  else "ipfs://" ++ newMetadataHash p.

(** The [create_lot] call built from the form. *)
Definition createLotCall (p : Snapshot) (addr : string)
    (lotId peso cantidad dur : Z) : Call :=
  {| contractAddress := addr; entrypoint := "create_lot";
     calldata := [ABig lotId; AStr (newProductor p); AStr (newRaza p);
                  ABig peso; ABig cantidad; AStr (metadataUriOf p);
                  ABig dur] |}.

(** The effects of a lot creation that went through, in order. *)
Definition lotCreated (via : Via) (call : Call) (txHash : string)
  : list Effect :=
  [SetErrorMessage ""; SetIsLoading true; Execute via call;
   WaitForTransaction txHash;
   Toast TSuccess "✅ Lot created successfully";
   SetNewProductor DEFAULT_PRODUCER; SetNewRaza ""; SetNewPeso "";
   SetNewCantidad ""; SetNewMetadataHash ""; SetNewDuration "360000";
   FetchAllLots false; SetIsLoading false].

(** The effects of a finalization that got its proof and then found no
    best bid to declare. *)
Definition proofWithoutWinner (bids : list Bid.t) : list Effect :=
  [SetIsLoading true;
   Toast TLoading "Generating ZK proof via backend...";
   Fetch "/api/zk-proof" (BidsBody bids);
   Toast TDismiss ""; Toast TDismiss "";
   Toast TError "Failed: No winner determined yet";
   SetIsLoading false].

(** The calldata [handleReveal] builds for lot [l], amount [a], secret [s]. *)
Definition revealCalldata (l a s : Z) : list Arg :=
  AStr <$> [toString (low (splitU256 l)); toString (high (splitU256 l));
            toString (low (splitU256 a)); toString (high (splitU256 a));
            "0x" ++ toString16 s].

End Observe.

(** ** Further fixtures *)

Module Scenario.
Import Js Page.

(** Every transaction is accepted and then reverts. *)
Definition world_reverting : World :=
  {| cavosExecute := cavosExecute Fixture.world;
     walletExecute := walletExecute Fixture.world;
     updateSessionPolicy := true;
     registerCurrentSession := registerCurrentSession Fixture.world;
     sessionReady := sessionReady Fixture.world;
     waitForTransaction := waitForTransaction Fixture.world;
     getTransactionReceipt := fun _ =>
       Resolved {| execution_status := "REVERTED";
                   revert_reason := Some "Window closed" |};
     fetch := fetch Fixture.world;
     get_lot_info := get_lot_info Fixture.world;
     get_winner := get_winner Fixture.world;
     is_payment_done := is_payment_done Fixture.world;
     debug_reveal := debug_reveal Fixture.world;
     checkIfUserParticipated := fun _ _ => false |}.

(** The Cavos session is not registered at first; registering it works. *)
Definition world_unregistered : World :=
  {| cavosExecute := fun n _ =>
       match n with
       | O => Rejected "Session not registered on-chain"
       | S _ => Resolved "0xcafe"
       end;
     walletExecute := walletExecute Fixture.world;
     updateSessionPolicy := true;
     registerCurrentSession := registerCurrentSession Fixture.world;
     sessionReady := sessionReady Fixture.world;
     waitForTransaction := waitForTransaction Fixture.world;
     getTransactionReceipt := getTransactionReceipt Fixture.world;
     fetch := fetch Fixture.world;
     get_lot_info := get_lot_info Fixture.world;
     get_winner := get_winner Fixture.world;
     is_payment_done := is_payment_done Fixture.world;
     debug_reveal := debug_reveal Fixture.world;
     checkIfUserParticipated := checkIfUserParticipated Fixture.world |}.

(** The render of [Fixture.snapshot] for a Cavos session of [who]. *)
Definition cavos_snapshot (who : string) (now : Z) : Snapshot :=
  {| contract := Some "0xa11ce";
     isCavosAuth := true;
     cavosAddress := str who;
     walletAccount := None;
     isOwner := false;
     nextLotId := "2";
     newProductor := DEFAULT_PRODUCER;
     newRaza := "0";
     newPeso := "420";
     newCantidad := "30";
     newMetadataHash := "lot2";
     newDuration := "360000";
     lots := [Fixture.lot1 false];
     selectedLotId := "1";
     selectedLotInfo := Some (Fixture.lot1 false);
     currentTime := now;
     amount := "50";
     nonce := "7";
     committed := false |}.

(** The wallet account [who] about to bid [amount] with [nonce] on lot 1. *)
Definition bidding (who amount nonce : string) : Snapshot :=
  {| contract := Some "0xa11ce";
     isCavosAuth := false;
     cavosAddress := undefined;
     walletAccount := Some (str who);
     isOwner := false;
     nextLotId := "2";
     newProductor := DEFAULT_PRODUCER;
     newRaza := "0";
     newPeso := "420";
     newCantidad := "30";
     newMetadataHash := "lot2";
     newDuration := "360000";
     lots := [Fixture.lot1 false];
     selectedLotId := "1";
     selectedLotInfo := Some (Fixture.lot1 false);
     currentTime := 1050;
     amount := amount;
     nonce := nonce;
     committed := false |}.

(** [localStorage] after [who] committed 50 and then 70 on lot 1. *)
Definition store_rebid (who : string) : gmap string Stored :=
  let first :=
    localStorage
      (fst (run (handleCommit Fixture.polyHash Fixture.world
                   (bidding who "50" "7")) ∅)) in
  localStorage
    (fst (run (handleCommit Fixture.polyHash Fixture.world
                 (bidding who "70" "8")) first)).

(** Lot 1 before any reveal: no best bidder, best bid 0. *)
Definition lot_unbid : Lot :=
  {| id := 1;
     productor := toHexAddress (bigint 1574);
     raza := "0";
     peso_inicial := Some "420";
     cantidad_animales := Some "30";
     metadata_uri := "ipfs://lot1";
     start_time := 1000;
     duration := 100;
     finalizado := false;
     mejor_puja := "0";
     mejor_postor := toHexAddress (bigint 0);
     paymentDone := Some false |}.

(** The owner's render at 1200 with [lot] selected. *)
Definition owner_of (lot : Lot) : Snapshot :=
  {| contract := Some "0xa11ce";
     isCavosAuth := false;
     cavosAddress := undefined;
     walletAccount := Some (str DEFAULT_PRODUCER);
     isOwner := true;
     nextLotId := "2";
     newProductor := DEFAULT_PRODUCER;
     newRaza := "0";
     newPeso := "420";
     newCantidad := "30";
     newMetadataHash := "lot2";
     newDuration := "360000";
     lots := [lot];
     selectedLotId := "1";
     selectedLotInfo := Some lot;
     currentTime := 1200;
     amount := "";
     nonce := "7";
     committed := false |}.

Definition call1 : Call :=
  {| contractAddress := "0xa11ce"; entrypoint := "commit_bid";
     calldata := [AStr "1"; AStr "6721436"] |}.

(** A roster of two bidders for every lot: [0xa11ce], then [0xB0B]. *)
Definition roster : Roster.Views :=
  {| Roster.get_bidders_count := fun _ => Resolved 2;
     Roster.get_bidder_at := fun _ i =>
       if Z.eqb i 0 then Resolved (bigint 660686)
       else Resolved (str "0xB0B") |}.

(** A contract with three lots: lot 1 finalized and paid, lot 2 unreadable,
    lot 3 still open. *)
Definition chain : Lots.Chain :=
  {| Lots.get_lot_count := Resolved 3;
     Lots.get_lot_info := fun i =>
       if Z.eqb i 1 then Resolved Fixture.info1
       else if Z.eqb i 2 then Rejected "Lot not found"
       else Resolved
              {| Info.productor := bigint 1574;
                 Info.raza := 3;
                 Info.peso_inicial := None;
                 Info.cantidad_animales := Some 12;
                 Info.metadata_uri := None;
                 Info.start_time := 2000;
                 Info.duration := 500;
                 Info.finalizado := false;
                 Info.mejor_puja := None;
                 Info.mejor_postor := undefined |};
     Lots.is_payment_done := fun _ => Resolved true;
     Lots.get_winner := fun _ => Resolved (Some (bigint 171, Some 50));
     Lots.fetchGateway := fun _ => Rejected "offline";
     Lots.roster := roster |}.

(** The collaborators of [Fixture.world] with a [debug_reveal] that
    answers. *)
Definition world_debug : World :=
  {| cavosExecute := cavosExecute Fixture.world;
     walletExecute := walletExecute Fixture.world;
     updateSessionPolicy := true;
     registerCurrentSession := registerCurrentSession Fixture.world;
     sessionReady := sessionReady Fixture.world;
     waitForTransaction := waitForTransaction Fixture.world;
     getTransactionReceipt := getTransactionReceipt Fixture.world;
     fetch := fetch Fixture.world;
     get_lot_info := get_lot_info Fixture.world;
     get_winner := get_winner Fixture.world;
     is_payment_done := is_payment_done Fixture.world;
     debug_reveal := fun _ _ _ =>
       Resolved {| computed := 11; stored := 12;
                   accountAddress := bigint 171; caller := str "0xab" |};
     checkIfUserParticipated := checkIfUserParticipated Fixture.world |}.

End Scenario.

(* ===================================================================== *)
(** * Part II. Properties                                                 *)
(* ===================================================================== *)

Import Js Page.

(** ** The helpers on concrete inputs *)

Example BigInt_spellings :
  BigInt (str "0x1f") = Some 31 /\ BigInt (str " 42 ") = Some 42
  /\ BigInt (str "-7") = Some (-7) /\ BigInt (str "") = Some 0
  /\ BigInt (str "0x") = None /\ BigInt (str "1e3") = None
  /\ BigInt (str "-0x5") = None /\ BigInt undefined = None.
Proof. repeat split. Qed.

Example toHexAddress_pads :
  toHexAddress (str "0x1f")
  = "0x000000000000000000000000000000000000000000000000000000000000001f"
  /\ toHexAddress (str "") = "0x0"
  /\ toHexAddress (str "not an address") = "not an address".
Proof. repeat split. Qed.

Example normalizeAddress_strips :
  normalizeAddress (str "0x001F") = "0x1F"
  /\ normalizeAddress (str "0x000") = "0x0"
  /\ normalizeAddress (str "") = ""
  /\ normalizeAddress (str "00x0x5") = "0xx5".
Proof. repeat split. Qed.

Example splitU256_parts :
  splitU256 (2 ^ 128 * 3 + 9) = {| low := 9; high := 3 |}.
Proof. reflexivity. Qed.

Example countdown :
  getTimeRemaining 1050 (Some (Fixture.lot1 false)) = "0h 0m 50s"
  /\ getTimeRemaining 1100 (Some (Fixture.lot1 false)) = "Ended"
  /\ isAuctionActive 1099 (Some (Fixture.lot1 false)) = true
  /\ isAuctionActive 1099 (Some (Fixture.lot1 true)) = false.
Proof. repeat split. Qed.

Example commit_on_open_lot :
  let r := run (handleCommit Fixture.polyHash Fixture.world
                  (Fixture.snapshot "0xab" false false 1050)) ∅ in
  snd r = Normal tt
  /\ hashed (fst r) = true /\ submitted (fst r) = true
  /\ localStorage (fst r) !! "bids_1"
     = Some (JBids [Fixture.bid1 Fixture.commitment1]).
Proof. vm_compute. repeat split. Qed.

(** ** Strings *)

Section StringFacts.

Lemma strip_leading_zeros_idem (s : string) :
  strip_leading_zeros (strip_leading_zeros s) = strip_leading_zeros s.
Proof.
  induction s as [|c s IH]; simpl; [reflexivity|].
  destruct (Ascii.eqb c "0") eqn:E; [exact IH|].
  simpl. rewrite E. reflexivity.
Qed.

Lemma replace_0x_prefix (s : string) : replace "0x" "" ("0x" ++ s) = s.
Proof. destruct s; reflexivity. Qed.

Lemma strip_filler_zeros (k : nat) (cur s : string) :
  cur = "" \/ cur = "0" ->
  strip_leading_zeros (filler k "0" cur ++ s) = strip_leading_zeros s.
Proof.
  revert cur. induction k as [|k IH]; intros cur Hcur; simpl; [reflexivity|].
  destruct Hcur as [-> | ->]; simpl; apply IH; auto.
Qed.

Lemma strip_padStart_zeros (n : nat) (s : string) :
  strip_leading_zeros (padStart n "0" s) = strip_leading_zeros s.
Proof. unfold padStart. apply strip_filler_zeros. auto. Qed.

Lemma trim_end_no_ws (s : string) :
  (forall c, In c (list_ascii_of_string s) -> is_ws c = false) ->
  trim_end s = s.
Proof.
  induction s as [|c s IH]; simpl; intros H; [reflexivity|].
  rewrite IH by (intros; apply H; auto).
  rewrite (H c) by auto. reflexivity.
Qed.

Lemma length_append (s t : string) :
  String.length (s ++ t) = (String.length s + String.length t)%nat.
Proof. induction s as [|c s IH]; simpl; [reflexivity | now rewrite IH]. Qed.

Lemma append_length_5 (x y z : string) :
  String.length (x ++ "h " ++ y ++ "m " ++ z ++ "s") = 5%nat ->
  x = "" /\ y = "" /\ z = "".
Proof.
  rewrite !length_append. simpl. intros H.
  destruct x, y, z; simpl in H; try lia. auto.
Qed.

Lemma countdown_not_ended (x y z : string) :
  x ++ "h " ++ y ++ "m " ++ z ++ "s" <> "Ended".
Proof.
  intros H. pose proof (f_equal String.length H) as HL.
  simpl (String.length "Ended") in HL.
  apply append_length_5 in HL as (-> & -> & ->). discriminate H.
Qed.

End StringFacts.

(** ** Hexadecimal spellings *)

Section HexFacts.

Lemma lower_hex_digit_parses (c : ascii) (u : Hexadecimal.uint) :
  is_lower_hex_digit c = true ->
  exists u', hex_digit c (Some u) = Some u'
             /\ HexadecimalString.NilEmpty.string_of_uint u' = String c (HexadecimalString.NilEmpty.string_of_uint u).
Proof.
  destruct c as [[|] [|] [|] [|] [|] [|] [|] [|]];
    vm_compute; intros H; try discriminate H; eexists; split; reflexivity.
Qed.

Lemma lower_hex_digit_not_ws (c : ascii) :
  is_lower_hex_digit c = true -> is_ws c = false.
Proof.
  destruct c as [[|] [|] [|] [|] [|] [|] [|] [|]];
    vm_compute; intros H; try discriminate H; reflexivity.
Qed.

Lemma lower_hex_parses (d : string) :
  all_lower_hex d = true ->
  exists u, hex_uint_of_string d = Some u /\ HexadecimalString.NilEmpty.string_of_uint u = d.
Proof.
  induction d as [|c d IH]; simpl; intros H.
  - exists Hexadecimal.Nil. split; reflexivity.
  - apply andb_true_iff in H as [Hc Hd].
    destruct (IH Hd) as (u & Hu & Hs). rewrite Hu.
    destruct (lower_hex_digit_parses c u Hc) as (u' & Hp & Hs').
    exists u'. split; [exact Hp|]. rewrite Hs', Hs. reflexivity.
Qed.

Lemma lower_hex_no_ws (d : string) :
  all_lower_hex d = true ->
  forall c, In c (list_ascii_of_string d) -> is_ws c = false.
Proof.
  induction d as [|c d IH]; simpl; intros H a Ha; [contradiction|].
  apply andb_true_iff in H as [Hc Hd].
  destruct Ha as [<- | Ha]; [now apply lower_hex_digit_not_ws | now apply IH].
Qed.

Lemma string_of_nzhead (u : Hexadecimal.uint) :
  HexadecimalString.NilEmpty.string_of_uint (Hexadecimal.nzhead u)
  = strip_leading_zeros (HexadecimalString.NilEmpty.string_of_uint u).
Proof. induction u; simpl; auto. Qed.

Lemma strip_string_of_unorm (u : Hexadecimal.uint) :
  strip_leading_zeros (HexadecimalString.NilZero.string_of_uint (Hexadecimal.unorm u))
  = strip_leading_zeros (HexadecimalString.NilEmpty.string_of_uint u).
Proof.
  rewrite <- (strip_leading_zeros_idem (HexadecimalString.NilEmpty.string_of_uint u)).
  rewrite <- string_of_nzhead. unfold Hexadecimal.unorm.
  destruct (Hexadecimal.nzhead u); reflexivity.
Qed.

Lemma toString16_of_N (n : N) :
  toString16 (Z.of_N n) = HexadecimalString.NilZero.string_of_uint (N.to_hex_uint n).
Proof. destruct n; reflexivity. Qed.

Lemma trim_0x (d : string) :
  all_lower_hex d = true -> trim ("0x" ++ d) = "0x" ++ d.
Proof.
  intros H. unfold trim. simpl trim_start.
  apply trim_end_no_ws. simpl. intros c [<- | [<- | Hc]]; try reflexivity.
  now apply (lower_hex_no_ws d).
Qed.

Lemma BigInt_0x (d : string) :
  all_lower_hex d = true -> d <> "" ->
  exists u, hex_uint_of_string d = Some u
            /\ HexadecimalString.NilEmpty.string_of_uint u = d
            /\ BigInt (str ("0x" ++ d)) = Some (Z.of_N (N.of_hex_uint u)).
Proof.
  intros H Hne. destruct (lower_hex_parses d H) as (u & Hu & Hs).
  exists u. split; [exact Hu|]. split; [exact Hs|].
  simpl BigInt. unfold StringToBigInt. rewrite (trim_0x d H).
  change ("0x" ++ d) with (String "0" (String "x" d)).
  change (parse_literal (String "0" (String "x" d))) with (parse_hex d).
  unfold parse_hex. destruct d; [congruence|]. rewrite Hu. reflexivity.
Qed.

End HexFacts.

(** ** The 128-bit split (C9) *)

Section SplitFacts.

Lemma mask_ones : mask = Z.ones 128.
Proof. reflexivity. Qed.

Lemma low_mod (v : Z) : low (splitU256 v) = v mod 2 ^ 128.
Proof. simpl. rewrite mask_ones. apply Z.land_ones. lia. Qed.

Lemma high_div (v : Z) : high (splitU256 v) = v / 2 ^ 128.
Proof. simpl. apply Z.shiftr_div_pow2. lia. Qed.

(** C9. For a non-negative [v], [splitU256 v] has [low = v mod 2^128] and
    [high = v div 2^128]; [low] is below [2^128] and
    [low + 2^128 * high] gives [v] back. *)
Theorem splitU256_roundtrip (v : Z) (Hv : 0 <= v) :
  low (splitU256 v) = v mod 2 ^ 128
  /\ high (splitU256 v) = v / 2 ^ 128
  /\ 0 <= low (splitU256 v) < 2 ^ 128
  /\ low (splitU256 v) + 2 ^ 128 * high (splitU256 v) = v.
Proof.
  rewrite low_mod, high_div.
  pose proof (Z.mod_pos_bound v (2 ^ 128) ltac:(lia)) as Hb.
  pose proof (Z.div_mod v (2 ^ 128) ltac:(lia)) as Hd.
  repeat split; lia.
Qed.

Lemma splitU256_roundtrip_witness :
  let v := 2 ^ 130 + 5 in
  0 <= v
  /\ low (splitU256 v) = v mod 2 ^ 128
  /\ high (splitU256 v) = v / 2 ^ 128
  /\ 0 <= low (splitU256 v) < 2 ^ 128
  /\ low (splitU256 v) + 2 ^ 128 * high (splitU256 v) = v.
Proof.
  split; [vm_compute; discriminate|].
  apply (splitU256_roundtrip (2 ^ 130 + 5)). vm_compute. discriminate.
Defined.

End SplitFacts.

(** ** The commitment codec (C1) *)

Section CodecFacts.

Variable poseidonHashMany : list Z -> Z.

Lemma commitmentInput_mod (s a l b : Z) :
  commitmentInput s a l b = [s; a mod 2 ^ 128; l mod 2 ^ 128; b].
Proof. unfold commitmentInput. rewrite !low_mod. reflexivity. Qed.

(** C1. When the bidder string [w] reads as the integer [b], the binding
    commitment is the decimal spelling of the Poseidon hash of exactly
    [[s; a mod 2^128; l mod 2^128; b]], in that order. *)
Theorem computeCommitment_wire_format (s a l : Z) (w : string) (b : Z)
    (Hw : BigInt (str w) = Some b) :
  computeCommitment poseidonHashMany s a l w
  = inl (toString (poseidonHashMany [s; a mod 2 ^ 128; l mod 2 ^ 128; b])).
Proof.
  unfold computeCommitment. rewrite Hw, commitmentInput_mod. reflexivity.
Qed.

End CodecFacts.

Lemma computeCommitment_wire_format_witness :
  BigInt (str "0x1f") = Some 31
  /\ computeCommitment Fixture.polyHash 7 (2 ^ 128 + 50) 1 "0x1f"
     = inl (toString (Fixture.polyHash
                        [7; (2 ^ 128 + 50) mod 2 ^ 128; 1 mod 2 ^ 128; 31])).
Proof.
  split; [reflexivity|].
  apply (computeCommitment_wire_format Fixture.polyHash 7 (2 ^ 128 + 50) 1
           "0x1f" 31).
  reflexivity.
Defined.

(** ** The lot window (C3) *)

Section WindowFacts.

(** C3. For times that are non-negative whole numbers with the end of the
    window a safe integer, a lot is active exactly when it is not finalized
    and the time is before [start_time + duration]; the countdown reads
    [Ended] exactly from that instant on. *)
Theorem lot_window (now : Z) (lot : Lot)
    (Hsafe : safeWindow now lot = true) :
  let window_end := start_time lot + duration lot in
  (isAuctionActive now (Some lot) = true
   <-> finalizado lot = false /\ now < window_end)
  /\ (getTimeRemaining now (Some lot) = "Ended" <-> now >= window_end).
Proof.
  cbv zeta. unfold isAuctionActive, getTimeRemaining. split.
  - destruct (finalizado lot).
    + split; [discriminate | intros [H _]; discriminate H].
    + rewrite Z.ltb_lt. tauto.
  - destruct (Z.leb_spec (start_time lot + duration lot - now) 0) as [H|H].
    + split; [lia | reflexivity].
    + split; [intros E; now apply countdown_not_ended in E | lia].
Qed.

End WindowFacts.

Lemma lot_window_witness :
  let lot := Fixture.lot1 false in
  (isAuctionActive 1050 (Some lot) = true
   <-> finalizado lot = false /\ 1050 < 1100)
  /\ (getTimeRemaining 1050 (Some lot) = "Ended" <-> 1050 >= 1100).
Proof.
  exact (lot_window 1050 (Fixture.lot1 false) eq_refl).
Defined.

(** ** The address comparators (C10) *)

Section AddressFacts.

Lemma normalizeAddress_str (a : string) :
  a <> "" ->
  normalizeAddress (str a)
  = "0x" ++ (let hex := strip_leading_zeros (replace "0x" "" a) in
             if String.eqb hex "" then "0" else hex).
Proof.
  intros H. unfold normalizeAddress. simpl falsy.
  apply String.eqb_neq in H. rewrite H. reflexivity.
Qed.

Lemma normalizeAddress_0x (h : string) :
  normalizeAddress (str ("0x" ++ h))
  = "0x" ++ (if String.eqb (strip_leading_zeros h) "" then "0"
             else strip_leading_zeros h).
Proof.
  rewrite normalizeAddress_str by discriminate.
  cbv zeta. rewrite replace_0x_prefix. reflexivity.
Qed.

Lemma normalizeAddress_idempotent (a : string) :
  normalizeAddress (str (normalizeAddress (str a))) = normalizeAddress (str a).
Proof.
  destruct (String.eqb_spec a "") as [-> | Hne]; [reflexivity|].
  rewrite (normalizeAddress_str a Hne). cbv zeta.
  set (h := strip_leading_zeros (replace "0x" "" a)).
  rewrite normalizeAddress_0x.
  destruct (String.eqb_spec h "") as [Hh | Hh]; [reflexivity|].
  unfold h at 1 2. rewrite strip_leading_zeros_idem. fold h.
  apply String.eqb_neq in Hh. rewrite Hh. reflexivity.
Qed.

Lemma normalizeAddress_padded (d : string) :
  all_lower_hex d = true ->
  normalizeAddress (str (toHexAddress (str ("0x" ++ d))))
  = normalizeAddress (str ("0x" ++ d)).
Proof.
  intros H. destruct (String.eqb_spec d "") as [-> | Hne]; [reflexivity|].
  destruct (BigInt_0x d H Hne) as (u & _ & Hs & HB).
  unfold toHexAddress. simpl falsy. rewrite HB.
  rewrite toString16_of_N, HexadecimalN.Unsigned.to_of.
  rewrite !normalizeAddress_0x, strip_padStart_zeros, strip_string_of_unorm.
  rewrite Hs. reflexivity.
Qed.

(** C10. [normalizeAddress] is idempotent on every string, and on a
    lowercase hexadecimal string with [0x] in front it gives the same result
    before and after [toHexAddress] pads it. *)
Theorem normalizeAddress_canonical (a d : string)
    (Hd : all_lower_hex d = true) :
  normalizeAddress (str (normalizeAddress (str a))) = normalizeAddress (str a)
  /\ normalizeAddress (str (toHexAddress (str ("0x" ++ d))))
     = normalizeAddress (str ("0x" ++ d)).
Proof.
  split; [apply normalizeAddress_idempotent | now apply normalizeAddress_padded].
Qed.

Lemma normalizeAddress_canonical_witness :
  all_lower_hex "00ab3f" = true
  /\ normalizeAddress (str (normalizeAddress (str "00x0x5")))
     = normalizeAddress (str "00x0x5")
  /\ normalizeAddress (str (toHexAddress (str ("0x" ++ "00ab3f"))))
     = normalizeAddress (str ("0x" ++ "00ab3f")).
Proof.
  split; [reflexivity|].
  apply (normalizeAddress_canonical "00x0x5" "00ab3f"). reflexivity.
Defined.

End AddressFacts.

(** ** The preview (C4) *)

Section PreviewFacts.

Variable poseidonHashMany : list Z -> Z.

Lemma toString_nonempty (z : Z) : toString z <> "".
Proof.
  unfold toString. destruct z as [|q|q]; [discriminate| |discriminate].
  change (DecimalString.NilZero.string_of_int (Z.to_int (Z.pos q)))
    with (DecimalString.NilZero.string_of_uint (Pos.to_uint q)).
  destruct (Pos.to_uint q); discriminate.
Qed.

(** Reading [splitU256] before its declaration leaves no preview. *)
Lemma previewMemo_uninitialised (p : Snapshot) :
  previewMemo poseidonHashMany None p = "".
Proof.
  unfold previewMemo.
  destruct (String.eqb (amount p) "" || String.eqb (nonce p) ""
            || committed p); [reflexivity|].
  destruct (BigInt (str (amount p))); [|reflexivity].
  destruct (BigInt (str (nonce p))); reflexivity.
Qed.

(** What the body of the memo gives once [splitU256] is initialised. *)
Lemma previewMemo_initialised (p : Snapshot) (a n : Z) :
  amount p <> "" -> nonce p <> "" -> committed p = false ->
  BigInt (str (amount p)) = Some a -> BigInt (str (nonce p)) = Some n ->
  previewMemo poseidonHashMany (Some splitU256) p
  = toString (poseidonHashMany [a mod 2 ^ 128; a / 2 ^ 128; n]).
Proof.
  intros Hfa Hfn Hc Ha Hn. unfold previewMemo.
  apply String.eqb_neq in Hfa, Hfn. rewrite Hfa, Hfn, Hc, Ha, Hn.
  cbn [orb]. cbv zeta. rewrite low_mod, high_div. reflexivity.
Qed.

(** C4. The preview of the claim is not what the page computes.  With
    amount 50 and nonce 7 entered and no commit sent, the memo reads
    [splitU256] before its declaration has been evaluated and gives the
    empty string; the hash of [[50 mod 2^128; 50 div 2^128; 7]] that the
    claim describes is what the same body gives once [splitU256] is
    initialised, and it is never the empty string. *)
Theorem preview_not_computed :
  let p := Fixture.snapshot "0xab" false false 1050 in
  let claimed :=
    toString (poseidonHashMany [50 mod 2 ^ 128; 50 / 2 ^ 128; 7]) in
  calculatedCommitment poseidonHashMany p = ""
  /\ previewMemo poseidonHashMany (Some splitU256) p = claimed
  /\ calculatedCommitment poseidonHashMany p <> claimed.
Proof.
  cbv zeta. split; [apply previewMemo_uninitialised|]. split.
  - apply previewMemo_initialised; (reflexivity || discriminate).
  - unfold calculatedCommitment. rewrite previewMemo_uninitialised.
    intros E. symmetry in E. now apply toString_nonempty in E.
Qed.

End PreviewFacts.

(** ** Running the handlers *)

(** One step of symbolic execution: unfold the handler monad and the
    observations, nothing else. *)
Ltac exec_step :=
  cbv beta iota zeta delta
    [run executeTransaction executeDirect awaitReceipt populate toBigInt
     getBids callComputeCommitment waitForSessionReady handleReveal_catch
     mbind M_bind mret M_ret emit throw return_ await
     try_catch_finally try_catch getItem setItem removeItem
     fst snd trace localStorage app existsb orb negb absent
     submitted requested hashed started markedZkFinalized
     is_execute is_fetch is_computeCommitment is_setIsLoading_true
     is_setZkFinalized].

(** Case analysis on the innermost undecided test or answer. *)
Ltac exec_case :=
  match goal with
  | |- context [match ?x with _ => _ end] =>
      lazymatch x with
      | context [match _ with _ => _ end] => fail
      | _ => destruct x eqn:?
      end
  end.

Ltac exec := exec_step; repeat (exec_case; exec_step).

Section GuardFacts.


Lemma not_active (now : Z) (lot : Lot) :
  finalizado lot = true \/ now >= start_time lot + duration lot ->
  isAuctionActive now (Some lot) = false.
Proof.
  intros H. unfold isAuctionActive. destruct (finalizado lot); [reflexivity|].
  destruct H as [H|H]; [discriminate H|]. apply Z.ltb_ge. lia.
Qed.

End GuardFacts.

(** ** The commit guard (C8) *)

Section CommitFacts.

Variable poseidonHashMany : list Z -> Z.
Variable w : World.

(** C8. With a finalized lot or a closed window selected, [handleCommit]
    returns without computing a commitment, without touching
    [localStorage] and without submitting; on a connected page it stops at
    the not-active guard, with that error and nothing else. *)
Theorem handleCommit_not_active_guard (p : Snapshot)
    (store : gmap string Stored) (lot : Lot)
    (Hlot : selectedLotInfo p = Some lot)
    (Hclosed : finalizado lot = true
               \/ currentTime p >= start_time lot + duration lot) :
  let r := run (handleCommit poseidonHashMany w p) store in
  snd r = Return_
  /\ hashed (fst r) = false
  /\ localStorage (fst r) = store
  /\ submitted (fst r) = false
  /\ (contract p <> None -> falsy (activeAccountAddress p) = false ->
      selectedLotId p <> "" ->
      r = ({| localStorage := store;
              trace := [SetErrorMessage "";
                        Toast TError "❌ Auction is not active"] |},
           Return_)).
Proof.
  cbv zeta. unfold handleCommit.
  rewrite Hlot, (not_active _ _ Hclosed).
  destruct (absent (contract p) || falsy (activeAccountAddress p)
            || String.eqb (selectedLotId p) "") eqn:E.
  - repeat split; try reflexivity.
    intros Hc Ha Hs. exfalso.
    apply String.eqb_neq in Hs. rewrite Ha, Hs in E.
    destruct (contract p); [discriminate E | congruence].
  - repeat split; reflexivity.
Qed.

End CommitFacts.

Lemma handleCommit_not_active_guard_witness :
  let p := Fixture.snapshot "0xab" false false 1100 in
  let r := run (handleCommit Fixture.polyHash Fixture.world p) ∅ in
  currentTime p >= start_time (Fixture.lot1 false) + duration (Fixture.lot1 false)
  /\ snd r = Return_
  /\ hashed (fst r) = false
  /\ localStorage (fst r) = ∅
  /\ submitted (fst r) = false
  /\ r = ({| localStorage := ∅;
             trace := [SetErrorMessage "";
                       Toast TError "❌ Auction is not active"] |},
          Return_).
Proof.
  assert (Hclosed : currentTime (Fixture.snapshot "0xab" false false 1100)
                    >= start_time (Fixture.lot1 false)
                       + duration (Fixture.lot1 false))
    by (vm_compute; discriminate).
  destruct (handleCommit_not_active_guard Fixture.polyHash Fixture.world
              (Fixture.snapshot "0xab" false false 1100) ∅
              (Fixture.lot1 false) eq_refl (or_intror Hclosed))
    as (H1 & H2 & H3 & H4 & H5).
  split; [exact Hclosed|]. do 4 (split; [assumption|]).
  apply H5; [discriminate | reflexivity | discriminate].
Defined.

(** ** The owner check (C5) *)

Section OwnerFacts.


Lemma length_filler_zero (k : nat) (cur : string) :
  cur = "" \/ cur = "0" -> String.length (filler k "0" cur) = k.
Proof.
  revert cur. induction k as [|k IH]; intros cur H; [reflexivity|].
  destruct H as [-> | ->]; simpl; rewrite IH; auto.
Qed.

Lemma length_padStart_zero (n : nat) (s : string) :
  (n <= String.length (padStart n "0" s))%nat.
Proof.
  unfold padStart. rewrite length_append, length_filler_zero by auto. lia.
Qed.








Variable w : World.


Lemma handleFinalizeWithZK_started (p : Snapshot) (store : gmap string Stored)
    (lot : Lot) :
  contract p <> None -> falsy (activeAccountAddress p) = false ->
  selectedLotId p <> "" -> selectedLotInfo p = Some lot ->
  finalizado lot = false ->
  started (fst (run (handleFinalizeWithZK w p) store)) = isOwner p.
Proof.
  intros Hc Ha Hs Hl Hf. unfold handleFinalizeWithZK.
  apply String.eqb_neq in Hs. rewrite Ha, Hs, Hl, Hf.
  destruct (contract p) eqn:Ec; [|congruence].
  destruct (isOwner p); [|reflexivity].
  exec; reflexivity.
Qed.




End OwnerFacts.


(** ** The payment gate (C6) *)

Section PaymentFacts.

Variable w : World.

(** C6. [handleZKProof] asks the backend for a proof or submits a
    transaction only for a finalized lot whose recorded best bidder has the
    caller's normalized address; for a finalized lot and a caller whose
    normalized address differs, it stops with the only-the-winner error and
    nothing else. *)
Theorem payment_gate (p : Snapshot) (store : gmap string Stored) :
  let r := run (handleZKProof w p) store in
  (requested (fst r) = true \/ submitted (fst r) = true ->
   exists lot,
     selectedLotInfo p = Some lot /\ finalizado lot = true
     /\ normalizeAddress (str (mejor_postor lot))
        = normalizeAddress (activeAccountAddress p))
  /\ (forall lot,
        selectedLotInfo p = Some lot -> finalizado lot = true ->
        falsy (activeAccountAddress p) = false ->
        normalizeAddress (str (mejor_postor lot))
        <> normalizeAddress (activeAccountAddress p) ->
        r = onlyTheWinner store).
Proof.
  cbv zeta. split.
  - unfold handleZKProof. exec.
    all: try (intros [H|H]; discriminate H).
    all: intros _; eexists; split; [reflexivity|]; split; [assumption|];
      now apply String.eqb_eq.
  - intros lot Hl Hf Ha Hne. unfold handleZKProof.
    apply String.eqb_neq in Hne. rewrite Ha, Hl, Hf, Hne. reflexivity.
Qed.

End PaymentFacts.

Lemma payment_gate_witness :
  let winner := Fixture.snapshot "0xab" false true 1200 in
  let other := Fixture.snapshot "0xcd" false true 1200 in
  let store := Fixture.store1 Fixture.commitment1 in
  (requested (fst (run (handleZKProof Fixture.world winner) store)) = true
   /\ exists lot,
       selectedLotInfo winner = Some lot /\ finalizado lot = true
       /\ normalizeAddress (str (mejor_postor lot))
          = normalizeAddress (activeAccountAddress winner))
  /\ run (handleZKProof Fixture.world other) store = onlyTheWinner store.
Proof.
  cbv zeta. split.
  - assert (E : requested
                  (fst (run (handleZKProof Fixture.world
                               (Fixture.snapshot "0xab" false true 1200))
                          (Fixture.store1 Fixture.commitment1))) = true)
      by (vm_compute; reflexivity).
    split; [exact E|].
    apply (proj1 (payment_gate Fixture.world
                    (Fixture.snapshot "0xab" false true 1200)
                    (Fixture.store1 Fixture.commitment1))).
    left. exact E.
  - apply (proj2 (payment_gate Fixture.world
                    (Fixture.snapshot "0xcd" false true 1200)
                    (Fixture.store1 Fixture.commitment1))
             (Fixture.lot1 true)); try reflexivity.
    vm_compute. discriminate.
Defined.

(** ** Proof-gated finalization (C7) *)

Section FinalizeFacts.

Variable w : World.

(** What a run of [handleFinalizeWithZK] can leave behind. *)
Lemma handleFinalizeWithZK_outcome (p : Snapshot) (store : gmap string Stored) :
  let sys := fst (run (handleFinalizeWithZK w p) store) in
  (markedZkFinalized sys = false /\ localStorage sys = store)
  \/ (exists bids resp calldata call txHash,
        fetch w "/api/zk-proof" (BidsBody bids) = Resolved resp
        /\ ok resp = true
        /\ json resp = Resolved calldata
        /\ entrypoint call = "finalize_with_zk"
        /\ (if isCavosAuth p then cavosExecute w 0 call
            else walletExecute w call) = Resolved txHash
        /\ receiptSucceeded w txHash = true
        /\ markedZkFinalized sys = true
        /\ localStorage sys
           = <["finalize_tx_" ++ selectedLotId p := Raw txHash]> store).
Proof.
  cbv zeta. unfold handleFinalizeWithZK. exec.
  all: try (left; split; reflexivity).
  all: right; do 5 eexists.
  all: repeat match goal with
         | H : isCavosAuth _ = _ |- _ => rewrite H
         end.
  all: split; [eassumption|]; split; [assumption|]; split; [eassumption|].
  all: split; [|split; [eassumption|]]; [reflexivity|].
  all: split; [|split; reflexivity].
  all: unfold receiptSucceeded.
  all: match goal with
       | H : getTransactionReceipt _ _ = Resolved _ |- _ => rewrite H
       end; assumption.
Qed.

(** C7. If the proof backend fails, or no account accepts the transaction,
    or no receipt reports [SUCCEEDED], a run of [handleFinalizeWithZK] leaves
    the ZK-finalized mark unset and [localStorage] as it was; and whenever a
    run sets the mark or changes [localStorage], the backend had answered
    with calldata, the [finalize_with_zk] transaction had been accepted and
    its receipt had reported [SUCCEEDED]. *)
Theorem finalize_all_or_nothing (p : Snapshot) (store : gmap string Stored) :
  let sys := fst (run (handleFinalizeWithZK w p) store) in
  let backend_fails :=
    forall url body,
      match fetch w url body with
      | Resolved resp => ok resp = false
      | Rejected _ => True
      end in
  let execute_fails :=
    forall call,
      (exists e, cavosExecute w 0 call = Rejected e)
      /\ (exists e, walletExecute w call = Rejected e) in
  let receipt_fails := forall txHash, receiptSucceeded w txHash = false in
  (backend_fails \/ execute_fails \/ receipt_fails ->
   markedZkFinalized sys = false /\ localStorage sys = store)
  /\ (markedZkFinalized sys = true \/ localStorage sys <> store ->
      exists bids resp calldata call txHash,
        fetch w "/api/zk-proof" (BidsBody bids) = Resolved resp
        /\ ok resp = true
        /\ json resp = Resolved calldata
        /\ entrypoint call = "finalize_with_zk"
        /\ (if isCavosAuth p then cavosExecute w 0 call
            else walletExecute w call) = Resolved txHash
        /\ receiptSucceeded w txHash = true
        /\ markedZkFinalized sys = true
        /\ localStorage sys
           = <["finalize_tx_" ++ selectedLotId p := Raw txHash]> store).
Proof.
  cbv zeta.
  destruct (handleFinalizeWithZK_outcome p store)
    as [[Hm Hs] | (bids & resp & cd & call & tx & Hf & Hok & Hj & He & Hx & Hr
                   & Hm & Hs)].
  - split; [auto|]. intros [H|H]; [congruence | contradiction].
  - split; [|intros _; exists bids, resp, cd, call, tx; auto 10].
    intros [Hb | [Hx' | Hr']]; exfalso.
    + specialize (Hb "/api/zk-proof" (BidsBody bids)). rewrite Hf in Hb.
      congruence.
    + destruct (Hx' call) as [[e Hc] [e' Hw]].
      destruct (isCavosAuth p); congruence.
    + rewrite Hr' in Hr. discriminate Hr.
Qed.

End FinalizeFacts.

Lemma finalize_all_or_nothing_witness :
  let owner := Fixture.snapshot DEFAULT_PRODUCER true false 1200 in
  let store := Fixture.store1 Fixture.commitment1 in
  let down :=
    fst (run (handleFinalizeWithZK Fixture.world_backend_down owner) store) in
  let up := fst (run (handleFinalizeWithZK Fixture.world owner) store) in
  (requested down = true
   /\ markedZkFinalized down = false /\ localStorage down = store)
  /\ (markedZkFinalized up = true
      /\ exists txHash,
          receiptSucceeded Fixture.world txHash = true
          /\ localStorage up = <["finalize_tx_1" := Raw txHash]> store).
Proof.
  cbv zeta. split.
  - split; [vm_compute; reflexivity|].
    apply (proj1 (finalize_all_or_nothing Fixture.world_backend_down
                    (Fixture.snapshot DEFAULT_PRODUCER true false 1200)
                    (Fixture.store1 Fixture.commitment1))).
    left. intros url body. reflexivity.
  - assert (E : markedZkFinalized
                  (fst (run (handleFinalizeWithZK Fixture.world
                               (Fixture.snapshot DEFAULT_PRODUCER true false
                                  1200))
                          (Fixture.store1 Fixture.commitment1))) = true)
      by (vm_compute; reflexivity).
    split; [exact E|].
    destruct (proj2 (finalize_all_or_nothing Fixture.world
                       (Fixture.snapshot DEFAULT_PRODUCER true false 1200)
                       (Fixture.store1 Fixture.commitment1)) (or_introl E))
      as (_ & _ & _ & _ & tx & _ & _ & _ & _ & _ & Hr & _ & Hs).
    exists tx. split; [exact Hr | exact Hs].
Defined.

Example finalize_backend_down_run :
  let sys := fst (run (handleFinalizeWithZK Fixture.world_backend_down
                         (Fixture.snapshot DEFAULT_PRODUCER true false 1200))
                    (Fixture.store1 Fixture.commitment1)) in
  markedZkFinalized sys = false
  /\ requested sys = true /\ submitted sys = false
  /\ localStorage sys !! "finalize_tx_1" = None.
Proof. vm_compute. repeat split. Qed.

Example finalize_accepted_run :
  let sys := fst (run (handleFinalizeWithZK Fixture.world
                         (Fixture.snapshot DEFAULT_PRODUCER true false 1200))
                    (Fixture.store1 Fixture.commitment1)) in
  markedZkFinalized sys = true
  /\ localStorage sys !! "finalize_tx_1" = Some (Raw "0xbeef").
Proof. vm_compute. repeat split. Qed.

(** ** The reveal check (C2) *)

Section RevealFacts.

Variable poseidonHashMany : list Z -> Z.
Variable w : World.


End RevealFacts.


(* ===================================================================== *)
(** * Part III. Further properties of the page                            *)
(* ===================================================================== *)

Import Spelling Observe.

(** ** Padded addresses read back *)

Section PaddingFacts.

Lemma hex_uint_of_string_print (u : Hexadecimal.uint) :
  hex_uint_of_string (HexadecimalString.NilEmpty.string_of_uint u) = Some u.
Proof. induction u; simpl; rewrite IHu || idtac; reflexivity. Qed.

Lemma all_lower_hex_print (u : Hexadecimal.uint) :
  all_lower_hex (HexadecimalString.NilEmpty.string_of_uint u) = true.
Proof. induction u; simpl; auto. Qed.

Lemma all_lower_hex_app (s t : string) :
  all_lower_hex (s ++ t) = all_lower_hex s && all_lower_hex t.
Proof.
  induction s as [|c s IH]; simpl; [reflexivity|].
  rewrite IH, andb_assoc. reflexivity.
Qed.

Lemma all_lower_hex_filler (k : nat) (cur : string) :
  cur = "" \/ cur = "0" -> all_lower_hex (filler k "0" cur) = true.
Proof.
  revert cur. induction k as [|k IH]; intros cur H; [reflexivity|].
  destruct H as [-> | ->]; simpl; apply IH; auto.
Qed.

Lemma hex_uint_of_filler (k : nat) (cur s : string) :
  cur = "" \/ cur = "0" ->
  hex_uint_of_string (filler k "0" cur ++ s)
  = Nat.iter k Hexadecimal.D0 <$> hex_uint_of_string s.
Proof.
  revert cur. induction k as [|k IH]; intros cur H.
  - change (hex_uint_of_string s
            = Nat.iter 0 Hexadecimal.D0 <$> hex_uint_of_string s).
    destruct (hex_uint_of_string s); reflexivity.
  - assert (E : filler (S k) "0" cur ++ s
                = String "0" (filler k "0" "" ++ s))
      by (destruct H as [-> | ->]; reflexivity).
    rewrite E.
    change (hex_uint_of_string (String "0" (filler k "0" "" ++ s)))
      with (hex_digit "0" (hex_uint_of_string (filler k "0" "" ++ s))).
    rewrite IH by auto.
    destruct (hex_uint_of_string s); reflexivity.
Qed.

Lemma of_hex_uint_iter_D0 (k : nat) (u : Hexadecimal.uint) :
  N.of_hex_uint (Nat.iter k Hexadecimal.D0 u) = N.of_hex_uint u.
Proof.
  induction k as [|k IH]; [reflexivity|].
  change (N.of_hex_uint (Nat.iter k Hexadecimal.D0 u) = N.of_hex_uint u).
  exact IH.
Qed.

Lemma to_hex_uint_nonnil (n : N) : N.to_hex_uint n <> Hexadecimal.Nil.
Proof.
  destruct n; [discriminate|]. apply HexadecimalPos.Unsigned.to_uint_nonnil.
Qed.

(** The digits that [toString(16)] prints for a non-negative integer. *)
Lemma toString16_digits (z : Z) :
  0 <= z ->
  toString16 z
  = HexadecimalString.NilEmpty.string_of_uint (N.to_hex_uint (Z.to_N z)).
Proof.
  intros Hz. rewrite <- (Z2N.id z Hz) at 1. rewrite toString16_of_N.
  pose proof (to_hex_uint_nonnil (Z.to_N z)) as Hn.
  destruct (N.to_hex_uint (Z.to_N z)); [congruence | reflexivity ..].
Qed.

Lemma padded_nonempty (h : string) : padStart 64 "0" h <> "".
Proof.
  intros E. apply (f_equal String.length) in E.
  pose proof (length_padStart_zero 64 h). simpl in E. lia.
Qed.

Lemma padded_lower_hex (z : Z) :
  0 <= z -> all_lower_hex (padStart 64 "0" (toString16 z)) = true.
Proof.
  intros Hz. unfold padStart.
  rewrite all_lower_hex_app, all_lower_hex_filler by auto.
  rewrite (toString16_digits z Hz). apply all_lower_hex_print.
Qed.

(** [BigInt] reads the padded spelling back. *)
Lemma BigInt_padded (z : Z) :
  0 <= z -> BigInt (str ("0x" ++ padStart 64 "0" (toString16 z))) = Some z.
Proof.
  intros Hz. simpl BigInt. unfold StringToBigInt.
  rewrite (trim_0x _ (padded_lower_hex z Hz)).
  change ("0x" ++ padStart 64 "0" (toString16 z))
    with (String "0" (String "x" (padStart 64 "0" (toString16 z)))).
  change (parse_literal
            (String "0" (String "x" (padStart 64 "0" (toString16 z)))))
    with (parse_hex (padStart 64 "0" (toString16 z))).
  unfold parse_hex.
  pose proof (padded_nonempty (toString16 z)) as Hne.
  destruct (padStart 64 "0" (toString16 z)) eqn:E; [congruence|].
  rewrite <- E. unfold padStart.
  rewrite hex_uint_of_filler by auto.
  rewrite (toString16_digits z Hz), hex_uint_of_string_print. simpl.
  rewrite of_hex_uint_iter_D0, HexadecimalN.Unsigned.of_to, Z2N.id by lia.
  reflexivity.
Qed.

Lemma toHexAddress_parsed (a : any) (z : Z) :
  falsy a = false -> BigInt a = Some z ->
  toHexAddress a = "0x" ++ padStart 64 "0" (toString16 z).
Proof. intros Hf Hz. unfold toHexAddress. rewrite Hf, Hz. reflexivity. Qed.

Lemma falsy_parsed_zero (a : any) (z : Z) :
  falsy a = true -> BigInt a = Some z -> z = 0.
Proof.
  destruct a as [|s|x]; simpl; intros Hf Hz; [discriminate Hz| |].
  - apply String.eqb_eq in Hf. subst s. vm_compute in Hz. congruence.
  - apply Z.eqb_eq in Hf. congruence.
Qed.

(** X1. Padding keeps the address: whatever reads as the non-negative
    integer [z] is padded to a spelling that reads as [z] again; and for a
    present address the padded spelling has the [0x] and at least 64 digits,
    and padding it once more changes nothing. *)
Theorem toHexAddress_roundtrip (a : any) (z : Z)
    (Hz : BigInt a = Some z) (Hnn : 0 <= z) :
  BigInt (str (toHexAddress a)) = Some z
  /\ (falsy a = false ->
      toHexAddress (str (toHexAddress a)) = toHexAddress a
      /\ String.prefix "0x" (toHexAddress a) = true
      /\ (66 <= String.length (toHexAddress a))%nat).
Proof.
  destruct (falsy a) eqn:Hf.
  - split; [|discriminate].
    rewrite (falsy_parsed_zero a z Hf Hz).
    unfold toHexAddress. rewrite Hf. reflexivity.
  - rewrite (toHexAddress_parsed a z Hf Hz).
    split; [now apply BigInt_padded|]. intros _. split; [|split].
    + apply toHexAddress_parsed; [reflexivity | now apply BigInt_padded].
    + destruct (padStart 64 "0" (toString16 z)); reflexivity.
    + rewrite length_append. simpl.
      pose proof (length_padStart_zero 64 (toString16 z)). lia.
Qed.

Lemma toHexAddress_roundtrip_witness :
  BigInt (str "171") = Some 171 /\ 0 <= 171
  /\ BigInt (str (toHexAddress (str "171"))) = Some 171
  /\ toHexAddress (str (toHexAddress (str "171"))) = toHexAddress (str "171")
  /\ String.prefix "0x" (toHexAddress (str "171")) = true
  /\ (66 <= String.length (toHexAddress (str "171")))%nat.
Proof.
  assert (Hnn : 0 <= 171) by (vm_compute; discriminate).
  destruct (toHexAddress_roundtrip (str "171") 171 eq_refl Hnn) as [H1 H2].
  split; [reflexivity|]. split; [exact Hnn|]. split; [exact H1|].
  apply H2. reflexivity.
Defined.

End PaddingFacts.

(** ** The two comparators *)

Section ComparatorFacts.

Lemma lower_char_lower_hex (c : ascii) :
  is_lower_hex_digit c = true -> lower_char c = c.
Proof.
  destruct c as [[|] [|] [|] [|] [|] [|] [|] [|]];
    vm_compute; intros H; try discriminate H; reflexivity.
Qed.

Lemma toLowerCase_lower_hex (d : string) :
  all_lower_hex d = true -> toLowerCase d = d.
Proof.
  induction d as [|c d IH]; simpl; intros H; [reflexivity|].
  apply andb_true_iff in H as [Hc Hd].
  rewrite (lower_char_lower_hex c Hc), (IH Hd). reflexivity.
Qed.

Lemma toLowerCase_padded (z : Z) :
  0 <= z ->
  toLowerCase ("0x" ++ padStart 64 "0" (toString16 z))
  = "0x" ++ padStart 64 "0" (toString16 z).
Proof.
  intros Hz.
  change (toLowerCase ("0x" ++ padStart 64 "0" (toString16 z)))
    with ("0x" ++ toLowerCase (padStart 64 "0" (toString16 z))).
  rewrite (toLowerCase_lower_hex _ (padded_lower_hex z Hz)). reflexivity.
Qed.

(** X2. The comparator of the owner check, of the participation check and
    of the winner column (equality of the padded, lowercased spellings)
    decides equality of the addresses as integers: two present addresses
    reading as non-negative integers compare equal exactly when the
    integers are equal, whatever their spellings. *)
Theorem padded_comparator_decides_equality (a b : any) (x y : Z)
    (Ha : BigInt a = Some x) (Hb : BigInt b = Some y)
    (Hx : 0 <= x) (Hy : 0 <= y)
    (Hpa : falsy a = false) (Hpb : falsy b = false) :
  toLowerCase (toHexAddress a) = toLowerCase (toHexAddress b) <-> x = y.
Proof.
  rewrite (toHexAddress_parsed a x Hpa Ha), (toHexAddress_parsed b y Hpb Hb).
  rewrite (toLowerCase_padded x Hx), (toLowerCase_padded y Hy).
  split; [|now intros ->].
  intros E. apply (f_equal (fun s => BigInt (str s))) in E.
  rewrite (BigInt_padded x Hx), (BigInt_padded y Hy) in E. congruence.
Qed.

Lemma padded_comparator_decides_equality_witness :
  (toLowerCase (toHexAddress (str "0X00AB"))
   = toLowerCase (toHexAddress (bigint 171)) <-> 171 = 171)
  /\ (toLowerCase (toHexAddress (str "0xab"))
      = toLowerCase (toHexAddress (str "0xac")) <-> 171 = 172).
Proof.
  split.
  - apply (padded_comparator_decides_equality (str "0X00AB") (bigint 171)
             171 171); (reflexivity || (vm_compute; discriminate)).
  - apply (padded_comparator_decides_equality (str "0xab") (str "0xac")
             171 172); (reflexivity || (vm_compute; discriminate)).
Defined.

Lemma has_upper_hex_app (s t : string) :
  has_upper_hex (s ++ t) = has_upper_hex s || has_upper_hex t.
Proof.
  induction s as [|c s IH]; simpl; [reflexivity|].
  rewrite IH, orb_assoc. reflexivity.
Qed.

Lemma has_upper_hex_strip (s : string) :
  has_upper_hex (strip_leading_zeros s) = has_upper_hex s.
Proof.
  induction s as [|c s IH]; simpl; [reflexivity|].
  destruct (Ascii.eqb_spec c "0") as [-> | _]; [exact IH | reflexivity].
Qed.

Lemma prefix_0x (s : string) :
  String.prefix "0x" s = true -> exists r, s = "0x" ++ r.
Proof.
  intros H. apply String.prefix_correct in H.
  destruct s as [|c1 [|c2 r]]; try discriminate H.
  exists r. simpl in H. injection H as -> ->. reflexivity.
Qed.

Lemma has_upper_hex_replace_0x (s : string) :
  has_upper_hex (replace "0x" "" s) = has_upper_hex s.
Proof.
  induction s as [|c s IH]; [reflexivity|].
  unfold replace; fold replace.
  destruct (String.prefix "0x" (String c s)) eqn:E.
  - apply prefix_0x in E as [r E]. rewrite E. reflexivity.
  - simpl. now rewrite IH.
Qed.

(** [normalizeAddress] neither adds nor removes a capital hex letter. *)
Lemma has_upper_hex_normalizeAddress (s : string) :
  has_upper_hex (normalizeAddress (str s)) = has_upper_hex s.
Proof.
  unfold normalizeAddress. simpl falsy. simpl String_.
  destruct (String.eqb_spec s "") as [-> | _]; [reflexivity|].
  change (has_upper_hex ("0x" ++ ?t)) with (has_upper_hex t).
  destruct (String.eqb_spec (strip_leading_zeros (replace "0x" "" s)) "")
    as [E | _].
  - rewrite <- (has_upper_hex_replace_0x s).
    rewrite <- (has_upper_hex_strip (replace "0x" "" s)), E. reflexivity.
  - now rewrite has_upper_hex_strip, has_upper_hex_replace_0x.
Qed.

End ComparatorFacts.

(** ** The winner check is spelling-sensitive *)

Section WinnerSpelling.

Variable w : World.

Lemma lower_hex_no_upper (d : string) :
  all_lower_hex d = true -> has_upper_hex d = false.
Proof.
  induction d as [|c d IH]; simpl; intros H; [reflexivity|].
  apply andb_true_iff in H as [Hc Hd]. rewrite (IH Hd), orb_false_r.
  revert Hc. destruct c as [[|] [|] [|] [|] [|] [|] [|] [|]];
    vm_compute; intros H; try discriminate H; reflexivity.
Qed.

Lemma handleZKProof_refusal (p : Snapshot) (store : gmap string Stored)
    (lot : Lot) :
  selectedLotInfo p = Some lot -> finalizado lot = true ->
  falsy (activeAccountAddress p) = false ->
  normalizeAddress (str (mejor_postor lot))
  <> normalizeAddress (activeAccountAddress p) ->
  run (handleZKProof w p) store = onlyTheWinner store.
Proof.
  intros Hl Hf Ha Hne. unfold handleZKProof.
  apply String.eqb_neq in Hne. rewrite Ha, Hl, Hf, Hne. reflexivity.
Qed.

Lemma has_upper_hex_present (c : string) :
  has_upper_hex c = true -> falsy (str c) = false.
Proof. destruct c; [discriminate | reflexivity]. Qed.

(** X3. The winner column compares padded spellings, the payment handler
    compares [normalizeAddress] spellings, and the latter keeps letter
    case: for a finalized lot whose best bidder is stored padded (as
    [fetchAllLots] stores it) and a caller whose address spells the same
    positive integer with a capital hex letter, the column's comparison
    holds and still [handleZKProof] stops with the only-the-winner error. *)
Theorem winner_check_is_case_sensitive (p : Snapshot)
    (store : gmap string Stored) (lot : Lot) (c : string) (z : Z)
    (Hlot : selectedLotInfo p = Some lot) (Hfin : finalizado lot = true)
    (Hcaller : activeAccountAddress p = str c)
    (Hz : BigInt (str c) = Some z) (Hpos : 0 < z)
    (Hbest : mejor_postor lot = toHexAddress (bigint z))
    (Hupper : has_upper_hex c = true) :
  toLowerCase (toHexAddress (str (mejor_postor lot)))
  = toLowerCase (toHexAddress (activeAccountAddress p))
  /\ run (handleZKProof w p) store = onlyTheWinner store.
Proof.
  assert (Hnn : 0 <= z) by lia.
  assert (Hfz : falsy (bigint z) = false) by (simpl; now apply Z.eqb_neq; lia).
  pose proof (has_upper_hex_present c Hupper) as Hfc.
  assert (Hpad : toHexAddress (bigint z)
                 = "0x" ++ padStart 64 "0" (toString16 z))
    by now apply toHexAddress_parsed.
  split.
  - rewrite Hbest, Hcaller.
    destruct (toHexAddress_roundtrip (bigint z) z eq_refl Hnn) as [_ H].
    destruct (H Hfz) as [-> _].
    now rewrite Hpad, (toHexAddress_parsed (str c) z Hfc Hz).
  - apply (handleZKProof_refusal p store lot Hlot Hfin).
    + now rewrite Hcaller.
    + rewrite Hcaller. intros E.
      apply (f_equal has_upper_hex) in E.
      rewrite !has_upper_hex_normalizeAddress, Hupper, Hbest, Hpad in E.
      change (has_upper_hex ("0x" ++ ?t)) with (has_upper_hex t) in E.
      rewrite (lower_hex_no_upper _ (padded_lower_hex z Hnn)) in E.
      discriminate E.
Qed.

End WinnerSpelling.

Lemma winner_check_is_case_sensitive_witness :
  let p := Fixture.snapshot "0xAB" false true 1200 in
  toLowerCase (toHexAddress (str (mejor_postor (Fixture.lot1 true))))
  = toLowerCase (toHexAddress (activeAccountAddress p))
  /\ run (handleZKProof Fixture.world p) ∅ = onlyTheWinner ∅.
Proof.
  apply (winner_check_is_case_sensitive Fixture.world
           (Fixture.snapshot "0xAB" false true 1200) ∅ (Fixture.lot1 true)
           "0xAB" 171); reflexivity.
Defined.

(** ** Submitting a transaction *)

Ltac observe :=
  cbv beta iota zeta delta
    [submissions executed fetched readReceipt markedProofGenerated
     submitted requested hashed started markedZkFinalized
     List.filter List.flat_map List.length app existsb orb negb
     is_execute is_fetch is_computeCommitment is_setIsLoading_true
     is_setZkFinalized is_getTransactionReceipt is_setProofGenerated
     fst snd trace localStorage].

Section ExecuteFacts.

Variable w : World.

(** X4. [executeTransaction] hands the call to an account at most twice;
    it does so twice only for a Cavos session whose first attempt was
    rejected with [Session not registered] and whose registration then
    succeeded; it hands over nothing without an account; it never touches
    [localStorage], and it ends with a transaction hash or by throwing. *)
Theorem executeTransaction_retries_once (p : Snapshot) (call : Call)
    (store : gmap string Stored) :
  let r := run (executeTransaction w p call) store in
  (submissions (fst r) <= 2)%nat
  /\ executed (fst r) = List.repeat call (submissions (fst r))
  /\ (submissions (fst r) = 2%nat ->
      isCavosAuth p = true
      /\ (exists message,
            cavosExecute w 0 call = Rejected message
            /\ includes "Session not registered" message = true)
      /\ registerCurrentSession w 1 = Resolved tt)
  /\ (isCavosAuth p = false -> walletAccount p = None ->
      r = ({| localStorage := store; trace := [] |},
           Throw "No account connected"))
  /\ localStorage (fst r) = store
  /\ snd r <> Return_.
Proof.
  cbv zeta. unfold executeTransaction. exec; observe.
  all: repeat split; try lia; try discriminate; try reflexivity; eauto.
  all: try (match goal with u : unit |- _ => destruct u end; reflexivity).
Qed.

End ExecuteFacts.

Lemma executeTransaction_retries_once_witness :
  let p := Scenario.cavos_snapshot "0xab" 1050 in
  let r := run (executeTransaction Scenario.world_unregistered p
                  Scenario.call1) ∅ in
  submissions (fst r) = 2%nat
  /\ isCavosAuth p = true
  /\ (exists message,
        cavosExecute Scenario.world_unregistered 0 Scenario.call1
        = Rejected message
        /\ includes "Session not registered" message = true)
  /\ registerCurrentSession Scenario.world_unregistered 1 = Resolved tt.
Proof.
  cbv zeta.
  assert (E : submissions
                (fst (run (executeTransaction Scenario.world_unregistered
                             (Scenario.cavos_snapshot "0xab" 1050)
                             Scenario.call1) ∅)) = 2%nat)
    by (vm_compute; reflexivity).
  split; [exact E|].
  apply (proj1 (proj2 (proj2 (executeTransaction_retries_once
                                Scenario.world_unregistered
                                (Scenario.cavos_snapshot "0xab" 1050)
                                Scenario.call1 ∅)))).
  exact E.
Defined.

(** ** What a commit leaves in [localStorage] *)

Section CommitRecordFacts.

Variable poseidonHashMany : list Z -> Z.
Variable w : World.

Lemma handleCommit_submitted (p : Snapshot) (store : gmap string Stored) :
  let r := run (handleCommit poseidonHashMany w p) store in
  submitted (fst r) = true ->
  exists addr s a l c,
    contract p = Some addr
    /\ falsy (activeAccountAddress p) = false
    /\ String.eqb (selectedLotId p) "" = false
    /\ isAuctionActive (currentTime p) (selectedLotInfo p) = true
    /\ BigInt (str (nonce p)) = Some s
    /\ BigInt (str (amount p)) = Some a
    /\ BigInt (str (selectedLotId p)) = Some l
    /\ computeCommitment poseidonHashMany s a l
         (String_ (activeAccountAddress p)) = inl c
    /\ localStorage (fst r) = afterCommit p c store
    /\ Forall (eq {| contractAddress := addr; entrypoint := "commit_bid";
                     calldata := [AStr (selectedLotId p); AStr c] |})
         (executed (fst r)).
Proof.
  cbv zeta. unfold handleCommit.
  exec.
  all: try discriminate.
  all: intros _; do 5 eexists.
  all: do 8 (split; [first [reflexivity | eassumption]|]).
  all: unfold afterCommit, bidKey, commitRecord; observe.
  all: repeat match goal with
         | H : _ !! _ = _ |- _ => rewrite H
         end.
  all: split; [reflexivity|]; repeat constructor.
Qed.

(** X5. Whenever [handleCommit] hands a transaction to an account, the bid
    is already in [localStorage] — the record under the account's key and
    one more entry at the end of the lot's bid list — with the very
    commitment the [commit_bid] calldata carries; nothing that happens to
    the transaction afterwards (rejection, revert, a failing receipt)
    takes the record back. *)
Theorem handleCommit_record_outlives_failure (p : Snapshot)
    (store : gmap string Stored) :
  let r := run (handleCommit poseidonHashMany w p) store in
  submitted (fst r) = true ->
  exists addr s a l c,
    contract p = Some addr
    /\ BigInt (str (nonce p)) = Some s
    /\ BigInt (str (amount p)) = Some a
    /\ BigInt (str (selectedLotId p)) = Some l
    /\ computeCommitment poseidonHashMany s a l
         (String_ (activeAccountAddress p)) = inl c
    /\ localStorage (fst r) = afterCommit p c store
    /\ Forall (eq {| contractAddress := addr; entrypoint := "commit_bid";
                     calldata := [AStr (selectedLotId p); AStr c] |})
         (executed (fst r)).
Proof.
  cbv zeta. intros H.
  destruct (handleCommit_submitted p store H)
    as (addr & s & a & l & c & Hc & _ & _ & _ & Hs & Ha & Hl & Hcc & Hst & Hex).
  exists addr, s, a, l, c. auto 10.
Qed.

End CommitRecordFacts.

Lemma handleCommit_record_outlives_failure_witness :
  let p := Fixture.snapshot "0xab" false false 1050 in
  let r := run (handleCommit Fixture.polyHash Scenario.world_reverting p) ∅ in
  submitted (fst r) = true
  /\ snd r = Normal tt
  /\ exists c,
      computeCommitment Fixture.polyHash 7 50 1 "0xab" = inl c
      /\ localStorage (fst r) = afterCommit p c ∅
      /\ localStorage (fst r) !! "bids_1" = Some (JBids [commitRecord p c]).
Proof.
  cbv zeta.
  assert (E : submitted
                (fst (run (handleCommit Fixture.polyHash
                             Scenario.world_reverting
                             (Fixture.snapshot "0xab" false false 1050)) ∅))
              = true) by (vm_compute; reflexivity).
  split; [exact E|]. split; [vm_compute; reflexivity|].
  destruct (handleCommit_record_outlives_failure Fixture.polyHash
              Scenario.world_reverting
              (Fixture.snapshot "0xab" false false 1050) ∅ E)
    as (addr & s & a & l & c & _ & Hs & Ha & Hl & Hc & Hst & _).
  injection Hs as <-. injection Ha as <-. injection Hl as <-.
  exists c. split; [exact Hc|]. split; [exact Hst|].
  rewrite Hst. injection Hc as <-. vm_compute. reflexivity.
Defined.

(** ** From commit to reveal *)

Section RevealAfterCommit.

Variable poseidonHashMany : list Z -> Z.

Lemma lower_char_idem (c : ascii) : lower_char (lower_char c) = lower_char c.
Proof.
  destruct c as [[|] [|] [|] [|] [|] [|] [|] [|]]; vm_compute; reflexivity.
Qed.

Lemma toLowerCase_idem (s : string) :
  toLowerCase (toLowerCase s) = toLowerCase s.
Proof.
  induction s as [|c s IH]; simpl; [reflexivity|].
  now rewrite lower_char_idem, IH.
Qed.

Lemma bidKey_not_bidsKey (p : Snapshot) :
  bidKey p <> "bids_" ++ selectedLotId p.
Proof. unfold bidKey. discriminate. Qed.

Lemma afterCommit_lookup (p : Snapshot) (c : string)
    (store : gmap string Stored) :
  afterCommit p c store !! bidKey p = Some (JBid (commitRecord p c)).
Proof.
  unfold afterCommit. cbv zeta.
  rewrite lookup_insert_ne by (intros E; now apply (bidKey_not_bidsKey p)).
  apply lookup_insert_eq.
Qed.

(** What [handleReveal] hands to the account when its checks pass. *)
Lemma handleReveal_executes (w : World) (p : Snapshot)
    (store : gmap string Stored) (bid : Bid.t) (addr : string) (s a l : Z) :
  contract p = Some addr -> falsy (activeAccountAddress p) = false ->
  String.eqb (selectedLotId p) "" = false ->
  isAuctionActive (currentTime p) (selectedLotInfo p) = true ->
  store !! bidKey p = Some (JBid bid) ->
  toLowerCase (Bid.winner bid)
  = toLowerCase (toHexAddress (activeAccountAddress p)) ->
  BigInt (str (Bid.secret bid)) = Some s ->
  BigInt (str (Bid.amount bid)) = Some a ->
  BigInt (str (selectedLotId p)) = Some l ->
  computeCommitment poseidonHashMany s a l (String_ (activeAccountAddress p))
  = inl (Bid.commitment bid) ->
  executed (fst (run (handleReveal poseidonHashMany w p) store))
  = [{| contractAddress := addr; entrypoint := "reveal_bid";
        calldata := revealCalldata l a s |}].
Proof.
  intros Ec Hacc Hid Hactive Hstored Hcaller Hs Ha Hl Hcc.
  unfold bidKey in Hstored. unfold handleReveal.
  rewrite Ec, Hacc, Hid, Hactive.
  exec_step. rewrite Hstored. exec_step.
  rewrite Hcaller, String.eqb_refl. exec_step.
  rewrite Hs, Ha, Hl. exec_step. rewrite Hcc. exec_step.
  rewrite String.eqb_refl. exec_step.
  rewrite Ec. exec_step.
  exec; observe; try reflexivity.
  all: exfalso; unfold activeAccountAddress in Hacc;
    repeat match goal with
           | H : isCavosAuth _ = _ |- _ => rewrite H in Hacc
           | H : walletAccount _ = _ |- _ => rewrite H in Hacc
           end; discriminate Hacc.
Qed.

(** X6. A commit that was handed to an account can be revealed from the
    same render, whatever became of the commit transaction: run on the
    [localStorage] the commit left, [handleReveal] passes its commitment
    check and hands over exactly one [reveal_bid] call, carrying the lot id
    and the amount as (low, high) pairs and the secret in hexadecimal. *)
Theorem commit_then_reveal (w1 w2 : World) (p : Snapshot)
    (store : gmap string Stored) :
  let committed_store :=
    localStorage (fst (run (handleCommit poseidonHashMany w1 p) store)) in
  submitted (fst (run (handleCommit poseidonHashMany w1 p) store)) = true ->
  exists addr s a l,
    contract p = Some addr
    /\ BigInt (str (nonce p)) = Some s
    /\ BigInt (str (amount p)) = Some a
    /\ BigInt (str (selectedLotId p)) = Some l
    /\ executed
         (fst (run (handleReveal poseidonHashMany w2 p) committed_store))
       = [{| contractAddress := addr; entrypoint := "reveal_bid";
             calldata := revealCalldata l a s |}].
Proof.
  cbv zeta. intros H.
  destruct (handleCommit_submitted poseidonHashMany w1 p store H)
    as (addr & s & a & l & c & Hc & Hacc & Hid & Hact & Hs & Ha & Hl & Hcc
        & Hst & _).
  exists addr, s, a, l. do 4 (split; [assumption|]). rewrite Hst.
  apply (handleReveal_executes w2 p _ (commitRecord p c) addr s a l);
    try assumption.
  - apply afterCommit_lookup.
  - apply toLowerCase_idem.
Qed.

End RevealAfterCommit.

Lemma commit_then_reveal_witness :
  let p := Fixture.snapshot "0xab" false false 1050 in
  let committed_store :=
    localStorage
      (fst (run (handleCommit Fixture.polyHash Scenario.world_reverting p) ∅))
  in
  executed
    (fst (run (handleReveal Fixture.polyHash Fixture.world p) committed_store))
  = [{| contractAddress := "0xa11ce"; entrypoint := "reveal_bid";
        calldata := AStr <$> ["1"; "0"; "50"; "0"; "0x7"] |}].
Proof.
  cbv zeta.
  destruct (commit_then_reveal Fixture.polyHash Scenario.world_reverting
              Fixture.world (Fixture.snapshot "0xab" false false 1050) ∅)
    as (addr & s & a & l & Hc & Hs & Ha & Hl & Hex).
  - vm_compute. reflexivity.
  - injection Hc as <-. injection Hs as <-. injection Ha as <-.
    injection Hl as <-. exact Hex.
Defined.

(** ** A revealed bid is consumed *)

Section RevealOnce.

Variable poseidonHashMany : list Z -> Z.
Variable w : World.

Lemma handleReveal_without_record (w' : World) (p : Snapshot)
    (store : gmap string Stored) :
  contract p <> None -> falsy (activeAccountAddress p) = false ->
  selectedLotId p <> "" ->
  isAuctionActive (currentTime p) (selectedLotInfo p) = true ->
  store !! bidKey p = None ->
  run (handleReveal poseidonHashMany w' p) store = noCommitData store.
Proof.
  intros Hc Hacc Hid Hactive Hnone. apply String.eqb_neq in Hid.
  unfold bidKey in Hnone. unfold handleReveal.
  destruct (contract p); [|congruence].
  rewrite Hacc, Hid, Hactive. exec_step. rewrite Hnone. reflexivity.
Qed.

(** What [handleReveal] leaves in [localStorage]. *)
Lemma handleReveal_store (p : Snapshot) (store : gmap string Stored) :
  let sys := fst (run (handleReveal poseidonHashMany w p) store) in
  localStorage sys = store
  \/ (exists call txHash,
        entrypoint call = "reveal_bid"
        /\ (if isCavosAuth p then cavosExecute w 0 call
            else walletExecute w call) = Resolved txHash
        /\ receiptSucceeded w txHash = true
        /\ localStorage sys = delete (bidKey p) store).
Proof.
  cbv zeta. unfold handleReveal. exec.
  all: try (left; reflexivity).
  all: right; do 2 eexists.
  all: repeat match goal with
         | H : isCavosAuth _ = _ |- _ => rewrite H
         end.
  all: split; [|split; [eassumption|]]; [reflexivity|].
  all: split; [|reflexivity].
  all: unfold receiptSucceeded.
  all: match goal with
       | H : getTransactionReceipt _ _ = Resolved _ |- _ => rewrite H
       end; assumption.
Qed.

(** X7. [handleReveal] removes the account's record from [localStorage]
    only once the receipt of its [reveal_bid] transaction reported
    [SUCCEEDED], and otherwise leaves [localStorage] as it was; and on a
    connected page with the lot still active, a further [handleReveal] on
    what a successful reveal left stops with the no-commit-data error and
    submits nothing. *)
Theorem reveal_consumes_record (w2 : World) (p : Snapshot)
    (store : gmap string Stored)
    (Hconn : contract p <> None /\ falsy (activeAccountAddress p) = false
             /\ selectedLotId p <> "")
    (Hactive : isAuctionActive (currentTime p) (selectedLotInfo p) = true) :
  let sys := fst (run (handleReveal poseidonHashMany w p) store) in
  (localStorage sys = store
   \/ (exists call txHash,
         entrypoint call = "reveal_bid"
         /\ (if isCavosAuth p then cavosExecute w 0 call
             else walletExecute w call) = Resolved txHash
         /\ receiptSucceeded w txHash = true
         /\ localStorage sys = delete (bidKey p) store))
  /\ (localStorage sys = delete (bidKey p) store ->
      run (handleReveal poseidonHashMany w2 p) (localStorage sys)
      = noCommitData (localStorage sys)).
Proof.
  destruct Hconn as (Hc & Hacc & Hid). cbv zeta.
  split; [apply handleReveal_store|].
  intros ->. apply handleReveal_without_record; try assumption.
  apply lookup_delete_eq.
Qed.

End RevealOnce.

Lemma reveal_consumes_record_witness :
  let p := Fixture.snapshot "0xab" false false 1050 in
  let store := Fixture.store1 Fixture.commitment1 in
  let sys := fst (run (handleReveal Fixture.polyHash Fixture.world p) store) in
  localStorage sys = delete (bidKey p) store
  /\ submitted sys = true
  /\ run (handleReveal Fixture.polyHash Scenario.world_reverting p)
       (localStorage sys)
     = noCommitData (localStorage sys).
Proof.
  cbv zeta.
  assert (Hconn : contract (Fixture.snapshot "0xab" false false 1050) <> None
                  /\ falsy (activeAccountAddress
                              (Fixture.snapshot "0xab" false false 1050))
                     = false
                  /\ selectedLotId (Fixture.snapshot "0xab" false false 1050)
                     <> "")
    by (repeat split; (discriminate || reflexivity)).
  assert (E : localStorage
                (fst (run (handleReveal Fixture.polyHash Fixture.world
                             (Fixture.snapshot "0xab" false false 1050))
                        (Fixture.store1 Fixture.commitment1)))
              = delete (bidKey (Fixture.snapshot "0xab" false false 1050))
                  (Fixture.store1 Fixture.commitment1))
    by (vm_compute; reflexivity).
  split; [exact E|]. split; [vm_compute; reflexivity|].
  apply (proj2 (reveal_consumes_record Fixture.polyHash Fixture.world
                  Scenario.world_reverting
                  (Fixture.snapshot "0xab" false false 1050)
                  (Fixture.store1 Fixture.commitment1) Hconn eq_refl)).
  exact E.
Defined.

(** ** The payment proof *)

Section PaymentProofFacts.

Variable w : World.

Lemma handleZKProof_outcome (p : Snapshot) (store : gmap string Stored) :
  let sys := fst (run (handleZKProof w p) store) in
  (markedProofGenerated sys = false /\ localStorage sys = store)
  \/ (exists bid resp proof call txHash,
        fetch w "/api/zk-payment" (BidBody bid) = Resolved resp
        /\ ok resp = true
        /\ json resp = Resolved proof
        /\ entrypoint call = "verify_payment"
        /\ calldata call = [AStr (selectedLotId p); AArr proof]
        /\ (if isCavosAuth p then cavosExecute w 0 call
            else walletExecute w call) = Resolved txHash
        /\ receiptSucceeded w txHash = true
        /\ markedProofGenerated sys = true
        /\ localStorage sys
           = <["proof_tx_" ++ selectedLotId p := Raw txHash]> store).
Proof.
  cbv zeta. unfold handleZKProof. exec; observe.
  all: try (left; split; reflexivity).
  all: right; do 5 eexists.
  all: repeat match goal with
         | H : isCavosAuth _ = _ |- _ => rewrite H
         end.
  all: split; [eassumption|]; split; [assumption|]; split; [eassumption|].
  all: split; [|split; [|split; [eassumption|]]]; [reflexivity..|].
  all: split; [|split; reflexivity].
  all: unfold receiptSucceeded.
  all: match goal with
       | H : getTransactionReceipt _ _ = Resolved _ |- _ => rewrite H
       end; assumption.
Qed.

Lemma handleZKProof_fetched (p : Snapshot) (store : gmap string Stored) :
  let sys := fst (run (handleZKProof w p) store) in
  requested sys = true ->
  exists bid,
    List.find (isCallersBid p) (bidsOf (store !! ("bids_" ++ selectedLotId p)))
    = Some bid
    /\ fetched sys = [("/api/zk-payment", BidBody bid)].
Proof.
  cbv zeta. unfold handleZKProof. exec; observe.
  all: try discriminate.
  all: intros _; eexists; split; [eassumption | reflexivity].
Qed.

(** X8. Payment is all-or-nothing on the page: a run of [handleZKProof]
    either leaves the proof-generated mark unset and [localStorage] as it
    was, or the backend answered with calldata, the [verify_payment]
    transaction carrying it was accepted and its receipt reported
    [SUCCEEDED]; only then is the lot marked and the transaction hash
    stored under [proof_tx_<lot>]. *)
Theorem payment_all_or_nothing (p : Snapshot) (store : gmap string Stored) :
  let sys := fst (run (handleZKProof w p) store) in
  (markedProofGenerated sys = false /\ localStorage sys = store)
  \/ (exists bid resp proof call txHash,
        fetch w "/api/zk-payment" (BidBody bid) = Resolved resp
        /\ ok resp = true
        /\ json resp = Resolved proof
        /\ entrypoint call = "verify_payment"
        /\ calldata call = [AStr (selectedLotId p); AArr proof]
        /\ (if isCavosAuth p then cavosExecute w 0 call
            else walletExecute w call) = Resolved txHash
        /\ receiptSucceeded w txHash = true
        /\ markedProofGenerated sys = true
        /\ localStorage sys
           = <["proof_tx_" ++ selectedLotId p := Raw txHash]> store).
Proof. exact (handleZKProof_outcome p store). Qed.

(** X9. The payment proof is asked for one bid only: the first entry of the
    lot's stored bid list whose winner has the caller's normalized
    address — so after a second commit by the same account, still the
    first one. *)
Theorem payment_proof_uses_first_bid (p : Snapshot)
    (store : gmap string Stored) :
  let sys := fst (run (handleZKProof w p) store) in
  requested sys = true ->
  exists bid,
    List.find (isCallersBid p) (bidsOf (store !! ("bids_" ++ selectedLotId p)))
    = Some bid
    /\ fetched sys = [("/api/zk-payment", BidBody bid)].
Proof. exact (handleZKProof_fetched p store). Qed.

End PaymentProofFacts.

Example payment_reverted_run :
  let sys := fst (run (handleZKProof Scenario.world_reverting
                         (Fixture.snapshot "0xab" false true 1200))
                    (Fixture.store1 Fixture.commitment1)) in
  requested sys = true /\ submitted sys = true
  /\ markedProofGenerated sys = false
  /\ localStorage sys !! "proof_tx_1" = None.
Proof. vm_compute. repeat split. Qed.

Lemma payment_proof_uses_first_bid_witness :
  let p := Fixture.snapshot "0xab" false true 1200 in
  let sys :=
    fst (run (handleZKProof Fixture.world p) (Scenario.store_rebid "0xab")) in
  (exists first second,
     Scenario.store_rebid "0xab" !! "bids_1" = Some (JBids [first; second])
     /\ Bid.amount first = "50" /\ Bid.amount second = "70"
     /\ Scenario.store_rebid "0xab" !! bidKey p = Some (JBid second))
  /\ requested sys = true
  /\ exists bid,
      Bid.amount bid = "50"
      /\ fetched sys = [("/api/zk-payment", BidBody bid)].
Proof.
  cbv zeta. split; [|split].
  - do 2 eexists. vm_compute. repeat split.
  - vm_compute. reflexivity.
  - destruct (payment_proof_uses_first_bid Fixture.world
                (Fixture.snapshot "0xab" false true 1200)
                (Scenario.store_rebid "0xab")) as (bid & Hfind & Hf).
    + vm_compute. reflexivity.
    + exists bid. split; [|exact Hf].
      vm_compute in Hfind. injection Hfind as <-. reflexivity.
Defined.

(** ** Creating a lot *)

Section CreateLotFacts.

Variable w : World.

Lemma metadataUriOf_prefix (p : Snapshot) :
  String.prefix "ipfs://" (metadataUriOf p) = true.
Proof.
  unfold metadataUriOf.
  destruct (String.prefix "ipfs://" (newMetadataHash p)) eqn:E; [exact E|].
  destruct (newMetadataHash p); reflexivity.
Qed.

Lemma handleCreateLot_calls (p : Snapshot) (store : gmap string Stored) :
  let sys := fst (run (handleCreateLot w p) store) in
  readReceipt sys = false
  /\ localStorage sys = store
  /\ forall call, In call (executed sys) ->
     exists addr lotId peso cantidad dur,
       contract p = Some addr
       /\ BigInt (str (nextLotId p)) = Some lotId
       /\ BigInt (str (newPeso p)) = Some peso
       /\ BigInt (str (newCantidad p)) = Some cantidad
       /\ BigInt (str (newDuration p)) = Some dur
       /\ call = createLotCall p addr lotId peso cantidad dur.
Proof.
  cbv zeta. unfold handleCreateLot. exec; observe.
  all: split; [reflexivity|]; split; [reflexivity|].
  all: intros call Hin; simpl in Hin.
  all: repeat match goal with
         | H : _ \/ _ |- _ => destruct H
         | H : False |- _ => destruct H
         end.
  all: subst call; do 5 eexists; do 5 (split; [reflexivity|]).
  all: unfold createLotCall, metadataUriOf.
  all: repeat match goal with
         | H : String.prefix _ _ = _ |- _ => rewrite H
         end; reflexivity.
Qed.

Lemma handleCreateLot_wallet (p : Snapshot) (store : gmap string Stored)
    (addr txHash : string) (lotId peso cantidad dur : Z) :
  contract p = Some addr -> isOwner p = true -> isCavosAuth p = false ->
  walletAccount p <> None ->
  BigInt (str (nextLotId p)) = Some lotId ->
  BigInt (str (newPeso p)) = Some peso ->
  BigInt (str (newCantidad p)) = Some cantidad ->
  BigInt (str (newDuration p)) = Some dur ->
  walletExecute w (createLotCall p addr lotId peso cantidad dur)
  = Resolved txHash ->
  waitForTransaction w txHash = Resolved tt ->
  run (handleCreateLot w p) store
  = ({| localStorage := store;
        trace := lotCreated Wallet
                   (createLotCall p addr lotId peso cantidad dur) txHash |},
     Normal tt).
Proof.
  intros Hc Ho Hcav Hw H1 H2 H3 H4 Hx Hwait.
  unfold handleCreateLot, activeAccount_falsy, createLotCall, metadataUriOf in *.
  rewrite Hc, Hcav, Ho. destruct (walletAccount p) eqn:Ew; [|congruence].
  exec_step. rewrite H1, H2, H3, H4. exec_step. rewrite Hc, Hcav, Ew.
  exec_step. rewrite Hx. exec_step. rewrite Hwait. reflexivity.
Qed.

(** X10. [handleCreateLot] never asks for a transaction receipt and never
    touches [localStorage]; every call it hands to an account is
    [create_lot] over the form fields, the metadata argument starting with
    [ipfs://]; and for a wallet session, once the wallet accepts the call
    and [waitForTransaction] resolves, it announces success and resets the
    form — whatever the receipt of that transaction would say. *)
Theorem handleCreateLot_trusts_wait (p : Snapshot)
    (store : gmap string Stored) :
  let r := run (handleCreateLot w p) store in
  readReceipt (fst r) = false
  /\ localStorage (fst r) = store
  /\ (forall call, In call (executed (fst r)) ->
      entrypoint call = "create_lot"
      /\ exists lotId peso cantidad dur uri,
          calldata call = [ABig lotId; AStr (newProductor p);
                           AStr (newRaza p); ABig peso; ABig cantidad;
                           AStr uri; ABig dur]
          /\ String.prefix "ipfs://" uri = true)
  /\ (forall addr txHash lotId peso cantidad dur,
        contract p = Some addr -> isOwner p = true ->
        isCavosAuth p = false -> walletAccount p <> None ->
        BigInt (str (nextLotId p)) = Some lotId ->
        BigInt (str (newPeso p)) = Some peso ->
        BigInt (str (newCantidad p)) = Some cantidad ->
        BigInt (str (newDuration p)) = Some dur ->
        walletExecute w (createLotCall p addr lotId peso cantidad dur)
        = Resolved txHash ->
        waitForTransaction w txHash = Resolved tt ->
        r = ({| localStorage := store;
                trace := lotCreated Wallet
                           (createLotCall p addr lotId peso cantidad dur)
                           txHash |},
             Normal tt)).
Proof.
  cbv zeta. destruct (handleCreateLot_calls p store) as (Hr & Hs & Hcalls).
  split; [exact Hr|]. split; [exact Hs|]. split.
  - intros call Hin.
    destruct (Hcalls call Hin)
      as (addr & lotId & peso & cantidad & dur & _ & _ & _ & _ & _ & ->).
    split; [reflexivity|].
    exists lotId, peso, cantidad, dur, (metadataUriOf p).
    split; [reflexivity | apply metadataUriOf_prefix].
  - intros. now apply handleCreateLot_wallet.
Qed.

End CreateLotFacts.

Lemma handleCreateLot_trusts_wait_witness :
  let p := Fixture.snapshot DEFAULT_PRODUCER true false 1050 in
  let call := createLotCall p "0xa11ce" 2 420 30 360000 in
  receiptSucceeded Scenario.world_reverting "0xbeef" = false
  /\ calldata call
     = [ABig 2; AStr DEFAULT_PRODUCER; AStr "0"; ABig 420; ABig 30;
        AStr "ipfs://lot2"; ABig 360000]
  /\ run (handleCreateLot Scenario.world_reverting p) ∅
     = ({| localStorage := ∅; trace := lotCreated Wallet call "0xbeef" |},
        Normal tt).
Proof.
  cbv zeta. split; [reflexivity|]. split; [reflexivity|].
  destruct (handleCreateLot_trusts_wait Scenario.world_reverting
              (Fixture.snapshot DEFAULT_PRODUCER true false 1050) ∅)
    as (_ & _ & _ & H).
  apply (H "0xa11ce" "0xbeef" 2 420 30 360000);
    (reflexivity || discriminate).
Defined.

(** ** The loading flag *)

Section LoadingFacts.

Variable poseidonHashMany : list Z -> Z.
Variable w : World.

Ltac released :=
  exec; observe;
  first [ discriminate | intros _; reflexivity ].

Lemma handleCreateLot_released (p : Snapshot) (store : gmap string Stored) :
  started (fst (run (handleCreateLot w p) store)) = true ->
  last (trace (fst (run (handleCreateLot w p) store)))
  = Some (SetIsLoading false).
Proof. unfold handleCreateLot. released. Qed.

Lemma handleCommit_released (p : Snapshot) (store : gmap string Stored) :
  started (fst (run (handleCommit poseidonHashMany w p) store)) = true ->
  last (trace (fst (run (handleCommit poseidonHashMany w p) store)))
  = Some (SetIsLoading false).
Proof. unfold handleCommit. released. Qed.

Lemma handleReveal_released (p : Snapshot) (store : gmap string Stored) :
  started (fst (run (handleReveal poseidonHashMany w p) store)) = true ->
  last (trace (fst (run (handleReveal poseidonHashMany w p) store)))
  = Some (SetIsLoading false).
Proof. unfold handleReveal. released. Qed.

Lemma handleZKProof_released (p : Snapshot) (store : gmap string Stored) :
  started (fst (run (handleZKProof w p) store)) = true ->
  last (trace (fst (run (handleZKProof w p) store)))
  = Some (SetIsLoading false).
Proof. unfold handleZKProof. released. Qed.

Lemma handleFinalizeWithZK_released (p : Snapshot)
    (store : gmap string Stored) :
  started (fst (run (handleFinalizeWithZK w p) store)) = true ->
  last (trace (fst (run (handleFinalizeWithZK w p) store)))
  = Some (SetIsLoading false).
Proof. unfold handleFinalizeWithZK. released. Qed.

End LoadingFacts.

Section LoadingTheorem.

Variable poseidonHashMany : list Z -> Z.
Variable w : World.

(** X11. No handler leaves the page loading: in every run of
    [handleCreateLot], [handleCommit], [handleReveal], [handleZKProof] and
    [handleFinalizeWithZK] that sets the loading flag, the last effect of
    the run clears it — on success, on an early return inside the [try]
    and on every thrown error alike. *)
Theorem loading_flag_is_released (p : Snapshot) (store : gmap string Stored) :
  let released (r : Sys * Completion unit) :=
    started (fst r) = true ->
    last (trace (fst r)) = Some (SetIsLoading false) in
  released (run (handleCreateLot w p) store)
  /\ released (run (handleCommit poseidonHashMany w p) store)
  /\ released (run (handleReveal poseidonHashMany w p) store)
  /\ released (run (handleZKProof w p) store)
  /\ released (run (handleFinalizeWithZK w p) store).
Proof.
  cbv zeta. split; [apply handleCreateLot_released|].
  split; [apply handleCommit_released|].
  split; [apply handleReveal_released|].
  split; [apply handleZKProof_released | apply handleFinalizeWithZK_released].
Qed.

End LoadingTheorem.

Lemma loading_flag_is_released_witness :
  let r := run (handleCommit Fixture.polyHash Scenario.world_reverting
                  (Fixture.snapshot "0xab" false false 1050)) ∅ in
  let f := run (handleFinalizeWithZK Fixture.world_backend_down
                  (Fixture.snapshot DEFAULT_PRODUCER true false 1200))
             (Fixture.store1 Fixture.commitment1) in
  (started (fst r) = true /\ last (trace (fst r)) = Some (SetIsLoading false))
  /\ (started (fst f) = true
      /\ last (trace (fst f)) = Some (SetIsLoading false)).
Proof.
  cbv zeta.
  destruct (loading_flag_is_released Fixture.polyHash Scenario.world_reverting
              (Fixture.snapshot "0xab" false false 1050) ∅)
    as (_ & Hc & _).
  destruct (loading_flag_is_released Fixture.polyHash
              Fixture.world_backend_down
              (Fixture.snapshot DEFAULT_PRODUCER true false 1200)
              (Fixture.store1 Fixture.commitment1))
    as (_ & _ & _ & _ & Hf).
  split; (split; [vm_compute; reflexivity|]).
  - apply Hc. vm_compute. reflexivity.
  - apply Hf. vm_compute. reflexivity.
Defined.

(** ** What the finalization declares *)

Section FinalizeCallFacts.

Variable w : World.

Lemma handleFinalizeWithZK_calls (p : Snapshot) (store : gmap string Stored) :
  let sys := fst (run (handleFinalizeWithZK w p) store) in
  let bids := bidsOf (store !! ("bids_" ++ selectedLotId p)) in
  (forall request, In request (fetched sys) ->
   request = ("/api/zk-proof", BidsBody bids) /\ bids <> [])
  /\ (forall call, In call (executed sys) ->
      exists addr lot resp proof,
        contract p = Some addr
        /\ selectedLotInfo p = Some lot
        /\ fetch w "/api/zk-proof" (BidsBody bids) = Resolved resp
        /\ json resp = Resolved proof
        /\ mejor_postor lot <> "" /\ mejor_postor lot <> "0x0"
        /\ mejor_puja lot <> "0"
        /\ call = {| contractAddress := addr;
                     entrypoint := "finalize_with_zk";
                     calldata := [AStr (selectedLotId p);
                                  AStr (mejor_postor lot);
                                  AStr (mejor_puja lot); AArr proof] |}).
Proof.
  cbv zeta. unfold handleFinalizeWithZK. exec; observe.
  all: try match goal with
         | H : (List.length [] =? 0)%nat = false |- _ => discriminate H
         end.
  all: split; intros x Hin; simpl in Hin.
  all: repeat match goal with
         | H : _ \/ _ |- _ => destruct H
         | H : False |- _ => destruct H
         end.
  all: subst x; cbv beta iota delta [bidsOf].
  all: try (split; [reflexivity|];
            match goal with
            | H : (List.length ?l =? 0)%nat = false |- ?l <> [] =>
                intros ->; discriminate H
            end).
  all: do 4 eexists; do 4 (split; [first [reflexivity | eassumption]|]).
  all: repeat match goal with
         | H : String.eqb _ _ = false |- _ => apply String.eqb_neq in H
         end.
  all: do 3 (split; [assumption|]); reflexivity.
Qed.

(** X12. Whatever [handleFinalizeWithZK] asks of the backend is a proof
    over the whole non-empty bid list stored for the lot, and whatever it
    hands to an account is [finalize_with_zk] declaring the best bidder and
    best bid of the lot as cached in the render, followed by the calldata the
    backend returned for that list. *)
Theorem finalize_declares_cached_best_bid (p : Snapshot)
    (store : gmap string Stored) :
  let sys := fst (run (handleFinalizeWithZK w p) store) in
  let bids := bidsOf (store !! ("bids_" ++ selectedLotId p)) in
  (forall request, In request (fetched sys) ->
   request = ("/api/zk-proof", BidsBody bids) /\ bids <> [])
  /\ (forall call, In call (executed sys) ->
      exists addr lot resp proof,
        contract p = Some addr
        /\ selectedLotInfo p = Some lot
        /\ fetch w "/api/zk-proof" (BidsBody bids) = Resolved resp
        /\ json resp = Resolved proof
        /\ call = {| contractAddress := addr;
                     entrypoint := "finalize_with_zk";
                     calldata := [AStr (selectedLotId p);
                                  AStr (mejor_postor lot);
                                  AStr (mejor_puja lot); AArr proof] |}).
Proof.
  cbv zeta. destruct (handleFinalizeWithZK_calls p store) as [Hf Hc].
  split; [exact Hf|]. intros call Hin.
  destruct (Hc call Hin)
    as (addr & lot & resp & proof & H1 & H2 & H3 & H4 & _ & _ & _ & H5).
  exists addr, lot, resp, proof. auto.
Qed.

(** X13. For a lot with no best bid cached (an empty or [0x0] best bidder,
    or a best bid of [0]) [handleFinalizeWithZK] never submits, marks or
    stores anything; but the check comes after the proof request: the
    owner's run on an open lot with stored bids first has the backend
    produce a proof and only then fails with the no-winner error. *)
Theorem finalize_without_best_bid (p : Snapshot) (store : gmap string Stored)
    (lot : Lot)
    (Hlot : selectedLotInfo p = Some lot)
    (Hnone : mejor_postor lot = "" \/ mejor_postor lot = "0x0"
             \/ mejor_puja lot = "0") :
  let r := run (handleFinalizeWithZK w p) store in
  submitted (fst r) = false
  /\ markedZkFinalized (fst r) = false
  /\ localStorage (fst r) = store
  /\ (forall bids resp proof,
        contract p <> None -> falsy (activeAccountAddress p) = false ->
        selectedLotId p <> "" -> isOwner p = true -> finalizado lot = false ->
        store !! ("bids_" ++ selectedLotId p) = Some (JBids bids) ->
        bids <> [] ->
        fetch w "/api/zk-proof" (BidsBody bids) = Resolved resp ->
        ok resp = true -> json resp = Resolved proof ->
        r = ({| localStorage := store; trace := proofWithoutWinner bids |},
             Normal tt)).
Proof.
  cbv zeta.
  assert (Hw : (String.eqb (mejor_postor lot) ""
                || String.eqb (mejor_postor lot) "0x0"
                || String.eqb (mejor_puja lot) "0") = true).
  { destruct Hnone as [-> | [-> | ->]];
      rewrite ?String.eqb_refl, ?orb_true_r; reflexivity. }
  assert (Hquiet : submitted (fst (run (handleFinalizeWithZK w p) store))
                   = false
                   /\ markedZkFinalized
                        (fst (run (handleFinalizeWithZK w p) store)) = false
                   /\ localStorage
                        (fst (run (handleFinalizeWithZK w p) store)) = store).
  { unfold handleFinalizeWithZK. rewrite Hlot. revert Hw.
    cbv beta iota delta [orb]. exec; observe; intros Hw.
    all: first [repeat split; reflexivity | discriminate Hw]. }
  destruct Hquiet as (H1 & H2 & H3). do 3 (split; [assumption|]).
  intros bids resp proof Hc Ha Hs Ho Hf Hb Hne Hfetch Hok Hj.
  apply String.eqb_neq in Hs. unfold handleFinalizeWithZK.
  destruct (contract p); [|congruence].
  rewrite Ha, Hs, Hlot, Ho, Hf. exec_step. rewrite Hb. exec_step.
  destruct bids; [congruence|]. exec_step.
  rewrite Hfetch. exec_step. rewrite Hok. exec_step.
  rewrite Hj. exec_step.
  revert Hw. cbv beta iota delta [orb]. intros ->. reflexivity.
Qed.

End FinalizeCallFacts.

Lemma finalize_without_best_bid_witness :
  let lot := Scenario.lot_unbid in
  let p := Scenario.owner_of lot in
  let store := Fixture.store1 Fixture.commitment1 in
  mejor_postor lot = "0x0"
  /\ requested (fst (run (handleFinalizeWithZK Fixture.world p) store)) = true
  /\ run (handleFinalizeWithZK Fixture.world p) store
     = ({| localStorage := store;
           trace := proofWithoutWinner [Fixture.bid1 Fixture.commitment1] |},
        Normal tt).
Proof.
  cbv zeta. split; [reflexivity|]. split; [vm_compute; reflexivity|].
  destruct (finalize_without_best_bid Fixture.world
              (Scenario.owner_of Scenario.lot_unbid)
              (Fixture.store1 Fixture.commitment1) Scenario.lot_unbid
              eq_refl (or_intror (or_introl eq_refl)))
    as (_ & _ & _ & H).
  apply (H [Fixture.bid1 Fixture.commitment1]
           {| ok := true; status := 200; text := Resolved "";
              json := Resolved ["0x1"; "0x2"] |} ["0x1"; "0x2"]);
    try reflexivity; discriminate.
Defined.

(** ** The bidder roster *)

Section RosterFacts.

Import Roster.

Variable v : Views.

Lemma scan_true (lotId userHex : string) (n : nat) (i : Z) :
  scan v lotId userHex i n = Resolved true ->
  exists k bidder,
    i <= k < i + Z.of_nat n
    /\ get_bidder_at v lotId k = Resolved bidder
    /\ toLowerCase (toHexAddress bidder) = userHex.
Proof.
  revert i. induction n as [|n IH]; intros i; simpl; [discriminate|].
  destruct (get_bidder_at v lotId i) as [bidder|] eqn:E; [|discriminate].
  destruct (String.eqb_spec (toLowerCase (toHexAddress bidder)) userHex)
    as [Heq|_].
  - intros _. exists i, bidder. repeat split; (lia || assumption).
  - intros H. destruct (IH _ H) as (k & b & Hk & Hb & Hm).
    exists k, b. repeat split; (lia || assumption).
Qed.

Lemma scan_complete (lotId userHex : string) (n : nat) (i k : Z)
    (bidder : any) :
  (forall j, i <= j < i + Z.of_nat n ->
             exists b, get_bidder_at v lotId j = Resolved b) ->
  i <= k < i + Z.of_nat n ->
  get_bidder_at v lotId k = Resolved bidder ->
  toLowerCase (toHexAddress bidder) = userHex ->
  scan v lotId userHex i n = Resolved true.
Proof.
  revert i. induction n as [|n IH]; intros i Hall Hk Hb Hm; [lia|].
  simpl. destruct (Hall i ltac:(lia)) as [b Ei]. rewrite Ei.
  destruct (String.eqb_spec (toLowerCase (toHexAddress b)) userHex)
    as [_|Hne]; [reflexivity|].
  apply IH; try assumption.
  - intros j Hj. apply Hall. lia.
  - assert (k <> i) by (intros ->; congruence). lia.
Qed.

(** X14. [checkIfUserParticipated] answers true only if some bidder within
    the roster's count has the padded, lowercased spelling of the user's
    address; when every read within the count resolves it answers true for
    each such user; and it answers false without a contract, for an absent
    user, and when the count cannot be read. *)
Theorem checkIfUserParticipated_scans_roster (lotId : string)
    (userAddress : any) :
  let userHex := toLowerCase (toHexAddress userAddress) in
  (checkIfUserParticipated (Some v) lotId userAddress = true ->
   exists count k bidder,
     get_bidders_count v lotId = Resolved count
     /\ 0 <= k < count
     /\ get_bidder_at v lotId k = Resolved bidder
     /\ toLowerCase (toHexAddress bidder) = userHex)
  /\ (forall count k bidder,
        falsy userAddress = false ->
        get_bidders_count v lotId = Resolved count ->
        (forall j, 0 <= j < count ->
                   exists b, get_bidder_at v lotId j = Resolved b) ->
        0 <= k < count ->
        get_bidder_at v lotId k = Resolved bidder ->
        toLowerCase (toHexAddress bidder) = userHex ->
        checkIfUserParticipated (Some v) lotId userAddress = true)
  /\ checkIfUserParticipated None lotId userAddress = false
  /\ (falsy userAddress = true ->
      checkIfUserParticipated (Some v) lotId userAddress = false)
  /\ (forall message,
        get_bidders_count v lotId = Rejected message ->
        checkIfUserParticipated (Some v) lotId userAddress = false).
Proof.
  cbv zeta. unfold checkIfUserParticipated. split; [|split; [|split; [|split]]].
  - destruct (falsy userAddress); [discriminate|].
    destruct (get_bidders_count v lotId) as [count|]; [|discriminate].
    destruct (scan v lotId _ 0 (Z.to_nat count)) as [b|] eqn:E;
      [|discriminate].
    intros ->. destruct (scan_true _ _ _ _ E) as (k & bidder & Hk & Hb & Hm).
    exists count, k, bidder. repeat split; (lia || assumption).
  - intros count k bidder Hf Hc Hall Hk Hb Hm. rewrite Hf, Hc.
    assert (E : scan v lotId (toLowerCase (toHexAddress userAddress)) 0
                  (Z.to_nat count) = Resolved true).
    { apply (scan_complete lotId _ (Z.to_nat count) 0 k bidder);
        try assumption; try lia.
      intros j Hj. apply Hall. lia. }
    rewrite E. reflexivity.
  - reflexivity.
  - intros ->. reflexivity.
  - intros message ->. destruct (falsy userAddress); reflexivity.
Qed.

End RosterFacts.

(** ** Breed names *)

Section BreedFacts.

Import Breed.

Lemma digits_prefix_print (u : Decimal.uint) :
  digits_prefix (DecimalString.NilEmpty.string_of_uint u)
  = DecimalString.NilEmpty.string_of_uint u.
Proof. induction u; simpl; rewrite ?IHu; reflexivity. Qed.

Lemma print_nonempty (u : Decimal.uint) :
  u <> Decimal.Nil -> DecimalString.NilEmpty.string_of_uint u <> "".
Proof. destruct u; (congruence || discriminate). Qed.

Lemma digits_value_print (u : Decimal.uint) :
  u <> Decimal.Nil ->
  digits_value (DecimalString.NilEmpty.string_of_uint u) = Some (Z.of_uint u).
Proof.
  intros Hu. unfold digits_value.
  pose proof (print_nonempty u Hu) as Hne.
  destruct (DecimalString.NilEmpty.string_of_uint u) eqn:E; [congruence|].
  rewrite <- E, DecimalString.NilEmpty.usu. reflexivity.
Qed.

Lemma parseInt10_digit_head (c : ascii) (r : string) :
  is_digit c = true ->
  parseInt10 (String c r) = digits_value (digits_prefix (String c r)).
Proof.
  intros H.
  destruct c as [[|] [|] [|] [|] [|] [|] [|] [|]];
    try (vm_compute in H; discriminate H); reflexivity.
Qed.

Lemma print_digit_head (u : Decimal.uint) :
  u <> Decimal.Nil ->
  exists c r, DecimalString.NilEmpty.string_of_uint u = String c r
              /\ is_digit c = true.
Proof. destruct u; [congruence | do 2 eexists; split; reflexivity ..]. Qed.

(** What [parseInt] sees after an optional sign: the digits of [u]. *)
Lemma parseInt10_digits (u : Decimal.uint) :
  u <> Decimal.Nil ->
  parseInt10 (DecimalString.NilEmpty.string_of_uint u) = Some (Z.of_uint u)
  /\ parseInt10 (String "-" (DecimalString.NilEmpty.string_of_uint u))
     = Some (- Z.of_uint u).
Proof.
  intros Hu. split.
  - destruct (print_digit_head u Hu) as (c & r & E & Hc).
    rewrite E, (parseInt10_digit_head c r Hc), <- E.
    rewrite digits_prefix_print. now apply digits_value_print.
  - change (parseInt10 (String "-" ?s))
      with (Z.opp <$> digits_value (digits_prefix s)).
    rewrite digits_prefix_print, (digits_value_print u Hu). reflexivity.
Qed.

Lemma to_uint_nonnil (p : positive) : Pos.to_uint p <> Decimal.Nil.
Proof. apply DecimalPos.Unsigned.to_uint_nonnil. Qed.

(** [parseInt] reads back what [toString] prints. *)
Lemma parseInt10_toString (k : Z) : parseInt10 (toString k) = Some k.
Proof.
  unfold toString. destruct k as [|q|q]; [reflexivity| |].
  - change (DecimalString.NilZero.string_of_int (Z.to_int (Z.pos q)))
      with (DecimalString.NilZero.string_of_uint (Pos.to_uint q)).
    pose proof (to_uint_nonnil q) as Hq.
    replace (DecimalString.NilZero.string_of_uint (Pos.to_uint q))
      with (DecimalString.NilEmpty.string_of_uint (Pos.to_uint q))
      by (destruct (Pos.to_uint q); (congruence || reflexivity)).
    rewrite (proj1 (parseInt10_digits _ Hq)).
    f_equal. apply (DecimalZ.of_to (Z.pos q)).
  - change (DecimalString.NilZero.string_of_int (Z.to_int (Z.neg q)))
      with (String "-"
              (DecimalString.NilZero.string_of_uint (Pos.to_uint q))).
    pose proof (to_uint_nonnil q) as Hq.
    replace (DecimalString.NilZero.string_of_uint (Pos.to_uint q))
      with (DecimalString.NilEmpty.string_of_uint (Pos.to_uint q))
      by (destruct (Pos.to_uint q); (congruence || reflexivity)).
    rewrite (proj2 (parseInt10_digits _ Hq)).
    f_equal. apply (DecimalZ.of_to (Z.neg q)).
Qed.

(** X15. The breed shown for a lot: the index the contract returns, printed
    by [toString], gives the breed name at that index for [0..6] and is
    shown unchanged for every other integer; and for any text at all the
    result is one of the seven names or the text itself. *)
Theorem getRazaNombre_of_index (k : Z) (text : string) :
  getRazaNombre (toString k)
  = (if Z.leb 0 k && Z.ltb k 7 then default "" (RAZAS !! Z.to_nat k)
     else toString k)
  /\ (In (getRazaNombre text) RAZAS \/ getRazaNombre text = text).
Proof.
  split.
  - unfold getRazaNombre. rewrite parseInt10_toString. unfold RAZAS_at.
    destruct (Z.ltb_spec k 0) as [Hneg|Hnn].
    + destruct (Z.leb_spec 0 k); [lia | reflexivity].
    + destruct (Z.leb_spec 0 k); [|lia]. simpl andb.
      destruct (Z.ltb_spec k 7) as [Hlt|Hge].
      * assert (Hk : k = 0 \/ k = 1 \/ k = 2 \/ k = 3 \/ k = 4 \/ k = 5
                     \/ k = 6) by lia.
        repeat (destruct Hk as [-> | Hk]; [reflexivity|]). subst k.
        reflexivity.
      * replace (RAZAS !! Z.to_nat k) with (@None string); [reflexivity|].
        symmetry. apply lookup_ge_None. simpl. lia.
  - unfold getRazaNombre.
    destruct (parseInt10 text) as [index|]; [|now right].
    destruct (RAZAS_at index) as [name|] eqn:E; [|now right].
    destruct (String.eqb name ""); [now right|]. left.
    unfold RAZAS_at in E. destruct (Z.ltb index 0); [discriminate|].
    apply list_elem_of_lookup_2 in E. now apply list_elem_of_In.
Qed.

End BreedFacts.

(** ** The countdown and the preview *)

Section DisplayFacts.

(** X16. For times that are non-negative whole numbers with the end of the
    window a safe integer: while the window is open the countdown shows
    hours, minutes and seconds that add up to the seconds left, with minutes
    and seconds below 60. *)
Theorem countdown_adds_up (now : Z) (lot : Lot)
    (Hsafe : safeWindow now lot = true)
    (Hopen : now < start_time lot + duration lot) :
  exists h m s,
    getTimeRemaining now (Some lot)
    = toString h ++ "h " ++ toString m ++ "m " ++ toString s ++ "s"
    /\ 0 <= h /\ 0 <= m < 60 /\ 0 <= s < 60
    /\ h * 3600 + m * 60 + s = start_time lot + duration lot - now.
Proof.
  set (r := start_time lot + duration lot - now).
  exists (r / 3600), ((r mod 3600) / 60), (r mod 60).
  assert (Hr : 0 < r) by (unfold r; lia).
  split.
  - unfold getTimeRemaining. fold r.
    destruct (Z.leb_spec r 0); [lia | reflexivity].
  - pose proof (Z.div_mod r 3600 ltac:(lia)) as H1.
    pose proof (Z.mod_pos_bound r 3600 ltac:(lia)) as H2.
    pose proof (Z.div_mod (r mod 3600) 60 ltac:(lia)) as H3.
    pose proof (Z.mod_pos_bound (r mod 3600) 60 ltac:(lia)) as H4.
    assert (H5 : r mod 60 = (r mod 3600) mod 60).
    { symmetry. apply Z.mod_mod_divide. exists 60. reflexivity. }
    assert (H6 : 0 <= r / 3600) by (apply Z.div_pos; lia).
    assert (H7 : 0 <= (r mod 3600) / 60 < 60).
    { split; [apply Z.div_pos; lia|].
      apply Z.div_lt_upper_bound; lia. }
    rewrite H5. repeat split; lia.
Qed.

Lemma countdown_adds_up_witness :
  exists h m s,
    getTimeRemaining 1000 (Some (Fixture.lot1 false))
    = toString h ++ "h " ++ toString m ++ "m " ++ toString s ++ "s"
    /\ 0 <= h /\ 0 <= m < 60 /\ 0 <= s < 60
    /\ h * 3600 + m * 60 + s = 100.
Proof.
  apply (countdown_adds_up 1000 (Fixture.lot1 false)); reflexivity.
Defined.

Variable poseidonHashMany : list Z -> Z.


End DisplayFacts.

(** ** Restoring a bid after a reload *)

Section RestoreFacts.

Variable poseidonHashMany : list Z -> Z.
Variable w : World.

(** X18. After a commit that was handed to an account, the restore effect
    of the same account and lot brings back the committed state with the
    amount, the nonce and the commitment of the stored record, provided the
    roster lists the account; if the roster does not list it (the
    transaction never landed) the stored record is ignored and the form
    comes back empty with a fresh nonce. *)
Theorem restore_after_commit (p : Snapshot) (store : gmap string Stored)
    (fresh : string) :
  let r := run (handleCommit poseidonHashMany w p) store in
  submitted (fst r) = true ->
  exists s a l c,
    BigInt (str (nonce p)) = Some s
    /\ BigInt (str (amount p)) = Some a
    /\ BigInt (str (selectedLotId p)) = Some l
    /\ computeCommitment poseidonHashMany s a l
         (String_ (activeAccountAddress p)) = inl c
    /\ Restore.verifyAndRestore p (localStorage (fst r)) true fresh
       = Some (true, Some {| Restore.committed := true;
                             Restore.amount := amount p;
                             Restore.nonce := nonce p;
                             Restore.commitment := c |})
    /\ Restore.verifyAndRestore p (localStorage (fst r)) false fresh
       = Some (false, Some (Restore.blank fresh)).
Proof.
  cbv zeta. intros H.
  destruct (handleCommit_submitted poseidonHashMany w p store H)
    as (addr & s & a & l & c & _ & Hacc & Hid & _ & Hs & Ha & Hl & Hcc
        & Hst & _).
  exists s, a, l, c. do 4 (split; [assumption|]). rewrite Hst.
  pose proof (afterCommit_lookup p c store) as Hk. unfold bidKey in Hk.
  unfold Restore.verifyAndRestore. rewrite Hacc, Hid. cbn [orb]. cbv zeta.
  rewrite Hk. split; [reflexivity|]. reflexivity.
Qed.

End RestoreFacts.

Lemma restore_after_commit_witness :
  let p := Fixture.snapshot "0xab" false false 1050 in
  let r := run (handleCommit Fixture.polyHash Scenario.world_reverting p) ∅ in
  exists s a l c,
    BigInt (str (nonce p)) = Some s
    /\ BigInt (str (amount p)) = Some a
    /\ BigInt (str (selectedLotId p)) = Some l
    /\ computeCommitment Fixture.polyHash s a l
         (String_ (activeAccountAddress p)) = inl c
    /\ Restore.verifyAndRestore p (localStorage (fst r)) true "9"
       = Some (true, Some {| Restore.committed := true;
                             Restore.amount := amount p;
                             Restore.nonce := nonce p;
                             Restore.commitment := c |})
    /\ Restore.verifyAndRestore p (localStorage (fst r)) false "9"
       = Some (false, Some (Restore.blank "9")).
Proof.
  cbv zeta.
  apply (restore_after_commit Fixture.polyHash Scenario.world_reverting
           (Fixture.snapshot "0xab" false false 1050) ∅ "9").
  vm_compute. reflexivity.
Defined.

(** ** The debug handler *)

Section DebugFacts.

Import Debug.

Variable w : World.

(** X19. [handleDebugReveal] only reads: it leaves [localStorage] as it
    was, hands no transaction to an account, never raises the loading flag
    and never fails; and the debug data it sets are the answer of
    [debug_reveal] for the lot, amount and nonce of the render, with both
    addresses padded. *)
Theorem handleDebugReveal_only_reads (p : Snapshot)
    (store : gmap string Stored) :
  let r := run (handleDebugReveal w p) store in
  localStorage (fst r) = store
  /\ submitted (fst r) = false
  /\ started (fst r) = false
  /\ (forall message, snd r <> Throw message)
  /\ (forall info, In (SetDebugData info) (trace (fst r)) ->
      exists res,
        debug_reveal w (selectedLotId p) (amount p) (nonce p) = Resolved res
        /\ selectedLotId p <> "" /\ amount p <> "" /\ nonce p <> ""
        /\ info = {| dbg_computed := toString (computed res);
                     dbg_stored := toString (stored res);
                     dbg_accountAddress := toHexAddress (accountAddress res);
                     dbg_caller := toHexAddress (caller res);
                     dbg_lotId := selectedLotId p;
                     dbg_amount := amount p;
                     dbg_nonce := nonce p |}).
Proof.
  cbv zeta. unfold handleDebugReveal.
  destruct (String.eqb_spec (selectedLotId p) "") as [El|El];
  destruct (String.eqb_spec (amount p) "") as [Ea|Ea];
  destruct (String.eqb_spec (nonce p) "") as [En|En];
  exec; observe.
  all: do 3 (split; [reflexivity|]).
  all: split; [intros ?; discriminate|].
  all: intros info Hin; cbn [In] in Hin.
  all: repeat match goal with
         | H : _ \/ _ |- _ => destruct H as [H|H]
         end; try discriminate; try contradiction.
  all: injection Hin as <-; eexists; split; [reflexivity|]; auto.
Qed.

End DebugFacts.

(** ** Loading the lots *)

Section LotsFacts.

Variable IPFS_GATEWAY : string.
Variable c : Lots.Chain.

Lemma loadLot_id (i : Z) (row : Lots.Row) :
  Lots.loadLot IPFS_GATEWAY c i = Some row -> id (Lots.lot row) = i.
Proof.
  unfold Lots.loadLot. destruct (Lots.get_lot_info c i); [|discriminate].
  intros [= <-]. reflexivity.
Qed.

Lemma loadLot_resolved (i : Z) :
  Lots.loadLot IPFS_GATEWAY c i = None
  <-> exists message, Lots.get_lot_info c i = Rejected message.
Proof.
  unfold Lots.loadLot. destruct (Lots.get_lot_info c i) as [info|m].
  - split; [discriminate|]. intros [? [=]].
  - split; [eauto|reflexivity].
Qed.

Lemma loadLots_ids (n : nat) (i : Z) (row : Lots.Row) :
  In row (Lots.loadLots IPFS_GATEWAY c i n) ->
  i <= id (Lots.lot row) < i + Z.of_nat n
  /\ Lots.loadLot IPFS_GATEWAY c (id (Lots.lot row)) = Some row.
Proof.
  revert i. induction n as [|n IH]; intros i; simpl; [tauto|].
  destruct (Lots.loadLot IPFS_GATEWAY c i) as [r|] eqn:E.
  - intros [<-|Hin].
    + rewrite (loadLot_id i r E). split; [lia|exact E].
    + destruct (IH _ Hin). split; [lia|assumption].
  - intros Hin. destruct (IH _ Hin). split; [lia|assumption].
Qed.

Lemma loadLots_complete (n : nat) (i k : Z) (row : Lots.Row) :
  i <= k < i + Z.of_nat n ->
  Lots.loadLot IPFS_GATEWAY c k = Some row ->
  In row (Lots.loadLots IPFS_GATEWAY c i n).
Proof.
  revert i. induction n as [|n IH]; intros i Hk Hrow; [lia|]. simpl.
  destruct (Z.eq_dec k i) as [->|Hne].
  - rewrite Hrow. left. reflexivity.
  - assert (Hin : In row (Lots.loadLots IPFS_GATEWAY c (i + 1) n))
      by (apply IH; [lia|assumption]).
    destruct (Lots.loadLot IPFS_GATEWAY c i); [right|]; assumption.
Qed.

Lemma loadLots_sorted (n : nat) (i : Z) :
  Sorted.StronglySorted Z.lt
    (List.map (fun row => id (Lots.lot row))
       (Lots.loadLots IPFS_GATEWAY c i n)).
Proof.
  revert i. induction n as [|n IH]; intros i; simpl; [constructor|].
  destruct (Lots.loadLot IPFS_GATEWAY c i) as [r|] eqn:E; [|apply IH].
  simpl. constructor; [apply IH|].
  apply List.Forall_forall. intros x Hx. apply List.in_map_iff in Hx.
  destruct Hx as (row & <- & Hin). apply loadLots_ids in Hin.
  rewrite (loadLot_id i r E). lia.
Qed.

Lemma listed_dec (rows : list Lots.Row) (k : string) :
  (exists row, In row rows /\ k = toString (id (Lots.lot row)))
  \/ (forall row, In row rows -> k <> toString (id (Lots.lot row))).
Proof.
  induction rows as [|r rows [(row & Hin & Hk)|Hno]].
  - right. intros row [].
  - left. exists row. split; [right; exact Hin|exact Hk].
  - destruct (String.eqb_spec k (toString (id (Lots.lot r)))) as [Hk|Hne].
    + left. exists r. split; [left; reflexivity|exact Hk].
    + right. intros row [<-|Hin]; [exact Hne|apply Hno, Hin].
Qed.

Lemma newParticipated_lookup (account : any) (rows : list Lots.Row)
    (k : string) (v : bool) :
  Lots.newParticipated c account rows !! k = Some v
  <-> (exists row, In row rows /\ k = toString (id (Lots.lot row)))
      /\ v = Roster.checkIfUserParticipated (Some (Lots.roster c)) k account.
Proof.
  unfold Lots.newParticipated.
  assert (G : forall (m : gmap string bool),
    fold_left
      (fun m row =>
         <[toString (id (Lots.lot row)) :=
             Roster.checkIfUserParticipated (Some (Lots.roster c))
               (toString (id (Lots.lot row))) account]> m) rows m !! k
    = Some v
    <-> ((exists row, In row rows /\ k = toString (id (Lots.lot row)))
         /\ v = Roster.checkIfUserParticipated (Some (Lots.roster c)) k
                  account)
        \/ ((forall row, In row rows -> k <> toString (id (Lots.lot row)))
            /\ m !! k = Some v)).
  { induction rows as [|r rows IH]; intros m; simpl.
    - split.
      + intros H. right. split; [tauto|exact H].
      + intros [[[row [[] _]] _]|[_ H]]. exact H.
    - rewrite IH. clear IH.
      destruct (String.eqb_spec k (toString (id (Lots.lot r)))) as [->|Hne].
      + rewrite lookup_insert_eq. split.
        * intros [[_ ->]|[_ [= <-]]]; left; (split; [eauto|reflexivity]).
        * intros [[_ ->]|[Hno _]]; [|exfalso; apply (Hno r); auto].
          destruct (listed_dec rows (toString (id (Lots.lot r))))
            as [Hex|Hnone].
          -- left. split; [exact Hex|reflexivity].
          -- right. split; [exact Hnone|reflexivity].
      + rewrite lookup_insert_ne by congruence. split.
        * intros [[(row & Hin & ->) ->]|[Hno Hm]].
          -- left. split; [eauto|reflexivity].
          -- right. split; [|exact Hm].
             intros row [<-|Hin]; [exact Hne|apply Hno, Hin].
        * intros [[(row & [<-|Hin] & Hk) ->]|[Hno Hm]].
          -- contradiction.
          -- left. split; [eauto|reflexivity].
          -- right. split; [|exact Hm]. intros row Hin. apply Hno. auto. }
  rewrite G. rewrite lookup_empty. split.
  - intros [H|[_ [=]]]. exact H.
  - intros H. left. exact H.
Qed.

(** X20. When the lot count can be read, [fetchAllLots] sets the next lot
    id to the count plus one and lists exactly the lots 1 to count whose
    [get_lot_info] resolves, in ascending order of id: a lot that cannot be
    read is left out without hiding the others.  Every listed lot carries
    the padded best bidder of the contract's answer, and is marked paid only
    if it is finalized and [is_payment_done] answered true.  For a
    connected account with at least one lot listed, the participation flags
    are replaced by one flag per listed lot, the answer of
    [checkIfUserParticipated]; otherwise they are not touched. *)
Theorem fetchAllLots_lists_readable_lots (account : any) (count : Z)
    (Hcount : Lots.get_lot_count c = Resolved count) :
  exists rows,
    Lots.fetchAllLots IPFS_GATEWAY (Some c) account
    = Some {| Lots.setNextLotId := Some (toString (count + 1));
              Lots.setLots := Some rows;
              Lots.setParticipatedLotes :=
                if negb (falsy account) && negb (List.length rows =? 0)%nat
                then Some (Lots.newParticipated c account rows) else None;
              Lots.failedToLoad := false |}
    /\ (forall i, 1 <= i <= count ->
         (exists row, In row rows /\ id (Lots.lot row) = i)
         <-> exists info, Lots.get_lot_info c i = Resolved info)
    /\ Sorted.StronglySorted Z.lt
         (List.map (fun row => id (Lots.lot row)) rows)
    /\ (forall row, In row rows ->
         1 <= id (Lots.lot row) <= count
         /\ exists info,
             Lots.get_lot_info c (id (Lots.lot row)) = Resolved info
             /\ mejor_postor (Lots.lot row)
                = toHexAddress (Info.mejor_postor info)
             /\ finalizado (Lots.lot row) = Info.finalizado info
             /\ (paymentDone (Lots.lot row) = Some true ->
                 Info.finalizado info = true
                 /\ Lots.is_payment_done c (id (Lots.lot row))
                    = Resolved true))
    /\ (forall k v,
         Lots.newParticipated c account rows !! k = Some v
         <-> (exists row, In row rows /\ k = toString (id (Lots.lot row)))
             /\ v = Roster.checkIfUserParticipated (Some (Lots.roster c)) k
                      account).
Proof.
  exists (Lots.loadLots IPFS_GATEWAY c 1 (Z.to_nat count)).
  split; [unfold Lots.fetchAllLots; rewrite Hcount; reflexivity|].
  split; [|split; [apply loadLots_sorted|split]].
  - intros i Hi. split.
    + intros (row & Hin & <-). apply loadLots_ids in Hin.
      destruct Hin as [_ Hrow]. unfold Lots.loadLot in Hrow.
      destruct (Lots.get_lot_info c (id (Lots.lot row))) as [info|];
        [eauto|discriminate].
    + intros [info Hinfo].
      destruct (Lots.loadLot IPFS_GATEWAY c i) as [row|] eqn:E.
      * exists row. split; [|exact (loadLot_id i row E)].
        apply (loadLots_complete _ 1 i); [lia|exact E].
      * apply loadLot_resolved in E. destruct E as [m E]. congruence.
  - intros row Hin. apply loadLots_ids in Hin. destruct Hin as [Hr Hrow].
    split; [lia|]. unfold Lots.loadLot in Hrow.
    destruct (Lots.get_lot_info c (id (Lots.lot row))) as [info|];
      [|discriminate].
    exists info. split; [reflexivity|].
    injection Hrow as Hrow. rewrite <- Hrow. cbn.
    split; [reflexivity|]. split; [reflexivity|].
    destruct (Info.finalizado info); [|discriminate].
    destruct (Lots.is_payment_done c _) as [[|]|]; try discriminate.
    intros _. split; reflexivity.
  - intros k v. apply newParticipated_lookup.
Qed.

(** When the lot count cannot be read nothing is set and the failure is
    shown; without a contract the function does nothing. *)
Lemma fetchAllLots_unreadable_count (account : any) (message : string) :
  Lots.get_lot_count c = Rejected message ->
  Lots.fetchAllLots IPFS_GATEWAY (Some c) account
  = Some {| Lots.setNextLotId := None; Lots.setLots := None;
            Lots.setParticipatedLotes := None; Lots.failedToLoad := true |}.
Proof. unfold Lots.fetchAllLots. intros ->. reflexivity. Qed.

End LotsFacts.

(** ** The facts above on concrete pages *)

Lemma finalize_declares_cached_best_bid_witness :
  let p := Fixture.snapshot DEFAULT_PRODUCER true false 1200 in
  let store := Fixture.store1 Fixture.commitment1 in
  let bids := bidsOf (store !! "bids_1") in
  let call :=
    {| contractAddress := "0xa11ce";
       entrypoint := "finalize_with_zk";
       calldata := [AStr "1"; AStr (toHexAddress (bigint 171)); AStr "50";
                    AArr ["0x1"; "0x2"]] |} in
  In call (executed (fst (run (handleFinalizeWithZK Fixture.world p) store)))
  /\ exists addr lot resp proof,
      contract p = Some addr
      /\ selectedLotInfo p = Some lot
      /\ fetch Fixture.world "/api/zk-proof" (BidsBody bids) = Resolved resp
      /\ json resp = Resolved proof
      /\ call = {| contractAddress := addr;
                   entrypoint := "finalize_with_zk";
                   calldata := [AStr (selectedLotId p);
                                AStr (mejor_postor lot);
                                AStr (mejor_puja lot); AArr proof] |}.
Proof.
  cbv zeta.
  assert (Hin : In {| contractAddress := "0xa11ce";
                      entrypoint := "finalize_with_zk";
                      calldata := [AStr "1"; AStr (toHexAddress (bigint 171));
                                   AStr "50"; AArr ["0x1"; "0x2"]] |}
                  (executed
                     (fst (run (handleFinalizeWithZK Fixture.world
                                  (Fixture.snapshot DEFAULT_PRODUCER true false
                                     1200))
                             (Fixture.store1 Fixture.commitment1)))))
    by (vm_compute; left; reflexivity).
  split; [exact Hin|].
  exact (proj2 (finalize_declares_cached_best_bid Fixture.world
                  (Fixture.snapshot DEFAULT_PRODUCER true false 1200)
                  (Fixture.store1 Fixture.commitment1)) _ Hin).
Defined.

Lemma checkIfUserParticipated_scans_roster_witness :
  Roster.checkIfUserParticipated (Some Scenario.roster) "1" (str "0xb0b")
  = true
  /\ exists count k bidder,
      Roster.get_bidders_count Scenario.roster "1" = Resolved count
      /\ 0 <= k < count
      /\ Roster.get_bidder_at Scenario.roster "1" k = Resolved bidder
      /\ toLowerCase (toHexAddress bidder)
         = toLowerCase (toHexAddress (str "0xb0b")).
Proof.
  assert (H : Roster.checkIfUserParticipated (Some Scenario.roster) "1"
                (str "0xb0b") = true) by (vm_compute; reflexivity).
  split; [exact H|].
  exact (proj1 (checkIfUserParticipated_scans_roster Scenario.roster "1"
                  (str "0xb0b")) H).
Defined.

Lemma handleDebugReveal_only_reads_witness :
  let p := Fixture.snapshot "0xab" false false 1050 in
  let r := run (Debug.handleDebugReveal Scenario.world_debug p) ∅ in
  let info :=
    {| dbg_computed := "11"; dbg_stored := "12";
       dbg_accountAddress := toHexAddress (bigint 171);
       dbg_caller := toHexAddress (str "0xab");
       dbg_lotId := "1"; dbg_amount := "50"; dbg_nonce := "7" |} in
  In (SetDebugData info) (trace (fst r))
  /\ localStorage (fst r) = ∅
  /\ submitted (fst r) = false.
Proof.
  cbv zeta. split; [vm_compute; auto|].
  destruct (handleDebugReveal_only_reads Scenario.world_debug
              (Fixture.snapshot "0xab" false false 1050) ∅)
    as (Hs & Hx & _).
  split; [exact Hs|exact Hx].
Defined.

Lemma fetchAllLots_lists_readable_lots_witness :
  exists rows,
    Lots.setLots
    <$> Lots.fetchAllLots "https://gateway.pinata.cloud" (Some Scenario.chain)
          (str "0xb0b")
    = Some (Some rows)
    /\ List.map (fun row => id (Lots.lot row)) rows = [1; 3]
    /\ Sorted.StronglySorted Z.lt
         (List.map (fun row => id (Lots.lot row)) rows)
    /\ Lots.newParticipated Scenario.chain (str "0xb0b") rows !! "3"
       = Some true.
Proof.
  destruct (fetchAllLots_lists_readable_lots "https://gateway.pinata.cloud"
              Scenario.chain (str "0xb0b") 3 eq_refl)
    as (rows & Hrun & _ & Hsorted & _ & Hflags).
  exists rows. split; [rewrite Hrun; reflexivity|].
  assert (E : rows
              = Lots.loadLots "https://gateway.pinata.cloud" Scenario.chain 1 3).
  { unfold Lots.fetchAllLots in Hrun. cbn [Scenario.chain Lots.get_lot_count]
      in Hrun. injection Hrun as Hrun _. symmetry. exact Hrun. }
  split; [rewrite E; vm_compute; reflexivity|]. split; [exact Hsorted|].
  apply Hflags. rewrite E. split.
  - eexists. split; [right; left; reflexivity|reflexivity].
  - vm_compute. reflexivity.
Defined.

(** ** What the page offers and what the handlers accept *)

Section OfferFacts.

Variable poseidonHashMany : list Z -> Z.
Variable w : World.

Lemma handleCommit_started (p : Snapshot) (store : gmap string Stored) :
  contract p <> None -> falsy (activeAccountAddress p) = false ->
  selectedLotId p <> "" ->
  started (fst (run (handleCommit poseidonHashMany w p) store))
  = isAuctionActive (currentTime p) (selectedLotInfo p).
Proof.
  intros Hc Ha Hs. unfold handleCommit.
  apply String.eqb_neq in Hs. rewrite Ha, Hs.
  destruct (contract p) eqn:Ec; [|congruence].
  destruct (isAuctionActive (currentTime p) (selectedLotInfo p));
    [|reflexivity].
  exec; reflexivity.
Qed.

Lemma handleReveal_started (p : Snapshot) (store : gmap string Stored) :
  contract p <> None -> falsy (activeAccountAddress p) = false ->
  selectedLotId p <> "" ->
  started (fst (run (handleReveal poseidonHashMany w p) store))
  = isAuctionActive (currentTime p) (selectedLotInfo p).
Proof.
  intros Hc Ha Hs. unfold handleReveal.
  apply String.eqb_neq in Hs. rewrite Ha, Hs.
  destruct (contract p) eqn:Ec; [|congruence].
  destruct (isAuctionActive (currentTime p) (selectedLotInfo p));
    [|reflexivity].
  exec; reflexivity.
Qed.

Lemma handleZKProof_started (p : Snapshot) (store : gmap string Stored)
    (lot : Lot) :
  falsy (activeAccountAddress p) = false ->
  selectedLotInfo p = Some lot -> finalizado lot = true ->
  String.eqb (normalizeAddress (str (mejor_postor lot)))
    (normalizeAddress (activeAccountAddress p)) = true ->
  started (fst (run (handleZKProof w p) store))
  = match List.find (isCallersBid p)
            (bidsOf (store !! ("bids_" ++ selectedLotId p))) with
    | Some _ => true
    | None => false
    end.
Proof.
  intros Ha Hl Hf Hw. unfold handleZKProof, isCallersBid, bidsOf.
  rewrite Ha, Hl, Hf, Hw.
  exec; try reflexivity.
  all: try match goal with
         | H : (List.length ?l =? 0)%nat = true |- _ =>
             destruct l; [try reflexivity|discriminate H]
         end.
  all: try match goal with
         | H : List.find _ [] = Some _ |- _ => discriminate H
         end.
Qed.

(** X21. On a connected page, for the selected lot: when the commit form is
    shown [handleCommit] passes its guards and starts, and when the reveal
    form is shown [handleReveal] does; when the panel shows the expiry
    notice or nothing, both refuse to start; when the finalize button is
    shown [handleFinalizeWithZK] starts.  The pay button is shown without
    looking at [localStorage], but [handleZKProof] starts only if the bid
    list stored for the lot in this browser holds a bid of the caller. *)
Theorem offered_actions_and_guards (p : Snapshot) (f : View.Flags)
    (lot : Lot) (store : gmap string Stored)
    (Hlot : selectedLotInfo p = Some lot)
    (Hconn : contract p <> None /\ View.rendersPage p = true
             /\ selectedLotId p <> "") :
  let commits :=
    started (fst (run (handleCommit poseidonHashMany w p) store)) in
  let reveals :=
    started (fst (run (handleReveal poseidonHashMany w p) store)) in
  (forall enabled,
     View.bidPanel p f lot = View.CommitForm enabled -> commits = true)
  /\ (forall enabled,
        View.bidPanel p f lot = View.RevealForm enabled -> reveals = true)
  /\ (View.bidPanel p f lot = View.Expired
      \/ View.bidPanel p f lot = View.NoPanel ->
      commits = false /\ reveals = false)
  /\ (View.finalizeButton p f lot = true ->
      started (fst (run (handleFinalizeWithZK w p) store)) = true)
  /\ (View.payButton p f lot = true ->
      (started (fst (run (handleZKProof w p) store)) = true
       <-> exists bid,
            List.find (isCallersBid p)
              (bidsOf (store !! ("bids_" ++ selectedLotId p)))
            = Some bid)).
Proof.
  destruct Hconn as (Hc & Hr & Hs). cbv zeta.
  assert (Ha : falsy (activeAccountAddress p) = false)
    by (unfold View.rendersPage in Hr; now apply negb_true_iff in Hr).
  rewrite (handleCommit_started p store Hc Ha Hs).
  rewrite (handleReveal_started p store Hc Ha Hs). rewrite Hlot.
  assert (Hfin : isAuctionActive (currentTime p) (Some lot) = true ->
                 finalizado lot = false)
    by (unfold isAuctionActive; destruct (finalizado lot); auto).
  assert (Hpanel :
    if isAuctionActive (currentTime p) (Some lot)
    then View.bidPanel p f lot <> View.Expired
         /\ View.bidPanel p f lot <> View.NoPanel
    else View.bidPanel p f lot = View.Expired
         \/ View.bidPanel p f lot = View.NoPanel).
  { unfold View.bidPanel.
    destruct (isAuctionActive (currentTime p) (Some lot)).
    - rewrite (Hfin eq_refl). cbn [negb andb].
      destruct (committed p); cbn [negb];
        [destruct (View.revealed f); cbn [negb]|]; split; discriminate.
    - cbn [negb andb]. destruct (finalizado lot); auto. }
  destruct (isAuctionActive (currentTime p) (Some lot)).
  - split; [reflexivity|]. split; [reflexivity|].
    split; [intros [H|H]; now destruct Hpanel|]. clear Hpanel. split.
    + unfold View.finalizeButton. intros H.
      apply andb_true_iff in H. destruct H as [H _].
      apply andb_true_iff in H. destruct H as [Ho Hf].
      apply negb_true_iff in Hf.
      rewrite (handleFinalizeWithZK_started w p store lot Hc Ha Hs Hlot Hf).
      exact Ho.
    + unfold View.payButton. rewrite (Hfin eq_refl). discriminate.
  - split; [intros enabled H; destruct Hpanel as [E|E]; congruence|].
    split; [intros enabled H; destruct Hpanel as [E|E]; congruence|].
    split; [auto|]. clear Hpanel. split.
    + unfold View.finalizeButton. intros H.
      apply andb_true_iff in H. destruct H as [H _].
      apply andb_true_iff in H. destruct H as [Ho Hf].
      apply negb_true_iff in Hf.
      rewrite (handleFinalizeWithZK_started w p store lot Hc Ha Hs Hlot Hf).
      exact Ho.
    + unfold View.payButton. intros H.
      do 3 (apply andb_true_iff in H; destruct H as [H _]).
      apply andb_true_iff in H. destruct H as [Hf Hw].
      rewrite (handleZKProof_started p store lot Ha Hlot Hf Hw).
      destruct (List.find _ _) as [bid|]; split; eauto; try discriminate.
      intros [bid [=]].
Qed.

End OfferFacts.

Lemma offered_actions_and_guards_witness :
  let bidder := Fixture.snapshot "0xab" false false 1050 in
  let winner := Fixture.snapshot "0xab" false true 1200 in
  let f :=
    {| View.participatedLotes := ∅; View.proofGeneratedLotes := ∅;
       View.zkFinalizedLotes := ∅; View.revealed := false;
       View.isLoading := false |} in
  (View.bidPanel bidder f (Fixture.lot1 false) = View.CommitForm true
   /\ started
        (fst (run (handleCommit Fixture.polyHash Fixture.world bidder) ∅))
      = true)
  /\ (View.payButton winner f (Fixture.lot1 true) = true
      /\ started (fst (run (handleZKProof Fixture.world winner) ∅)) = false).
Proof.
  cbv zeta. split.
  - split; [vm_compute; reflexivity|].
    apply (proj1 (offered_actions_and_guards Fixture.polyHash Fixture.world
                    (Fixture.snapshot "0xab" false false 1050)
                    {| View.participatedLotes := ∅;
                       View.proofGeneratedLotes := ∅;
                       View.zkFinalizedLotes := ∅; View.revealed := false;
                       View.isLoading := false |}
                    (Fixture.lot1 false) ∅ eq_refl
                    ltac:(vm_compute; repeat split; discriminate)) true).
    vm_compute. reflexivity.
  - assert (Hpay : View.payButton (Fixture.snapshot "0xab" false true 1200)
                     {| View.participatedLotes := ∅;
                        View.proofGeneratedLotes := ∅;
                        View.zkFinalizedLotes := ∅; View.revealed := false;
                        View.isLoading := false |}
                     (Fixture.lot1 true) = true) by (vm_compute; reflexivity).
    split; [exact Hpay|].
    pose proof (proj2 (proj2 (proj2 (proj2
                  (offered_actions_and_guards Fixture.polyHash Fixture.world
                     (Fixture.snapshot "0xab" false true 1200)
                     {| View.participatedLotes := ∅;
                        View.proofGeneratedLotes := ∅;
                        View.zkFinalizedLotes := ∅; View.revealed := false;
                        View.isLoading := false |}
                     (Fixture.lot1 true) ∅ eq_refl
                     ltac:(vm_compute; repeat split; discriminate)))))
                  Hpay) as Hiff.
    destruct (started (fst (run (handleZKProof Fixture.world
                                   (Fixture.snapshot "0xab" false true 1200))
                              ∅))); [|reflexivity].
    destruct (proj1 Hiff eq_refl) as [bid Hbid]. vm_compute in Hbid.
    discriminate Hbid.
Defined.
